(** * photoswipe-slideshow: the slideshow plugin for PhotoSwipe v5

    A shallow embedding of [src/photoswipe-slideshow.esm.js]: the class
    [PhotoSwipeSlideshow], the browser objects it talks to (timers, local
    storage, the progress bar, the wake lock) and the events that drive it.

    - JavaScript numbers are IEEE 754 binary64 values, so they are the
      primitive floats of Rocq, which are the same format.
    - A method is a function on [World], the plugin object together with the
      parts of the document, the window and the gallery it reads or writes.
    - Code that the browser runs later (timeout callbacks, listeners, promise
      reactions) is a function of its own, run by an [event]; timeouts may
      expire in any order, promises may settle at any time.
    - The elements registered in 'uiRegister' (the two icons, the progress
      bar) are in the document whenever a method runs, and [pswp] is the open
      gallery; the [.pswp__counter] element may be missing, as the code
      allows.
    - The page answers as a browser does where the code relies on it: the
      gallery's counter element writes its own text into [.pswp__counter] on
      every 'change', and a style drops an assigned transition duration that
      is not a CSS time. *)

From Stdlib Require Import Bool List ZArith PArith Lia String.
From Stdlib Require Import Floats.
Import ListNotations.

(** ** JavaScript numbers *)

Module JS.

Definition number := float.

(** [isNaN(x)] on a number. *)
Definition isNaN (x : number) : bool := PrimFloat.is_nan x.

(** ToBoolean on a number: [0], [-0] and [NaN] are falsy. *)
Definition truthy (x : number) : bool :=
  negb (PrimFloat.is_zero x || PrimFloat.is_nan x).

(** [a || b] on numbers. *)
Definition or (a b : number) : number := if truthy a then a else b.

(** [a != b] on numbers. *)
Definition neq (a b : number) : bool := negb (PrimFloat.eqb a b).

(** [Math.max(a, b)]: NaN if either is NaN, and [+0] is larger than [-0]. *)
Definition Math_max (a b : number) : number :=
  if isNaN a || isNaN b then PrimFloat.nan
  else if PrimFloat.ltb a b then b
  else if PrimFloat.ltb b a then a
  else if PrimFloat.get_sign a then b else a.

(** [Math.min(a, b)]: NaN if either is NaN, and [-0] is smaller than [+0]. *)
Definition Math_min (a b : number) : number :=
  if isNaN a || isNaN b then PrimFloat.nan
  else if PrimFloat.ltb a b then a
  else if PrimFloat.ltb b a then b
  else if PrimFloat.get_sign b then b else a.

End JS.

(** ** Constants *)

Definition INT32_MAX : JS.number := 2147483647%float.

(** [Math.min(Math.max(newDelay, 1000), INT32_MAX)] *)
Definition clampDelay (newDelay : JS.number) : JS.number :=
  JS.Math_min (JS.Math_max newDelay 1000%float) INT32_MAX.

(** The requested delay lies within the two bounds. *)
Definition inBounds (d : JS.number) : bool :=
  PrimFloat.leb 1000%float d && PrimFloat.leb d INT32_MAX.

(** ** The gallery's slide content *)

Local Open Scope string_scope.

(** The fields of a video element that the plugin reads. *)
Record HTMLMediaElement := {
  paused : bool;
  duration : JS.number;
  currentTime : JS.number;
  ended : bool;
  readyState : Z;
  networkState : Z
}.

(** Constants of the browser's [HTMLMediaElement] interface. *)
Definition HAVE_ENOUGH_DATA : Z := 4.
Definition NETWORK_IDLE : Z := 1.
Definition NETWORK_LOADING : Z := 2.

(** [pswp.currSlide.content]: [data_type] is [content.data.type] ([None] when
    [data] or [type] is missing), [isLoading] the result of
    [content.isLoading()]. *)
Record Content := {
  data_type : option string;
  element : HTMLMediaElement;
  isLoading : bool
}.

(** ** Browser objects *)

(** The three callbacks the plugin hands to [setTimeout]. *)
Inductive callback :=
| NextSlide                                        (* lines 281-288 *)
| ShowProgressBar (currentSlideTimeout : JS.number)  (* lines 292-296 *)
| Recheck.                                         (* lines 299-301 *)

Record timer := {
  timer_id : positive;
  timer_callback : callback;
  timer_delay : JS.number
}.

(** A wake lock sentinel handed out by [navigator.wakeLock.request]. *)
Definition sentinel := nat.

(** Calls made to the wake lock interfaces, in order. *)
Inductive wakeLockCall :=
| SetKeepAwake (b : bool)      (* screen.keepAwake = b *)
| Request                      (* navigator.wakeLock.request('screen') *)
| Release (h : sentinel).      (* sentinel.release() *)

(** The text of the [.pswp__counter] element. *)
Inductive counterHTML :=
| SlideCounter                 (* what the gallery wrote *)
| Seconds (s : JS.number).     (* `${s}s` *)

Record ProgressBar := {
  bar_running : bool;                           (* class 'running' *)
  transitionTimingFunction : option string;
  transitionDuration : option JS.number;        (* `${n}ms` *)
  opacity : option JS.number
}.

Record Document := {
  progressBar : ProgressBar;                    (* .pswp__progress-bar *)
  icn_stop_display : string;                    (* #pswp__icn-stop *)
  icn_play_display : string;                    (* #pswp__icn-play *)
  pswp_counter : option counterHTML             (* .pswp__counter, if any *)
}.

Record Window := {
  localStorage : option JS.number;   (* item 'pswp_delay', read by Number() *)
  timers : list timer;               (* pending timeouts *)
  nextTimer : positive;              (* the handle setTimeout returns next *)
  screen_keepAwake : option bool;    (* screen.keepAwake, if 'keepAwake' in screen *)
  navigator_wakeLock : bool;         (* 'wakeLock' in navigator *)
  wakeLockCalls : list wakeLockCall;
  pendingRequests : nat;             (* request() promises not yet settled *)
  pendingReleases : nat;             (* release() promises not yet settled *)
  releaseListeners : list sentinel   (* sentinels carrying the 'release' listener *)
}.

Record Gallery := {
  currSlide : Content;               (* pswp.currSlide.content *)
  listeners : nat                    (* 'change' and 'close' listeners from init() *)
}.

(** ** The plugin object *)

Record Options := {
  defaultDelayMs : JS.number;
  playPauseButtonOrder : Z;
  progressBarPosition : string;
  progressBarTransition : string;
  restartOnSlideChange : bool;
  autoHideProgressBar : bool
}.

Definition defaultOptions : Options := {|
  defaultDelayMs := 4000%float;
  playPauseButtonOrder := 6;
  progressBarPosition := "top";
  progressBarTransition := "ease";
  restartOnSlideChange := false;
  autoHideProgressBar := true
|}.

Record PhotoSwipeSlideshow := {
  options : Options;
  slideshowIsRunning : bool;
  slideshowTimerID : option positive;
  wakeLockIsRunning : bool;
  wakeLockSentinel : option sentinel
}.

(** Everything a method of the plugin can read or write. *)
Record World := {
  this : PhotoSwipeSlideshow;
  document : Document;
  window : Window;
  pswp : Gallery
}.

(** *** Field updates *)

Definition set_this (f : PhotoSwipeSlideshow -> PhotoSwipeSlideshow) (w : World) : World :=
  {| this := f (this w); document := document w; window := window w; pswp := pswp w |}.

Definition set_document (f : Document -> Document) (w : World) : World :=
  {| this := this w; document := f (document w); window := window w; pswp := pswp w |}.

Definition set_window (f : Window -> Window) (w : World) : World :=
  {| this := this w; document := document w; window := f (window w); pswp := pswp w |}.

Definition set_pswp (f : Gallery -> Gallery) (w : World) : World :=
  {| this := this w; document := document w; window := window w; pswp := f (pswp w) |}.

Definition with_defaultDelayMs (d : JS.number) (o : Options) : Options :=
  {| defaultDelayMs := d;
     playPauseButtonOrder := playPauseButtonOrder o;
     progressBarPosition := progressBarPosition o;
     progressBarTransition := progressBarTransition o;
     restartOnSlideChange := restartOnSlideChange o;
     autoHideProgressBar := autoHideProgressBar o |}.

Definition with_options (f : Options -> Options) (p : PhotoSwipeSlideshow) :=
  {| options := f (options p);
     slideshowIsRunning := slideshowIsRunning p;
     slideshowTimerID := slideshowTimerID p;
     wakeLockIsRunning := wakeLockIsRunning p;
     wakeLockSentinel := wakeLockSentinel p |}.

Definition with_slideshowIsRunning (b : bool) (p : PhotoSwipeSlideshow) :=
  {| options := options p;
     slideshowIsRunning := b;
     slideshowTimerID := slideshowTimerID p;
     wakeLockIsRunning := wakeLockIsRunning p;
     wakeLockSentinel := wakeLockSentinel p |}.

Definition with_slideshowTimerID (i : option positive) (p : PhotoSwipeSlideshow) :=
  {| options := options p;
     slideshowIsRunning := slideshowIsRunning p;
     slideshowTimerID := i;
     wakeLockIsRunning := wakeLockIsRunning p;
     wakeLockSentinel := wakeLockSentinel p |}.

Definition with_wakeLockIsRunning (b : bool) (p : PhotoSwipeSlideshow) :=
  {| options := options p;
     slideshowIsRunning := slideshowIsRunning p;
     slideshowTimerID := slideshowTimerID p;
     wakeLockIsRunning := b;
     wakeLockSentinel := wakeLockSentinel p |}.

Definition with_wakeLockSentinel (h : option sentinel) (p : PhotoSwipeSlideshow) :=
  {| options := options p;
     slideshowIsRunning := slideshowIsRunning p;
     slideshowTimerID := slideshowTimerID p;
     wakeLockIsRunning := wakeLockIsRunning p;
     wakeLockSentinel := h |}.

Definition with_progressBar (f : ProgressBar -> ProgressBar) (d : Document) :=
  {| progressBar := f (progressBar d);
     icn_stop_display := icn_stop_display d;
     icn_play_display := icn_play_display d;
     pswp_counter := pswp_counter d |}.

Definition with_icons (stop play : string) (d : Document) :=
  {| progressBar := progressBar d;
     icn_stop_display := stop;
     icn_play_display := play;
     pswp_counter := pswp_counter d |}.

Definition with_pswp_counter (c : option counterHTML) (d : Document) :=
  {| progressBar := progressBar d;
     icn_stop_display := icn_stop_display d;
     icn_play_display := icn_play_display d;
     pswp_counter := c |}.

Definition with_localStorage (v : option JS.number) (x : Window) :=
  {| localStorage := v;
     timers := timers x;
     nextTimer := nextTimer x;
     screen_keepAwake := screen_keepAwake x;
     navigator_wakeLock := navigator_wakeLock x;
     wakeLockCalls := wakeLockCalls x;
     pendingRequests := pendingRequests x;
     pendingReleases := pendingReleases x;
     releaseListeners := releaseListeners x |}.

Definition with_timers (ts : list timer) (n : positive) (x : Window) :=
  {| localStorage := localStorage x;
     timers := ts;
     nextTimer := n;
     screen_keepAwake := screen_keepAwake x;
     navigator_wakeLock := navigator_wakeLock x;
     wakeLockCalls := wakeLockCalls x;
     pendingRequests := pendingRequests x;
     pendingReleases := pendingReleases x;
     releaseListeners := releaseListeners x |}.

(** The wake lock side of the window: the flag, the log of calls, the
    promises in flight and the sentinels that carry the listener. *)
Definition with_wakeLock (k : option bool) (calls : list wakeLockCall)
    (req rel : nat) (ls : list sentinel) (x : Window) :=
  {| localStorage := localStorage x;
     timers := timers x;
     nextTimer := nextTimer x;
     screen_keepAwake := k;
     navigator_wakeLock := navigator_wakeLock x;
     wakeLockCalls := calls;
     pendingRequests := req;
     pendingReleases := rel;
     releaseListeners := ls |}.

Definition with_currSlide (c : Content) (g : Gallery) :=
  {| currSlide := c; listeners := listeners g |}.

Definition with_listeners (n : nat) (g : Gallery) :=
  {| currSlide := currSlide g; listeners := n |}.

(** ** Timers of the window *)

(** [setTimeout(cb, delay)]: the handle returned and the window afterwards.
    Handles are positive integers, so every handle is truthy. *)
Definition setTimeout (cb : callback) (delay : JS.number) (w : World) : positive * World :=
  let id := nextTimer (window w) in
  let t := {| timer_id := id; timer_callback := cb; timer_delay := delay |} in
  (id, set_window (with_timers (timers (window w) ++ [t]) (Pos.succ id)) w).

Definition has_id (id : positive) (t : timer) : bool := Pos.eqb (timer_id t) id.

(** [clearTimeout(id)] *)
Definition clearTimeout (id : positive) (w : World) : World :=
  set_window
    (fun x => with_timers (filter (fun t => negb (has_id id t)) (timers x)) (nextTimer x) x) w.

(** ** Methods of [PhotoSwipeSlideshow] *)

(** [content?.data?.type === 'video'] *)
Definition isVideoContent (content : Content) : bool :=
  match data_type content with
  | Some t => String.eqb t "video"
  | None => false
  end.

Definition getSlideTimeout (w : World) : JS.number :=
  let slideContent := currSlide (pswp w) in
  if isVideoContent slideContent then
    let videoElement := element slideContent in
    if paused videoElement then defaultDelayMs (options (this w))
    else
      let durationSec := duration videoElement in
      let currentTimeSec := currentTime videoElement in
      if JS.isNaN durationSec || JS.isNaN currentTimeSec
      then defaultDelayMs (options (this w))
      else ((durationSec - currentTimeSec) * 1000)%float
  else defaultDelayMs (options (this w)).

Definition slideContentHasLoaded (w : World) : bool :=
  let slideContent := currSlide (pswp w) in
  if isVideoContent slideContent then
    let videoElement := element slideContent in
    ended videoElement
    || (Z.eqb (readyState videoElement) HAVE_ENOUGH_DATA
        && existsb (Z.eqb (networkState videoElement)) [NETWORK_IDLE; NETWORK_LOADING])
  else negb (isLoading slideContent).

Definition getSlideTransition (w : World) : string :=
  if isVideoContent (currSlide (pswp w)) then "linear"
  else progressBarTransition (options (this w)).

(** What [style.transitionDuration = `${t}ms`] leaves in the style. A style
    keeps an assignment only when the text parses as a value of the
    property, and a transition duration is a time that is not negative: the
    text of a finite number from zero on is kept, [Infinityms], [NaNms] and a
    negative time are dropped and the style keeps what it had. *)
Definition isCSSDuration (t : JS.number) : bool :=
  PrimFloat.leb 0%float t && PrimFloat.ltb t PrimFloat.infinity.

Definition assignDuration (t : JS.number) (old : option JS.number) : option JS.number :=
  if isCSSDuration t then Some t else old.

(** [toggleProgressBar(currentSlideTimeout)]; [None] is the call without an
    argument. The transition is ['linear'] or the option, a CSS timing
    function as its documentation asks, which the style keeps. *)
Definition toggleProgressBar (currentSlideTimeout : option JS.number) (w : World) : World :=
  let start t :=
    set_document (with_progressBar (fun b =>
      {| bar_running := true;
         transitionTimingFunction := Some (getSlideTransition w);
         transitionDuration := assignDuration t (transitionDuration b);
         opacity := opacity b |})) w in
  let stop :=
    set_document (with_progressBar (fun b =>
      {| bar_running := false;
         transitionTimingFunction := transitionTimingFunction b;
         transitionDuration := transitionDuration b;
         opacity := opacity b |})) w in
  match currentSlideTimeout with
  | Some t => if JS.truthy t then start t else stop
  | None => stop
  end.

Definition resetSlideshow (w : World) : World :=
  let w := toggleProgressBar None w in
  match slideshowTimerID (this w) with
  | Some id => set_this (with_slideshowTimerID None) (clearTimeout id w)
  | None => w
  end.

Definition goToNextSlideAfterTimeout (w : World) : World :=
  let w := resetSlideshow w in
  if slideContentHasLoaded w then
    let currentSlideTimeout := getSlideTimeout w in
    let (id, w) := setTimeout NextSlide currentSlideTimeout w in
    let w := set_this (with_slideshowTimerID (Some id)) w in
    snd (setTimeout (ShowProgressBar currentSlideTimeout) 100%float w)
  else
    let (id, w) := setTimeout Recheck 200%float w in
    set_this (with_slideshowTimerID (Some id)) w.

Definition toggleWakeLock (w : World) : World :=
  if Bool.eqb (wakeLockIsRunning (this w)) (slideshowIsRunning (this w)) then w
  else
    let x := window w in
    let w :=
      match screen_keepAwake x with
      | Some _ =>
          set_window (with_wakeLock (Some (slideshowIsRunning (this w)))
            (wakeLockCalls x ++ [SetKeepAwake (slideshowIsRunning (this w))])
            (pendingRequests x) (pendingReleases x) (releaseListeners x)) w
      | None =>
          if navigator_wakeLock x then
            match wakeLockSentinel (this w) with
            | Some h =>
                set_window (with_wakeLock None (wakeLockCalls x ++ [Release h])
                  (pendingRequests x) (S (pendingReleases x)) (releaseListeners x)) w
            | None =>
                set_window (with_wakeLock None (wakeLockCalls x ++ [Request])
                  (S (pendingRequests x)) (pendingReleases x) (releaseListeners x)) w
            end
          else w
      end in
    set_this (with_wakeLockIsRunning (slideshowIsRunning (this w))) w.

Definition setSlideshowState (w : World) : World :=
  let w := set_this (fun p => with_slideshowIsRunning (negb (slideshowIsRunning p)) p) w in
  let w := if slideshowIsRunning (this w) then goToNextSlideAfterTimeout w
           else resetSlideshow w in
  let w := set_document (with_icons
             (if slideshowIsRunning (this w) then "inline" else "none")
             (if slideshowIsRunning (this w) then "none" else "inline")) w in
  let w := set_document (with_progressBar (fun b =>
             {| bar_running := bar_running b;
                transitionTimingFunction := transitionTimingFunction b;
                transitionDuration := transitionDuration b;
                opacity := if autoHideProgressBar (options (this w)) then None
                           else Some 1%float |})) w in
  toggleWakeLock w.

Definition setSlideshowLength (newDelay : JS.number) (w : World) : World :=
  let w := set_this (with_options (with_defaultDelayMs (clampDelay newDelay))) w in
  if JS.neq (defaultDelayMs (options (this w))) newDelay
  then set_window (with_localStorage (Some (defaultDelayMs (options (this w))))) w
  else w.

Definition changeSlideshowLength (delta : JS.number) (w : World) : World :=
  if negb (slideshowIsRunning (this w)) then w
  else
    let w := setSlideshowLength (defaultDelayMs (options (this w)) + delta)%float w in
    let w := set_window (with_localStorage (Some (defaultDelayMs (options (this w))))) w in
    let w :=
      match pswp_counter (document w) with
      | Some _ =>
          set_document (with_pswp_counter
            (Some (Seconds (defaultDelayMs (options (this w)) / 1000)%float))) w
      | None => w
      end in
    goToNextSlideAfterTimeout w.

(** ** Listeners and callbacks *)

(** The lightbox 'change' listener registered by [init]. *)
Definition onChange (w : World) : World :=
  if slideshowIsRunning (this w) && restartOnSlideChange (options (this w))
  then goToNextSlideAfterTimeout w
  else w.

(** The lightbox 'close' listener registered by [init]. *)
Definition onClose (w : World) : World :=
  if slideshowIsRunning (this w) then setSlideshowState w else w.

(** An event of the gallery reaches every listener registered by [init]. *)
Definition dispatch (listener : World -> World) (w : World) : World :=
  Nat.iter (listeners (pswp w)) listener w.

(** The 'change' listener of the gallery's own counter element: it writes the
    slide indicator over whatever [.pswp__counter] shows. *)
Definition updateCounter (w : World) : World :=
  match pswp_counter (document w) with
  | Some _ => set_document (with_pswp_counter (Some SlideCounter)) w
  | None => w
  end.

(** The gallery shows the slide with content [c] and dispatches 'change': to
    the listeners of [init], and to its counter element, which write
    different parts of the page. *)
Definition pswp_change (c : Content) (w : World) : World :=
  updateCounter (dispatch onChange (set_pswp (with_currSlide c) w)).

(** [pswp.next()]: when the gallery moves, to a slide with content [c], it
    dispatches 'change'; [None] is a call that leaves the index as it is. *)
Definition pswp_next (moved : option Content) (w : World) : World :=
  match moved with
  | Some c => pswp_change c w
  | None => w
  end.

(** The body of a timeout callback. *)
Definition runCallback (cb : callback) (moved : option Content) (w : World) : World :=
  match cb with
  | NextSlide =>
      let w := pswp_next moved w in
      if restartOnSlideChange (options (this w)) then w
      else goToNextSlideAfterTimeout w
  | ShowProgressBar currentSlideTimeout =>
      if slideshowIsRunning (this w)
      then toggleProgressBar (Some currentSlideTimeout) w
      else w
  | Recheck => goToNextSlideAfterTimeout w
  end.

(** The 'keydown' listener registered in 'uiRegister'. *)
Definition onKeyDown (code : string) (w : World) : World :=
  if String.eqb code "Space" then setSlideshowState w
  else if existsb (String.eqb code) ["ArrowUp"; "NumpadAdd"; "Equal"]
  then changeSlideshowLength 1000%float w
  else if existsb (String.eqb code) ["ArrowDown"; "NumpadSubtract"; "Minus"]
  then changeSlideshowLength (-1000)%float w
  else w.

(** [init(pswp)]: one more 'change' and one more 'close' listener. *)
Definition init (w : World) : World :=
  set_pswp (fun g => with_listeners (S (listeners g)) g) w.

(** The [then] of [navigator.wakeLock.request('screen')], lines 363-372. *)
Definition requestFulfilled (h : sentinel) (w : World) : World :=
  let x := window w in
  match pendingRequests x with
  | O => w
  | S n =>
      set_this (with_wakeLockSentinel (Some h))
        (set_window (with_wakeLock (screen_keepAwake x) (wakeLockCalls x)
           n (pendingReleases x) (h :: releaseListeners x)) w)
  end.

(** The [catch] of the request, line 373. *)
Definition requestRejected (w : World) : World :=
  let x := window w in
  match pendingRequests x with
  | O => w
  | S n =>
      set_window (with_wakeLock (screen_keepAwake x) (wakeLockCalls x)
        n (pendingReleases x) (releaseListeners x)) w
  end.

(** The [then] of [sentinel.release()], lines 356-358. *)
Definition releaseFulfilled (w : World) : World :=
  let x := window w in
  match pendingReleases x with
  | O => w
  | S n =>
      set_this (with_wakeLockSentinel None)
        (set_window (with_wakeLock (screen_keepAwake x) (wakeLockCalls x)
           (pendingRequests x) n (releaseListeners x)) w)
  end.

(** The 'release' listener of a sentinel, lines 368-371. *)
Definition onSentinelRelease (h : sentinel) (w : World) : World :=
  if existsb (Nat.eqb h) (releaseListeners (window w))
  then set_this (fun p => with_wakeLockIsRunning false (with_wakeLockSentinel None p)) w
  else w.

(** ** The constructor *)

(** [Number(localStorage.getItem('pswp_delay'))]; a missing item reads [0]. *)
Definition storedDelay (w : World) : JS.number :=
  match localStorage (window w) with
  | Some x => x
  | None => 0%float
  end.

(** [new PhotoSwipeSlideshow(lightbox, options)] in a browser with the given
    document, window and gallery; [opts] is the caller's options merged over
    [defaultOptions]. *)
Definition constructor (opts : Options) (d : Document) (x : Window) (g : Gallery) : World :=
  let w := {| this := {| options := opts;
                         slideshowIsRunning := false;
                         slideshowTimerID := None;
                         wakeLockIsRunning := false;
                         wakeLockSentinel := None |};
              document := d; window := x; pswp := g |} in
  let w := setSlideshowLength (JS.or (storedDelay w) (defaultDelayMs (options (this w)))) w in
  set_this (fun p =>
    {| options := options p;
       slideshowIsRunning := false;
       slideshowTimerID := None;
       wakeLockIsRunning := false;
       wakeLockSentinel := None |}) w.

(** The page before the plugin runs: the registered elements of an open
    gallery, no timeout pending, no wake lock asked for. *)
Definition freshDocument (counter : bool) : Document :=
  {| progressBar := {| bar_running := false;
                       transitionTimingFunction := None;
                       transitionDuration := None;
                       opacity := None |};
     icn_stop_display := "none";
     icn_play_display := "";
     pswp_counter := if counter then Some SlideCounter else None |}.

Definition freshWindow (stored : option JS.number) (keepAwake : option bool)
    (wakeLock : bool) : Window :=
  {| localStorage := stored;
     timers := [];
     nextTimer := 1%positive;
     screen_keepAwake := keepAwake;
     navigator_wakeLock := wakeLock;
     wakeLockCalls := [];
     pendingRequests := 0;
     pendingReleases := 0;
     releaseListeners := [] |}.

(** What the embedding takes from outside the plugin. *)
Record Setup := {
  setup_options : Options;
  setup_stored : option JS.number;
  setup_keepAwake : option bool;
  setup_wakeLock : bool;
  setup_counter : bool;
  setup_content : Content
}.

Definition start (c : Setup) : World :=
  constructor (setup_options c)
    (freshDocument (setup_counter c))
    (freshWindow (setup_stored c) (setup_keepAwake c) (setup_wakeLock c))
    {| currSlide := setup_content c; listeners := 0 |}.

(** ** Events *)

Inductive event :=
| LightboxInit                                   (* lightbox 'init' *)
| Click                                          (* the play/pause button *)
| KeyDown (code : string)
| SlideChange (c : Content)                      (* the user moves to a slide *)
| ContentUpdate (c : Content)                    (* loading or playback goes on *)
| GalleryClose                                   (* lightbox 'close' *)
| TimerFires (id : positive) (moved : option Content)
| WakeLockGranted (h : sentinel)
| WakeLockDenied
| ReleaseSettled
| SentinelReleased (h : sentinel).

(** The timeout with handle [id] expires: it leaves the pending list and its
    callback runs. *)
Definition fire (id : positive) (moved : option Content) (w : World) : World :=
  match find (has_id id) (timers (window w)) with
  | Some t => runCallback (timer_callback t) moved (clearTimeout id w)
  | None => w
  end.

Definition step (w : World) (e : event) : World :=
  match e with
  | LightboxInit => init w
  | Click => setSlideshowState w
  | KeyDown code => onKeyDown code w
  | SlideChange c => pswp_change c w
  | ContentUpdate c => set_pswp (with_currSlide c) w
  | GalleryClose => dispatch onClose w
  | TimerFires id moved => fire id moved w
  | WakeLockGranted h => requestFulfilled h w
  | WakeLockDenied => requestRejected w
  | ReleaseSettled => releaseFulfilled w
  | SentinelReleased h => onSentinelRelease h w
  end.

Definition run (es : list event) (w : World) : World := fold_left step es w.

(** ** Observations *)

Definition delay (w : World) : JS.number := defaultDelayMs (options (this w)).

(** Timeouts whose handle the plugin keeps in [slideshowTimerID]. *)
Definition isAdvance (t : timer) : bool :=
  match timer_callback t with
  | NextSlide | Recheck => true
  | ShowProgressBar _ => false
  end.

Definition advanceTimers (w : World) : list timer :=
  filter isAdvance (timers (window w)).

Definition isRelease (c : wakeLockCall) : bool :=
  match c with Release _ => true | _ => false end.

(** Every pending advance timeout is the one whose handle the plugin keeps:
    there is none, or there is one and [slideshowTimerID] is its handle. *)
Definition timerInv (w : World) : bool :=
  match advanceTimers w with
  | [] => true
  | [t] =>
      match slideshowTimerID (this w) with
      | Some id => Pos.eqb (timer_id t) id
      | None => false
      end
  | _ => false
  end.

(** The handles of the pending timeouts are pairwise distinct and below the
    next handle [setTimeout] gives out. *)
Definition freshHandles (l : list timer) (n : positive) : Prop :=
  NoDup (map timer_id l) /\
  Forall (fun t => (timer_id t < n)%positive) l.

Definition timersFresh (w : World) : Prop :=
  freshHandles (timers (window w)) (nextTimer (window w)).

(** No advance timeout is pending while the slideshow is stopped. *)
Definition stoppedInv (w : World) : bool :=
  slideshowIsRunning (this w)
  || match advanceTimers w with [] => true | _ => false end.

(** Timeouts of the 100 ms callback that shows the progress bar. *)
Definition displayTimers (w : World) : list timer :=
  filter (fun t => negb (isAdvance t)) (timers (window w)).

(** Two states with the same pending timeouts, next handle and kept handle. *)
Definition sameQueue (w w' : World) : Prop :=
  timers (window w') = timers (window w) /\
  nextTimer (window w') = nextTimer (window w) /\
  slideshowTimerID (this w') = slideshowTimerID (this w).

(** A pending timeout whose handle the plugin keeps is an advance timeout. *)
Definition handleInv (w : World) : Prop :=
  forall t, In t (timers (window w)) ->
    slideshowTimerID (this w) = Some (timer_id t) -> isAdvance t = true.

(** The advance timeout [goToNextSlideAfterTimeout] starts in [w]: the
    timeout of lines 281-288 when the content has loaded, the 200 ms one of
    lines 299-301 when it has not. *)
Definition scheduledTimer (w : World) : timer :=
  if slideContentHasLoaded w
  then {| timer_id := nextTimer (window w); timer_callback := NextSlide;
          timer_delay := getSlideTimeout w |}
  else {| timer_id := nextTimer (window w); timer_callback := Recheck;
          timer_delay := 200%float |}.

(** The 100 ms timeout it starts with it when the content has loaded. *)
Definition scheduledDisplay (w : World) : timer :=
  {| timer_id := Pos.succ (nextTimer (window w));
     timer_callback := ShowProgressBar (getSlideTimeout w);
     timer_delay := 100%float |}.

(** The flag with the [display] of the two icons. *)
Definition icons (w : World) : bool * string * string :=
  (slideshowIsRunning (this w),
   icn_stop_display (document w), icn_play_display (document w)).

(** The icon shown matches the flag: the stop icon while running, the play
    icon (shown by default, or inline) while stopped. *)
Definition iconInv (w : World) : bool :=
  if slideshowIsRunning (this w)
  then String.eqb (icn_stop_display (document w)) "inline"
       && String.eqb (icn_play_display (document w)) "none"
  else String.eqb (icn_stop_display (document w)) "none"
       && (String.eqb (icn_play_display (document w)) ""
           || String.eqb (icn_play_display (document w)) "inline").

(** The flags and the browser state that [toggleWakeLock] and the wake lock
    callbacks read and write. *)
Definition wakeLockState (w : World) :
    bool * bool * option sentinel
    * (option bool * bool * list wakeLockCall * nat * nat * list sentinel) :=
  (slideshowIsRunning (this w), wakeLockIsRunning (this w),
   wakeLockSentinel (this w),
   (screen_keepAwake (window w), navigator_wakeLock (window w),
    wakeLockCalls (window w), pendingRequests (window w),
    pendingReleases (window w), releaseListeners (window w))).

(** Browsers with [screen.keepAwake]: the property follows the slideshow,
    and the Screen Wake Lock API is never used. *)
Definition keepAwakeInv (w : World) : Prop :=
  screen_keepAwake (window w) = Some (slideshowIsRunning (this w)) /\
  wakeLockIsRunning (this w) = slideshowIsRunning (this w) /\
  wakeLockSentinel (this w) = None /\
  pendingRequests (window w) = 0 /\
  releaseListeners (window w) = [] /\
  Forall (fun call => exists b, call = SetKeepAwake b) (wakeLockCalls (window w)).

(** Browsers with neither interface: nothing is ever asked of a wake lock. *)
Definition noWakeLockInv (w : World) : Prop :=
  screen_keepAwake (window w) = None /\
  navigator_wakeLock (window w) = false /\
  wakeLockIsRunning (this w) = slideshowIsRunning (this w) /\
  wakeLockSentinel (this w) = None /\
  pendingRequests (window w) = 0 /\
  releaseListeners (window w) = [] /\
  wakeLockCalls (window w) = [].

(** What [setSlideshowState] does to the flags and the wake lock (lines 139
    and 157), without the scheduling and the icons in between. *)
Definition flipAndToggle (w : World) : World :=
  toggleWakeLock
    (set_this (with_slideshowIsRunning (negb (slideshowIsRunning (this w)))) w).

(** The progress bar is marked running only while the slideshow runs. *)
Definition barInv (w : World) : bool :=
  slideshowIsRunning (this w) || negb (bar_running (progressBar (document w))).

(** The plugin's fields say it holds a screen wake lock through sentinel
    [h]: the flag is set and [h] is the sentinel stored. *)
Definition holdsLock (w : World) (h : sentinel) : Prop :=
  wakeLockIsRunning (this w) = true /\
  wakeLockSentinel (this w) = Some h /\
  screen_keepAwake (window w) = None /\
  navigator_wakeLock (window w) = true.

(** [release()] was called on sentinel [h]. *)
Definition releaseCalled (h : sentinel) (w : World) : bool :=
  existsb (fun call => match call with
                       | Release h' => Nat.eqb h h'
                       | _ => false
                       end) (wakeLockCalls (window w)).

(** The sentinels the browser has handed to the plugin on which it never
    called [release()]. *)
Definition unreleased (w : World) : list sentinel :=
  filter (fun h => negb (releaseCalled h w)) (releaseListeners (window w)).

(** The calls one [toggleWakeLock] adds to the log. *)
Definition wakeLockCallsOf (w : World) : list wakeLockCall :=
  if Bool.eqb (wakeLockIsRunning (this w)) (slideshowIsRunning (this w)) then []
  else match screen_keepAwake (window w) with
       | Some _ => [SetKeepAwake (slideshowIsRunning (this w))]
       | None =>
           if navigator_wakeLock (window w) then
             match wakeLockSentinel (this w) with
             | Some h => [Release h]
             | None => [Request]
             end
           else []
       end.

(** A binary64 value above zero: a positive finite number or [+Infinity]. *)
Definition positive_SF (x : spec_float) : bool :=
  match x with
  | S754_infinity false | S754_finite false _ _ => true
  | _ => false
  end.

(** ** Sample pages *)

Module Sample.

Definition video (isPaused : bool) (durationSec currentTimeSec : JS.number)
    (hasEnded : bool) (ready network : Z) : Content :=
  {| data_type := Some "video";
     element := {| paused := isPaused;
                   duration := durationSec;
                   currentTime := currentTimeSec;
                   ended := hasEnded;
                   readyState := ready;
                   networkState := network |};
     isLoading := false |}.

Arguments video isPaused durationSec%_float currentTimeSec%_float
  hasEnded ready%_Z network%_Z.

(** An image; its element is not a media element, and the plugin reads none
    of these fields. *)
Definition image (loading : bool) : Content :=
  {| data_type := Some "image";
     element := {| paused := true;
                   duration := PrimFloat.nan;
                   currentTime := 0%float;
                   ended := false;
                   readyState := 0;
                   networkState := 0 |};
     isLoading := loading |}.

(** A browser with the Screen Wake Lock API, nothing stored, default
    options, a gallery showing [c]. *)
Definition setup (c : Content) : Setup :=
  {| setup_options := defaultOptions;
     setup_stored := None;
     setup_keepAwake := None;
     setup_wakeLock := true;
     setup_counter := true;
     setup_content := c |}.

(** The same in a browser with neither [screen.keepAwake] nor
    [navigator.wakeLock]. *)
Definition setupNoWakeLock (c : Content) : Setup :=
  {| setup_options := defaultOptions;
     setup_stored := None;
     setup_keepAwake := None;
     setup_wakeLock := false;
     setup_counter := true;
     setup_content := c |}.

(** The page of [setup] for a caller that passes [defaultDelayMs: NaN]. *)
Definition setupNaN (c : Content) : Setup :=
  {| setup_options := with_defaultDelayMs PrimFloat.nan defaultOptions;
     setup_stored := None;
     setup_keepAwake := None;
     setup_wakeLock := true;
     setup_counter := true;
     setup_content := c |}.

(** The gallery is open and shows [c]; the slideshow is stopped. *)
Definition opened (c : Content) : World := run [LightboxInit] (start (setup c)).

(** The same after a click on the play button. *)
Definition playing (c : Content) : World := run [LightboxInit; Click] (start (setup c)).

End Sample.

(** * Properties *)

(** ** The order of binary64 numbers *)

Section FloatOrder.

Lemma SFcompare_antisym (x y : spec_float) :
  SFcompare y x = option_map CompOpp (SFcompare x y).
Proof.
  destruct x as [sx|sx| |sx mx ex], y as [sy|sy| |sy my ey]; simpl; trivial;
    try (destruct sx; reflexivity); try (destruct sy; reflexivity);
    try (destruct sx, sy; reflexivity).
  pose proof (Pos.compare_antisym mx my) as Hm. unfold Pos.compare in Hm.
  destruct sx, sy; simpl; trivial;
    rewrite (Z.compare_antisym ex ey); destruct (ex ?= ey)%Z; simpl; trivial;
    rewrite Hm; destruct (Pos.compare_cont Eq mx my); reflexivity.
Qed.

Lemma SFcompare_nan (x y : spec_float) :
  SFcompare x y = None -> x = S754_nan \/ y = S754_nan.
Proof.
  destruct x as [sx|sx| |sx mx ex], y as [sy|sy| |sy my ey]; simpl; auto;
    discriminate.
Qed.

Lemma SFcompare_refl (x : spec_float) :
  x <> S754_nan -> SFcompare x x = Some Eq.
Proof.
  destruct x as [sx|sx| |sx mx ex]; simpl; intros H; try congruence.
  - destruct sx; reflexivity.
  - pose proof (Pos.compare_refl mx) as Hm. unfold Pos.compare in Hm.
    rewrite Z.compare_refl, Hm. destruct sx; reflexivity.
Qed.

Lemma SFcompare_Some (x y : spec_float) (c : comparison) :
  SFcompare x y = Some c -> x <> S754_nan /\ y <> S754_nan.
Proof.
  destruct x, y; simpl; intros H; split; congruence.
Qed.

Lemma is_nan_Prim2SF (x : float) :
  PrimFloat.is_nan x = false <-> Prim2SF x <> S754_nan.
Proof.
  unfold PrimFloat.is_nan. rewrite eqb_spec. unfold SFeqb. split.
  - intros H E. rewrite E in H. discriminate H.
  - intros H. rewrite (SFcompare_refl _ H). reflexivity.
Qed.

Lemma leb_not_nan (x y : float) :
  PrimFloat.leb x y = true ->
  PrimFloat.is_nan x = false /\ PrimFloat.is_nan y = false.
Proof.
  rewrite leb_spec, !is_nan_Prim2SF. unfold SFleb.
  destruct (SFcompare (Prim2SF x) (Prim2SF y)) as [c|] eqn:E.
  - intros _. exact (SFcompare_Some _ _ _ E).
  - discriminate.
Qed.

(** Two numbers, neither NaN: if [x < y] fails then [y <= x]. *)
Lemma ltb_false_leb (x y : float) :
  PrimFloat.is_nan x = false -> PrimFloat.is_nan y = false ->
  PrimFloat.ltb x y = false -> PrimFloat.leb y x = true.
Proof.
  intros Hx Hy. apply is_nan_Prim2SF in Hx. apply is_nan_Prim2SF in Hy.
  rewrite ltb_spec, leb_spec. unfold SFltb, SFleb.
  rewrite (SFcompare_antisym (Prim2SF x) (Prim2SF y)).
  destruct (SFcompare (Prim2SF x) (Prim2SF y)) as [[ | | ]|] eqn:E; simpl;
    trivial; try discriminate.
  apply SFcompare_nan in E. tauto.
Qed.

Lemma ltb_leb (x y : float) :
  PrimFloat.ltb x y = true -> PrimFloat.leb x y = true.
Proof.
  rewrite ltb_spec, leb_spec. unfold SFltb, SFleb.
  destruct (SFcompare (Prim2SF x) (Prim2SF y)) as [[ | | ]|]; trivial.
Qed.

Lemma leb_ltb_false (x y : float) :
  PrimFloat.leb x y = true -> PrimFloat.ltb y x = false.
Proof.
  rewrite ltb_spec, leb_spec. unfold SFltb, SFleb.
  rewrite (SFcompare_antisym (Prim2SF x) (Prim2SF y)).
  destruct (SFcompare (Prim2SF x) (Prim2SF y)) as [[ | | ]|]; simpl; trivial;
    discriminate.
Qed.

Lemma eqb_refl (x : float) :
  PrimFloat.is_nan x = false -> PrimFloat.eqb x x = true.
Proof.
  unfold PrimFloat.is_nan. intros H. apply negb_false_iff in H. exact H.
Qed.

Lemma leb_1000_positive (d : float) :
  PrimFloat.leb 1000%float d = true -> positive_SF (Prim2SF d) = true.
Proof.
  rewrite leb_spec.
  change (Prim2SF 1000%float) with (S754_finite false 8796093022208000 (-43)).
  unfold SFleb.
  destruct (Prim2SF d) as [s|s| |s m e]; simpl; try discriminate;
    destruct s; trivial; discriminate.
Qed.

Lemma positive_get_sign (d : float) :
  positive_SF (Prim2SF d) = true -> PrimFloat.get_sign d = false.
Proof.
  intros H. unfold PrimFloat.get_sign, PrimFloat.is_zero.
  rewrite eqb_spec.
  change (Prim2SF zero) with (S754_zero false).
  assert (E : SFeqb (Prim2SF d) (S754_zero false) = false).
  { unfold SFeqb. destruct (Prim2SF d) as [s|s| |s m e]; try discriminate;
      destruct s; try discriminate; reflexivity. }
  rewrite E, ltb_spec.
  change (Prim2SF zero) with (S754_zero false).
  unfold SFltb. destruct (Prim2SF d) as [s|s| |s m e]; try discriminate;
    destruct s; try discriminate; reflexivity.
Qed.

End FloatOrder.

(** ** Sums that are numbers *)

Section Rounding.

Variables prec emax : Z.

Lemma shr_1_nonneg (mrs : shr_record) :
  (0 <= shr_m mrs)%Z -> (0 <= shr_m (shr_1 mrs))%Z.
Proof.
  destruct mrs as [m r s]. cbn.
  destruct m as [|[p|p|]|p]; cbn; lia.
Qed.

Lemma iter_pos_shr_1_nonneg (p : positive) (mrs : shr_record) :
  (0 <= shr_m mrs)%Z -> (0 <= shr_m (iter_pos shr_1 p mrs))%Z.
Proof.
  revert mrs. induction p as [p IH|p IH|]; intros mrs H; cbn.
  - apply IH, IH, shr_1_nonneg, H.
  - apply IH, IH, H.
  - apply shr_1_nonneg, H.
Qed.

Lemma shr_fexp_nonneg (m e : Z) (l : location) :
  (0 <= m)%Z -> (0 <= shr_m (fst (shr_fexp prec emax m e l)))%Z.
Proof.
  intros H. unfold shr_fexp, shr.
  assert (R : (0 <= shr_m (shr_record_of_loc m l))%Z)
    by (destruct l as [|[ | | ]]; exact H).
  destruct (_ - e)%Z; cbn; trivial.
  apply iter_pos_shr_1_nonneg, R.
Qed.

Lemma round_nearest_even_nonneg (m : Z) (l : location) :
  (0 <= m)%Z -> (0 <= round_nearest_even m l)%Z.
Proof.
  intros H. destruct l as [|[ | | ]]; cbn; try destruct (Z.even m); lia.
Qed.

Lemma binary_round_aux_not_nan (sx : bool) (mx ex : Z) (lx : location) :
  (0 <= mx)%Z -> binary_round_aux prec emax sx mx ex lx <> S754_nan.
Proof.
  intros H. unfold binary_round_aux.
  pose proof (shr_fexp_nonneg mx ex lx H) as H1.
  destruct (shr_fexp prec emax mx ex lx) as [mrs' e']. cbn in H1.
  pose proof (shr_fexp_nonneg _ e' loc_Exact
                (round_nearest_even_nonneg _ (loc_of_shr_record mrs') H1)) as H2.
  destruct (shr_fexp prec emax _ e' loc_Exact) as [mrs'' e'']. cbn in H2.
  destruct (shr_m mrs''); try discriminate; [|lia].
  destruct (Z.leb _ _); discriminate.
Qed.

Lemma binary_normalize_not_nan (m e : Z) (szero : bool) :
  binary_normalize prec emax m e szero <> S754_nan.
Proof.
  unfold binary_normalize, binary_round.
  destruct m as [|p|p]; [discriminate| |];
    destruct (shl_align _ _ _) as [mz ez]; apply binary_round_aux_not_nan; lia.
Qed.

Lemma SFadd_not_nan (x y : spec_float) :
  x <> S754_nan -> y <> S754_nan ->
  (forall s s', x = S754_infinity s -> y = S754_infinity s' -> s = s') ->
  SFadd prec emax x y <> S754_nan.
Proof.
  intros Hx Hy I.
  destruct x as [sx|sx| |sx mx ex], y as [sy|sy| |sy my ey]; cbn;
    try congruence; try (destruct sx, sy; discriminate).
  - specialize (I sx sy eq_refl eq_refl). subst sy. destruct sx; discriminate.
  - apply binary_normalize_not_nan.
Qed.

End Rounding.

(** A number plus or minus 1000 is a number. *)
Lemma add_1000_not_nan (x : JS.number) :
  JS.isNaN x = false ->
  JS.isNaN (x + 1000)%float = false /\ JS.isNaN (x + -1000)%float = false.
Proof.
  unfold JS.isNaN. rewrite !is_nan_Prim2SF, !add_spec. intros H.
  split; apply SFadd_not_nan; trivial; try discriminate;
    intros s s' _ E; vm_compute in E; discriminate E.
Qed.

(** ** The delay and its bounds *)

Section Clamp.

Variable d : JS.number.

(** [Math.max(d, 1000)] is [d] or [1000], and at least [1000]. *)
Lemma Math_max_1000 :
  JS.isNaN d = false ->
  (JS.Math_max d 1000%float = d \/ JS.Math_max d 1000%float = 1000%float) /\
  PrimFloat.leb 1000%float (JS.Math_max d 1000%float) = true.
Proof.
  intros Hd. unfold JS.Math_max. rewrite Hd. simpl.
  destruct (PrimFloat.ltb d 1000) eqn:L1; [split; [right|]; reflexivity|].
  assert (G : PrimFloat.leb 1000%float d = true)
    by (apply ltb_false_leb; trivial).
  destruct (PrimFloat.ltb 1000 d); [split; [left; reflexivity|exact G]|].
  destruct (PrimFloat.get_sign d); split; auto.
Qed.

(** [Math.min(m, INT32_MAX)] for a number [m]. *)
Lemma Math_min_INT32_MAX (m : JS.number) :
  JS.isNaN m = false ->
  (JS.Math_min m INT32_MAX = m /\ PrimFloat.leb m INT32_MAX = true) \/
  (JS.Math_min m INT32_MAX = INT32_MAX /\ PrimFloat.ltb INT32_MAX m = true).
Proof.
  intros Nm. unfold JS.Math_min. rewrite Nm. simpl.
  destruct (PrimFloat.ltb m INT32_MAX) eqn:L1.
  - left. split; [reflexivity|apply ltb_leb; exact L1].
  - destruct (PrimFloat.ltb INT32_MAX m) eqn:L2.
    + right. split; reflexivity.
    + left. split; [reflexivity|apply ltb_false_leb; trivial].
Qed.

Lemma clampDelay_bounds :
  JS.isNaN d = false ->
  PrimFloat.leb 1000%float (clampDelay d) = true /\
  PrimFloat.leb (clampDelay d) INT32_MAX = true.
Proof.
  intros Hd. unfold clampDelay.
  destruct (Math_max_1000 Hd) as [_ Hm].
  destruct (leb_not_nan _ _ Hm) as [_ Nm].
  destruct (Math_min_INT32_MAX _ Nm) as [[-> L]|[-> _]]; split; trivial.
Qed.

Lemma clampDelay_inBounds :
  inBounds d = true -> clampDelay d = d.
Proof.
  unfold inBounds, clampDelay. intros H.
  apply andb_true_iff in H. destruct H as [L U].
  destruct (leb_not_nan _ _ L) as [_ Nd].
  assert (M : JS.Math_max d 1000%float = d).
  { unfold JS.Math_max, JS.isNaN. rewrite Nd. simpl.
    rewrite (leb_ltb_false _ _ L).
    rewrite (positive_get_sign _ (leb_1000_positive _ L)).
    destruct (PrimFloat.ltb 1000 d); reflexivity. }
  rewrite M.
  destruct (Math_min_INT32_MAX _ Nd) as [[E _]|[_ G]]; [exact E|].
  rewrite (leb_ltb_false _ _ U) in G. discriminate G.
Qed.

End Clamp.

Lemma delay_setSlideshowLength (d : JS.number) (w : World) :
  delay (setSlideshowLength d w) = clampDelay d.
Proof.
  unfold setSlideshowLength; simpl.
  destruct (JS.neq (clampDelay d) d); reflexivity.
Qed.

Lemma isNaN_or (a b : JS.number) :
  JS.isNaN b = false -> JS.isNaN (JS.or a b) = false.
Proof.
  intros Hb. unfold JS.or, JS.truthy, JS.isNaN.
  destruct (PrimFloat.is_zero a); simpl; trivial.
  destruct (PrimFloat.is_nan a) eqn:E; simpl; trivial.
Qed.

(** X21. Whatever number [d] is handed to [setSlideshowLength], NaN apart,
    the delay kept in [options.defaultDelayMs] afterwards lies between 1000
    and 2147483647, and it is [d] itself when [d] already lies between
    them. *)
Theorem setSlideshowLength_bounds (d : JS.number) (w : World) :
  JS.isNaN d = false ->
  let effective := delay (setSlideshowLength d w) in
  PrimFloat.leb 1000%float effective = true /\
  PrimFloat.leb effective 2147483647%float = true /\
  (inBounds d = true -> effective = d).
Proof.
  intros Hd effective. subst effective. rewrite delay_setSlideshowLength.
  destruct (clampDelay_bounds d Hd) as [L U].
  repeat split; trivial. apply clampDelay_inBounds.
Qed.

Lemma setSlideshowLength_bounds_witness :
  JS.isNaN 5000%float = false /\
  let effective :=
    delay (setSlideshowLength 5000%float (Sample.opened (Sample.image false))) in
  PrimFloat.leb 1000%float effective = true /\
  PrimFloat.leb effective 2147483647%float = true /\
  (inBounds 5000%float = true -> effective = 5000%float).
Proof.
  split; [reflexivity|].
  apply (setSlideshowLength_bounds 5000%float (Sample.opened (Sample.image false))).
  reflexivity.
Defined.

(** C1. The bounds do not hold for every delay: [Math.max] and [Math.min]
    hand NaN on. For a caller that configures [defaultDelayMs: NaN], with
    nothing stored, the constructor passes NaN to [setSlideshowLength]; the
    delay kept afterwards is NaN, outside the bounds, NaN is what is written
    to storage, and the first timeout of a started slideshow is set for NaN
    milliseconds. *)
Theorem NaN_delay_escapes_bounds :
  let w := start (Sample.setupNaN (Sample.image false)) in
  JS.isNaN (delay w) = true /\
  inBounds (delay w) = false /\
  option_map JS.isNaN (localStorage (window w)) = Some true /\
  map (fun t => JS.isNaN (timer_delay t))
      (advanceTimers (run [LightboxInit; Click] w)) = [true].
Proof. vm_compute. repeat split. Qed.

(** The delay the constructor leaves, read from storage or from the options,
    lies within the bounds as soon as the configured default is a number. *)
Lemma constructor_bounds (c : Setup) :
  JS.isNaN (defaultDelayMs (setup_options c)) = false ->
  inBounds (delay (start c)) = true.
Proof.
  intros H.
  set (stored := match setup_stored c with Some x => x | None => 0%float end).
  assert (E : delay (start c)
              = clampDelay (JS.or stored (defaultDelayMs (setup_options c)))).
  { unfold start, constructor.
    exact (delay_setSlideshowLength _ _). }
  rewrite E. unfold inBounds.
  destruct (clampDelay_bounds _ (isNaN_or stored _ H)) as [L U].
  rewrite L, U. reflexivity.
Qed.

(** ** The duration estimator and the readiness check *)

(** C4. [getSlideTimeout] gives the configured delay for content that is not
    a video, for a paused video and for a video whose duration or current
    time is NaN; for a playing video with both numbers known it gives
    [(duration - currentTime) * 1000]: 7000 for a playing video of 10 s at
    3 s, and the configured delay for the same video paused. *)
Theorem getSlideTimeout_cases (w : World) :
  let content := currSlide (pswp w) in
  let v := element content in
  (isVideoContent content = false -> getSlideTimeout w = delay w) /\
  (isVideoContent content = true -> paused v = true ->
     getSlideTimeout w = delay w) /\
  (isVideoContent content = true ->
     JS.isNaN (duration v) = true \/ JS.isNaN (currentTime v) = true ->
     getSlideTimeout w = delay w) /\
  (isVideoContent content = true -> paused v = false ->
     JS.isNaN (duration v) = false -> JS.isNaN (currentTime v) = false ->
     getSlideTimeout w = ((duration v - currentTime v) * 1000)%float) /\
  (isVideoContent content = true ->
     duration v = 10%float -> currentTime v = 3%float ->
     (paused v = false -> getSlideTimeout w = 7000%float) /\
     (paused v = true -> getSlideTimeout w = delay w)).
Proof.
  intros content v. unfold getSlideTimeout, delay.
  fold content. fold v.
  destruct (isVideoContent content).
  - split; [discriminate|].
    split; [intros _ ->; reflexivity|].
    split.
    { intros _ [N|N]; rewrite N; destruct (paused v); simpl;
        try rewrite orb_true_r; reflexivity. }
    split; [intros _ -> -> ->; reflexivity|].
    intros _ D T. rewrite D, T. split; intros ->; reflexivity.
  - split; [reflexivity|]. repeat (split; [discriminate|]). discriminate.
Qed.

Lemma getSlideTimeout_cases_witness :
  getSlideTimeout (Sample.opened (Sample.video false 10 3 false 4 1)) = 7000%float /\
  getSlideTimeout (Sample.opened (Sample.video true 10 3 false 4 1)) = 4000%float.
Proof.
  split.
  - destruct (getSlideTimeout_cases
                (Sample.opened (Sample.video false 10 3 false 4 1)))
      as (_ & _ & _ & _ & H).
    apply H; reflexivity.
  - destruct (getSlideTimeout_cases
                (Sample.opened (Sample.video true 10 3 false 4 1)))
      as (_ & H & _).
    apply H; reflexivity.
Defined.

(** C5. [slideContentHasLoaded] is true for a video that has ended, whatever
    its other fields; false for a video that has not ended and whose
    [readyState] is below [HAVE_ENOUGH_DATA]; and for content that is not a
    video it is true exactly when [isLoading()] is false. *)
Theorem slideContentHasLoaded_cases (w : World) :
  let content := currSlide (pswp w) in
  let v := element content in
  (isVideoContent content = true -> ended v = true ->
     slideContentHasLoaded w = true) /\
  (isVideoContent content = true -> ended v = false ->
     (readyState v < HAVE_ENOUGH_DATA)%Z -> slideContentHasLoaded w = false) /\
  (isVideoContent content = false ->
     (slideContentHasLoaded w = true <-> isLoading content = false)).
Proof.
  intros content v. unfold slideContentHasLoaded. fold content. fold v.
  destruct (isVideoContent content).
  - split; [intros _ ->; reflexivity|].
    split; [|discriminate].
    intros _ -> L. simpl.
    destruct (Z.eqb_spec (readyState v) HAVE_ENOUGH_DATA) as [E|]; [lia|reflexivity].
  - split; [discriminate|]. split; [discriminate|].
    intros _. apply negb_true_iff.
Qed.

Lemma slideContentHasLoaded_cases_witness :
  slideContentHasLoaded (Sample.opened (Sample.video false PrimFloat.nan 0 true 0 3)) = true /\
  slideContentHasLoaded (Sample.opened (Sample.video false 10 3 false 3 2)) = false /\
  (slideContentHasLoaded (Sample.opened (Sample.image false)) = true <->
   isLoading (Sample.image false) = false).
Proof.
  split; [|split].
  - destruct (slideContentHasLoaded_cases
                (Sample.opened (Sample.video false PrimFloat.nan 0 true 0 3)))
      as (H & _).
    apply H; reflexivity.
  - destruct (slideContentHasLoaded_cases
                (Sample.opened (Sample.video false 10 3 false 3 2)))
      as (_ & H & _).
    apply H; reflexivity.
  - destruct (slideContentHasLoaded_cases (Sample.opened (Sample.image false)))
      as (_ & _ & H).
    apply H; reflexivity.
Defined.

(** ** What scheduling leaves alone *)

Ltac unfold_schedule :=
  unfold goToNextSlideAfterTimeout, resetSlideshow, toggleProgressBar,
    setTimeout, clearTimeout, slideContentHasLoaded, getSlideTimeout,
    set_this, set_document, set_window, set_pswp; cbn.

Ltac break_schedule :=
  unfold_schedule;
  repeat match goal with
         | |- context [match ?x with _ => _ end] => destruct x eqn:?; cbn
         end;
  try reflexivity.

Section ScheduleFrame.

Variable w : World.

Lemma resetSlideshow_running :
  slideshowIsRunning (this (resetSlideshow w)) = slideshowIsRunning (this w).
Proof. break_schedule. Qed.

Lemma resetSlideshow_options :
  options (this (resetSlideshow w)) = options (this w).
Proof. break_schedule. Qed.

Lemma resetSlideshow_timerID :
  slideshowTimerID (this (resetSlideshow w)) = None.
Proof.
  unfold_schedule. destruct (slideshowTimerID (this w)) eqn:E; cbn; trivial.
Qed.

Lemma resetSlideshow_bar :
  bar_running (progressBar (document (resetSlideshow w))) = false.
Proof. break_schedule. Qed.

Lemma resetSlideshow_wakeLock :
  wakeLockIsRunning (this (resetSlideshow w)) = wakeLockIsRunning (this w) /\
  wakeLockSentinel (this (resetSlideshow w)) = wakeLockSentinel (this w) /\
  wakeLockCalls (window (resetSlideshow w)) = wakeLockCalls (window w) /\
  screen_keepAwake (window (resetSlideshow w)) = screen_keepAwake (window w) /\
  navigator_wakeLock (window (resetSlideshow w)) = navigator_wakeLock (window w).
Proof. break_schedule; repeat split. Qed.

Lemma resetSlideshow_pswp : pswp (resetSlideshow w) = pswp w.
Proof. break_schedule. Qed.

Lemma resetSlideshow_localStorage :
  localStorage (window (resetSlideshow w)) = localStorage (window w).
Proof. break_schedule. Qed.

Lemma goToNext_running :
  slideshowIsRunning (this (goToNextSlideAfterTimeout w))
  = slideshowIsRunning (this w).
Proof. break_schedule. Qed.

Lemma goToNext_options :
  options (this (goToNextSlideAfterTimeout w)) = options (this w).
Proof. break_schedule. Qed.

Lemma goToNext_bar :
  bar_running (progressBar (document (goToNextSlideAfterTimeout w))) = false.
Proof. break_schedule. Qed.

Lemma goToNext_wakeLock :
  wakeLockIsRunning (this (goToNextSlideAfterTimeout w)) = wakeLockIsRunning (this w) /\
  wakeLockSentinel (this (goToNextSlideAfterTimeout w)) = wakeLockSentinel (this w) /\
  wakeLockCalls (window (goToNextSlideAfterTimeout w)) = wakeLockCalls (window w) /\
  screen_keepAwake (window (goToNextSlideAfterTimeout w)) = screen_keepAwake (window w) /\
  navigator_wakeLock (window (goToNextSlideAfterTimeout w)) = navigator_wakeLock (window w).
Proof. break_schedule; repeat split. Qed.

Lemma goToNext_pswp : pswp (goToNextSlideAfterTimeout w) = pswp w.
Proof. break_schedule. Qed.

Lemma goToNext_localStorage :
  localStorage (window (goToNextSlideAfterTimeout w)) = localStorage (window w).
Proof. break_schedule. Qed.

End ScheduleFrame.

(** ** Changing the delay *)

(** C7. With the slideshow stopped, [changeSlideshowLength] returns at once:
    the delay, the stored preference, the delay indicator and the timers,
    with the rest of the page, are what they were. *)
Theorem changeSlideshowLength_stopped (delta : JS.number) (w : World) :
  slideshowIsRunning (this w) = false ->
  changeSlideshowLength delta w = w.
Proof.
  intros H. unfold changeSlideshowLength. rewrite H. reflexivity.
Qed.

Lemma changeSlideshowLength_stopped_witness :
  changeSlideshowLength 1000%float (Sample.opened (Sample.image false))
  = Sample.opened (Sample.image false).
Proof.
  apply (changeSlideshowLength_stopped 1000%float (Sample.opened (Sample.image false))).
  reflexivity.
Defined.

Lemma inBounds_neq (d : JS.number) :
  inBounds d = true -> JS.neq (clampDelay d) d = false.
Proof.
  intros H. rewrite (clampDelay_inBounds d H). unfold JS.neq.
  apply andb_true_iff in H. destruct H as [L _].
  destruct (leb_not_nan _ _ L) as [_ N]. rewrite (eqb_refl d N). reflexivity.
Qed.

Lemma setSlideshowLength_localStorage (d : JS.number) (w : World) :
  localStorage (window (setSlideshowLength d w))
  = if JS.neq (clampDelay d) d then Some (clampDelay d) else localStorage (window w).
Proof.
  unfold setSlideshowLength. cbn.
  destruct (JS.neq (clampDelay d) d); reflexivity.
Qed.

(** What [changeSlideshowLength] hands to the scheduler. *)
Lemma changeSlideshowLength_running (delta : JS.number) (w : World) :
  slideshowIsRunning (this w) = true ->
  exists w',
    changeSlideshowLength delta w = goToNextSlideAfterTimeout w' /\
    delay w' = clampDelay (delay w + delta)%float /\
    localStorage (window w') = Some (clampDelay (delay w + delta)%float) /\
    slideshowIsRunning (this w') = true.
Proof.
  intros H. unfold changeSlideshowLength. rewrite H. cbn [negb].
  eexists. split; [reflexivity|].
  unfold delay, setSlideshowLength, set_this, set_window, set_document. cbn.
  destruct (JS.neq _ _); cbn; destruct (pswp_counter (document w)); cbn;
    auto.
Qed.

Lemma changeSlideshowLength_localStorage (delta : JS.number) (w : World) :
  slideshowIsRunning (this w) = true ->
  localStorage (window (changeSlideshowLength delta w))
  = Some (clampDelay (delay w + delta)%float).
Proof.
  intros H.
  destruct (changeSlideshowLength_running delta w H) as (w' & -> & _ & S & _).
  rewrite goToNext_localStorage. exact S.
Qed.

Lemma changeSlideshowLength_delay (delta : JS.number) (w : World) :
  slideshowIsRunning (this w) = true ->
  delay (changeSlideshowLength delta w) = clampDelay (delay w + delta)%float.
Proof.
  intros H.
  destruct (changeSlideshowLength_running delta w H) as (w' & -> & D & _).
  unfold delay. rewrite goToNext_options. exact D.
Qed.

(** The delay [changeSlideshowLength] leaves lies within the bounds. *)
Lemma changeSlideshowLength_bounds (delta : JS.number) (w : World) :
  slideshowIsRunning (this w) = true ->
  JS.isNaN (delay w + delta)%float = false ->
  inBounds (delay (changeSlideshowLength delta w)) = true.
Proof.
  intros R N. rewrite (changeSlideshowLength_delay delta w R).
  destruct (clampDelay_bounds _ N) as [L U]. unfold inBounds.
  rewrite L, U. reflexivity.
Qed.

(** C6, counterexample: the slideshow runs with the default
    delay of 4000 ms and nothing stored; [changeSlideshowLength(1000)] asks
    for 5000 ms, which is within the bounds, and storage holds 5000
    afterwards. *)
Lemma changeSlideshowLength_writes_unclamped :
  let w := Sample.playing (Sample.image false) in
  let requested := (delay w + 1000)%float in
  inBounds requested = true /\
  clampDelay requested = requested /\
  localStorage (window w) = None /\
  localStorage (window (changeSlideshowLength 1000%float w)) = Some 5000%float /\
  localStorage (window (changeSlideshowLength 1000%float w)) <> localStorage (window w).
Proof.
  cbv zeta. repeat split; try reflexivity.
  intros E. vm_compute in E. discriminate E.
Qed.

(** C6, amended. [setSlideshowLength] writes the stored preference only when
    it clamps: a request within the bounds leaves storage as it was, a
    request the clamp changes is stored at its clamped value.
    [changeSlideshowLength], while the slideshow runs, always stores the
    delay it ends with, clamped or not. *)
Theorem persisted_delay (w : World) :
  (forall d, inBounds d = true ->
     localStorage (window (setSlideshowLength d w)) = localStorage (window w)) /\
  (forall d, JS.neq (clampDelay d) d = true ->
     localStorage (window (setSlideshowLength d w)) = Some (clampDelay d)) /\
  (forall delta, slideshowIsRunning (this w) = true ->
     localStorage (window (changeSlideshowLength delta w))
     = Some (delay (changeSlideshowLength delta w))).
Proof.
  split; [|split].
  - intros d H. rewrite setSlideshowLength_localStorage, (inBounds_neq d H).
    reflexivity.
  - intros d H. rewrite setSlideshowLength_localStorage, H. reflexivity.
  - intros delta H.
    rewrite (changeSlideshowLength_localStorage delta w H),
      (changeSlideshowLength_delay delta w H).
    reflexivity.
Qed.

Lemma persisted_delay_witness :
  let w := Sample.playing (Sample.image false) in
  localStorage (window (setSlideshowLength 5000%float w)) = localStorage (window w) /\
  localStorage (window (setSlideshowLength 5%float w)) = Some (clampDelay 5%float) /\
  localStorage (window (changeSlideshowLength 1000%float w))
  = Some (delay (changeSlideshowLength 1000%float w)).
Proof.
  cbv zeta.
  destruct (persisted_delay (Sample.playing (Sample.image false))) as (A & B & C).
  split; [|split].
  - apply A. reflexivity.
  - apply B. reflexivity.
  - apply C. reflexivity.
Defined.

(** ** The wake lock *)

Ltac break_wakeLock :=
  unfold toggleWakeLock, set_this, set_window; cbn;
  repeat match goal with
         | |- context [if ?x then _ else _] => destruct x eqn:?; cbn
         | |- context [match ?x with _ => _ end] => destruct x eqn:?; cbn
         end;
  repeat split; try reflexivity; try congruence.

Section WakeLockFrame.

Variable w : World.

Lemma toggleWakeLock_running :
  slideshowIsRunning (this (toggleWakeLock w)) = slideshowIsRunning (this w).
Proof. break_wakeLock. Qed.

Lemma toggleWakeLock_flag :
  wakeLockIsRunning (this (toggleWakeLock w)) = slideshowIsRunning (this w).
Proof.
  unfold toggleWakeLock.
  destruct (Bool.eqb _ _) eqn:E; [apply eqb_prop in E; exact E|].
  unfold set_this, set_window; cbn.
  destruct (screen_keepAwake (window w)); cbn; trivial.
  destruct (navigator_wakeLock (window w)); cbn; trivial.
  destruct (wakeLockSentinel (this w)); reflexivity.
Qed.

Lemma toggleWakeLock_sentinel :
  wakeLockSentinel (this (toggleWakeLock w)) = wakeLockSentinel (this w).
Proof. break_wakeLock. Qed.

Lemma toggleWakeLock_timers :
  timers (window (toggleWakeLock w)) = timers (window w) /\
  slideshowTimerID (this (toggleWakeLock w)) = slideshowTimerID (this w).
Proof. break_wakeLock. Qed.

Lemma toggleWakeLock_nextTimer :
  nextTimer (window (toggleWakeLock w)) = nextTimer (window w).
Proof. break_wakeLock. Qed.

Lemma toggleWakeLock_document :
  document (toggleWakeLock w) = document w.
Proof. break_wakeLock. Qed.

Lemma toggleWakeLock_options :
  options (this (toggleWakeLock w)) = options (this w).
Proof. break_wakeLock. Qed.

Lemma toggleWakeLock_pswp : pswp (toggleWakeLock w) = pswp w.
Proof. break_wakeLock. Qed.

Lemma toggleWakeLock_localStorage :
  localStorage (window (toggleWakeLock w)) = localStorage (window w).
Proof. break_wakeLock. Qed.

Lemma toggleWakeLock_calls :
  wakeLockCalls (window (toggleWakeLock w))
  = (wakeLockCalls (window w) ++ wakeLockCallsOf w)%list.
Proof.
  unfold wakeLockCallsOf. break_wakeLock; rewrite app_nil_r; reflexivity.
Qed.

End WakeLockFrame.

(** C10. When [toggleWakeLock] returns, [wakeLockIsRunning] equals
    [slideshowIsRunning], on every platform. In particular, switched on with
    no sentinel stored, it returns with the flag true and still no sentinel,
    whether the platform has no wake lock at all or a request was only just
    sent; and the flag stays true, with no sentinel, when that request is
    rejected. *)
Theorem toggleWakeLock_flag_follows_running (w : World) :
  let w' := toggleWakeLock w in
  wakeLockIsRunning (this w') = slideshowIsRunning (this w') /\
  (slideshowIsRunning (this w) = true -> wakeLockSentinel (this w) = None ->
     (wakeLockIsRunning (this w') = true /\ wakeLockSentinel (this w') = None) /\
     (wakeLockIsRunning (this (requestRejected w')) = true /\
      wakeLockSentinel (this (requestRejected w')) = None)).
Proof.
  cbv zeta. split.
  - rewrite toggleWakeLock_flag, toggleWakeLock_running. reflexivity.
  - intros R S.
    assert (A : wakeLockIsRunning (this (toggleWakeLock w)) = true
                /\ wakeLockSentinel (this (toggleWakeLock w)) = None).
    { rewrite toggleWakeLock_flag, toggleWakeLock_sentinel. auto. }
    split; [exact A|].
    unfold requestRejected.
    destruct (pendingRequests (window (toggleWakeLock w))); exact A.
Qed.

Lemma toggleWakeLock_flag_follows_running_witness :
  let w := set_this (with_slideshowIsRunning true)
             (start (Sample.setupNoWakeLock (Sample.image false))) in
  wakeLockIsRunning (this (toggleWakeLock w)) = true /\
  wakeLockSentinel (this (toggleWakeLock w)) = None /\
  wakeLockCalls (window (toggleWakeLock w)) = [].
Proof.
  cbv zeta.
  destruct (toggleWakeLock_flag_follows_running
              (set_this (with_slideshowIsRunning true)
                 (start (Sample.setupNoWakeLock (Sample.image false)))))
    as (_ & H).
  destruct (H eq_refl eq_refl) as ((A & B) & _).
  split; [exact A|]. split; [exact B|]. reflexivity.
Defined.

(** ** Toggling the slideshow *)

(** [setSlideshowState] flips the flag, schedules or resets, touches the
    icons and the opacity of the bar, and ends in [toggleWakeLock]. *)
Lemma setSlideshowState_shape (w : World) :
  let w1 := set_this (with_slideshowIsRunning (negb (slideshowIsRunning (this w)))) w in
  let w2 := if negb (slideshowIsRunning (this w))
            then goToNextSlideAfterTimeout w1 else resetSlideshow w1 in
  exists w3,
    setSlideshowState w = toggleWakeLock w3 /\
    this w3 = this w2 /\ window w3 = window w2 /\ pswp w3 = pswp w2 /\
    bar_running (progressBar (document w3))
    = bar_running (progressBar (document w2)).
Proof.
  cbv zeta. unfold setSlideshowState. cbn zeta.
  eexists. split; [reflexivity|].
  unfold set_document, set_this. cbn. repeat split.
Qed.

Section Toggle.

Variable w : World.

Lemma setSlideshowState_running :
  slideshowIsRunning (this (setSlideshowState w))
  = negb (slideshowIsRunning (this w)).
Proof.
  destruct (setSlideshowState_shape w) as (w3 & -> & T & _).
  rewrite toggleWakeLock_running, T.
  destruct (negb (slideshowIsRunning (this w))) eqn:E;
    [rewrite goToNext_running|rewrite resetSlideshow_running]; cbn; auto.
Qed.

Lemma setSlideshowState_flag :
  wakeLockIsRunning (this (setSlideshowState w))
  = negb (slideshowIsRunning (this w)).
Proof.
  rewrite <- setSlideshowState_running.
  destruct (setSlideshowState_shape w) as (w3 & -> & _).
  rewrite toggleWakeLock_flag, toggleWakeLock_running. reflexivity.
Qed.

Lemma setSlideshowState_bar :
  bar_running (progressBar (document (setSlideshowState w))) = false.
Proof.
  destruct (setSlideshowState_shape w) as (w3 & -> & _ & _ & _ & B).
  rewrite toggleWakeLock_document, B.
  destruct (negb (slideshowIsRunning (this w)));
    [apply goToNext_bar|apply resetSlideshow_bar].
Qed.

Lemma setSlideshowState_options :
  options (this (setSlideshowState w)) = options (this w).
Proof.
  destruct (setSlideshowState_shape w) as (w3 & -> & T & _).
  rewrite toggleWakeLock_options, T.
  destruct (negb (slideshowIsRunning (this w)));
    [rewrite goToNext_options|rewrite resetSlideshow_options]; reflexivity.
Qed.

Lemma setSlideshowState_pswp : pswp (setSlideshowState w) = pswp w.
Proof.
  destruct (setSlideshowState_shape w) as (w3 & -> & _ & _ & P & _).
  rewrite toggleWakeLock_pswp, P.
  destruct (negb (slideshowIsRunning (this w)));
    [rewrite goToNext_pswp|rewrite resetSlideshow_pswp]; reflexivity.
Qed.

(** Stopping leaves no handle in [slideshowTimerID]. *)
Lemma setSlideshowState_stop_timerID :
  slideshowIsRunning (this w) = true ->
  slideshowTimerID (this (setSlideshowState w)) = None.
Proof.
  intros R.
  destruct (setSlideshowState_shape w) as (w3 & -> & T & _).
  destruct (toggleWakeLock_timers w3) as [_ ->]. rewrite T, R. cbn.
  apply resetSlideshow_timerID.
Qed.

End Toggle.

(** ** Advance timers *)

Lemma filter_comm {A : Type} (p q : A -> bool) (l : list A) :
  filter p (filter q l) = filter q (filter p l).
Proof.
  induction l as [|a l IH]; cbn; trivial.
  destruct (q a) eqn:Q, (p a) eqn:P; cbn; rewrite ?Q, ?P, IH; reflexivity.
Qed.

Section AdvanceTimers.

Variable w : World.

Lemma resetSlideshow_timers :
  timers (window (resetSlideshow w))
  = match slideshowTimerID (this w) with
    | Some id => filter (fun t => negb (has_id id t)) (timers (window w))
    | None => timers (window w)
    end /\
  nextTimer (window (resetSlideshow w)) = nextTimer (window w).
Proof.
  unfold_schedule. destruct (slideshowTimerID (this w)); split; reflexivity.
Qed.

(** After [resetSlideshow] no advance timeout is pending. *)
Lemma resetSlideshow_advanceTimers :
  timerInv w = true -> advanceTimers (resetSlideshow w) = [].
Proof.
  unfold timerInv, advanceTimers. destruct resetSlideshow_timers as [-> _].
  destruct (slideshowTimerID (this w)) as [id|].
  - rewrite filter_comm.
    destruct (filter isAdvance (timers (window w))) as [|t [|t' l]];
      try discriminate; trivial.
    intros E. cbn. unfold has_id. rewrite E. reflexivity.
  - destruct (filter isAdvance (timers (window w))) as [|t [|t' l]];
      try discriminate; trivial.
Qed.

(** [goToNextSlideAfterTimeout] adds one advance timeout to what
    [resetSlideshow] left and keeps its handle. *)
Lemma goToNext_timers :
  exists t extra,
    timers (window (goToNextSlideAfterTimeout w))
    = (timers (window (resetSlideshow w)) ++ t :: extra)%list /\
    isAdvance t = true /\
    timer_id t = nextTimer (window w) /\
    filter isAdvance extra = [] /\
    slideshowTimerID (this (goToNextSlideAfterTimeout w)) = Some (timer_id t).
Proof.
  destruct resetSlideshow_timers as [_ N].
  unfold goToNextSlideAfterTimeout.
  destruct (slideContentHasLoaded (resetSlideshow w)).
  - eexists. eexists. unfold setTimeout, set_this, set_window. cbn.
    rewrite <- app_assoc. cbn. rewrite N. repeat split.
  - eexists. exists []. unfold setTimeout, set_this, set_window. cbn.
    rewrite N. repeat split.
Qed.

Lemma goToNext_advanceTimers :
  timerInv w = true ->
  exists t,
    advanceTimers (goToNextSlideAfterTimeout w) = [t] /\
    slideshowTimerID (this (goToNextSlideAfterTimeout w)) = Some (timer_id t).
Proof.
  intros I. destruct goToNext_timers as (t & extra & T & A & _ & X & S).
  exists t. split; [|exact S].
  unfold advanceTimers. rewrite T, filter_app.
  fold (advanceTimers (resetSlideshow w)).
  rewrite (resetSlideshow_advanceTimers I). cbn. rewrite A, X. reflexivity.
Qed.

Lemma timerInv_resetSlideshow :
  timerInv w = true -> timerInv (resetSlideshow w) = true.
Proof.
  intros I. unfold timerInv. rewrite (resetSlideshow_advanceTimers I).
  reflexivity.
Qed.

Lemma timerInv_goToNext :
  timerInv w = true -> timerInv (goToNextSlideAfterTimeout w) = true.
Proof.
  intros I. destruct (goToNext_advanceTimers I) as (t & A & S).
  unfold timerInv. rewrite A, S. apply Pos.eqb_refl.
Qed.

(** Whatever keeps the timeouts and the handle keeps the invariant. *)
Lemma timerInv_same (w' : World) :
  timers (window w') = timers (window w) ->
  slideshowTimerID (this w') = slideshowTimerID (this w) ->
  timerInv w' = timerInv w.
Proof.
  intros T S. unfold timerInv, advanceTimers. rewrite T, S. reflexivity.
Qed.

End AdvanceTimers.

Lemma iter_preserves (P : World -> Prop) (f : World -> World) :
  (forall w, P w -> P (f w)) ->
  forall n w, P w -> P (Nat.iter n f w).
Proof.
  intros F n. induction n as [|n IH]; intros w Pw; cbn; [exact Pw|].
  apply F, IH, Pw.
Qed.

Lemma dispatch_preserves (P : World -> Prop) (f : World -> World) (w : World) :
  (forall w, P w -> P (f w)) -> P w -> P (dispatch f w).
Proof.
  intros F. unfold dispatch. apply iter_preserves. exact F.
Qed.

(** The counter element's listener writes the counter and nothing else. *)
Lemma updateCounter_frame (w : World) :
  this (updateCounter w) = this w /\
  window (updateCounter w) = window w /\
  pswp (updateCounter w) = pswp w /\
  progressBar (document (updateCounter w)) = progressBar (document w) /\
  icn_stop_display (document (updateCounter w)) = icn_stop_display (document w) /\
  icn_play_display (document (updateCounter w)) = icn_play_display (document w).
Proof.
  unfold updateCounter. destruct (pswp_counter (document w)); repeat split.
Qed.

Lemma advanceTimers_updateCounter (w : World) :
  advanceTimers (updateCounter w) = advanceTimers w.
Proof.
  unfold advanceTimers. destruct (updateCounter_frame w) as (_ & -> & _).
  reflexivity.
Qed.

Ltac through_counter :=
  let x := fresh "x" in
  let H := fresh "H" in
  intros x H; unfold updateCounter; destruct (pswp_counter (document x)); exact H.

Lemma pswp_change_preserves (P : World -> Prop) (c : Content) (w : World) :
  (forall w, P w -> P (onChange w)) ->
  (forall w, P w -> P (updateCounter w)) ->
  P (set_pswp (with_currSlide c) w) -> P (pswp_change c w).
Proof.
  intros F U S. unfold pswp_change. apply U, dispatch_preserves; assumption.
Qed.

Section TimerInvariant.

Variable w : World.
Hypothesis I : timerInv w = true.

Lemma timerInv_updateCounter : timerInv (updateCounter w) = true.
Proof. revert w I. through_counter. Qed.

Lemma timerInv_setSlideshowState : timerInv (setSlideshowState w) = true.
Proof.
  destruct (setSlideshowState_shape w) as (w3 & -> & T & W & _).
  destruct (toggleWakeLock_timers w3) as [E1 E2].
  rewrite (timerInv_same _ _ E1 E2).
  erewrite timerInv_same; [|rewrite W; reflexivity|rewrite T; reflexivity].
  destruct (negb (slideshowIsRunning (this w)));
    [apply timerInv_goToNext|apply timerInv_resetSlideshow];
    (erewrite timerInv_same; [exact I|reflexivity|reflexivity]).
Qed.

Lemma timerInv_changeSlideshowLength (delta : JS.number) :
  timerInv (changeSlideshowLength delta w) = true.
Proof.
  unfold changeSlideshowLength.
  destruct (slideshowIsRunning (this w)); cbn [negb]; [|exact I].
  apply timerInv_goToNext.
  erewrite timerInv_same; [exact I| |];
    unfold setSlideshowLength, set_this, set_window, set_document; cbn;
    destruct (JS.neq _ _); cbn; destruct (pswp_counter (document w)); reflexivity.
Qed.

Lemma timerInv_onChange : timerInv (onChange w) = true.
Proof.
  unfold onChange. destruct (_ && _); [apply timerInv_goToNext|]; exact I.
Qed.

Lemma timerInv_set_pswp (f : Gallery -> Gallery) :
  timerInv (set_pswp f w) = true.
Proof. exact I. Qed.

Lemma timerInv_clearTimeout (id : positive) :
  timerInv (clearTimeout id w) = true.
Proof.
  revert I. unfold timerInv, advanceTimers, clearTimeout, set_window. cbn.
  rewrite filter_comm.
  destruct (filter isAdvance (timers (window w))) as [|t [|t' l]];
    try discriminate; trivial.
  cbn. destruct (negb (has_id id t)); trivial.
Qed.

Lemma timerInv_wakeLockEvents (h : sentinel) :
  timerInv (requestFulfilled h w) = true /\
  timerInv (requestRejected w) = true /\
  timerInv (releaseFulfilled w) = true /\
  timerInv (onSentinelRelease h w) = true.
Proof.
  unfold requestFulfilled, requestRejected, releaseFulfilled, onSentinelRelease.
  destruct (pendingRequests (window w)), (pendingReleases (window w)),
    (existsb _ _); repeat split; exact I.
Qed.

End TimerInvariant.

Lemma timerInv_onClose (w : World) :
  timerInv w = true -> timerInv (onClose w) = true.
Proof.
  intros I. unfold onClose.
  destruct (slideshowIsRunning (this w)); [apply timerInv_setSlideshowState|];
    exact I.
Qed.

Lemma timerInv_pswp_next (moved : option Content) (w : World) :
  timerInv w = true -> timerInv (pswp_next moved w) = true.
Proof.
  intros I. destruct moved as [c|]; [|exact I].
  exact (pswp_change_preserves (fun w => timerInv w = true) c w
           timerInv_onChange timerInv_updateCounter I).
Qed.

Lemma timerInv_runCallback (cb : callback) (moved : option Content) (w : World) :
  timerInv w = true -> timerInv (runCallback cb moved w) = true.
Proof.
  intros I. destruct cb as [|t|]; cbn.
  - pose proof (timerInv_pswp_next moved w I) as J.
    destruct (restartOnSlideChange _); [|apply timerInv_goToNext]; exact J.
  - destruct (slideshowIsRunning (this w)); [|exact I].
    unfold toggleProgressBar. destruct (JS.truthy t); exact I.
  - apply timerInv_goToNext; exact I.
Qed.

Lemma timerInv_step (w : World) (e : event) :
  timerInv w = true -> timerInv (step w e) = true.
Proof.
  intros I. destruct e as [| |code|c|c| |id moved|h| | |h]; cbn.
  - exact I.
  - apply timerInv_setSlideshowState; exact I.
  - unfold onKeyDown.
    destruct (String.eqb code "Space");
      [apply timerInv_setSlideshowState; exact I|].
    destruct (existsb _ _); [apply timerInv_changeSlideshowLength; exact I|].
    destruct (existsb _ _); [apply timerInv_changeSlideshowLength|]; exact I.
  - exact (pswp_change_preserves (fun w => timerInv w = true) c w
             timerInv_onChange timerInv_updateCounter I).
  - exact I.
  - exact (dispatch_preserves (fun w => timerInv w = true) onClose
             w timerInv_onClose I).
  - unfold fire. destruct (find _ _); [|exact I].
    apply timerInv_runCallback, timerInv_clearTimeout; exact I.
  - apply (timerInv_wakeLockEvents w I h).
  - apply (timerInv_wakeLockEvents w I 0).
  - apply (timerInv_wakeLockEvents w I 0).
  - apply (timerInv_wakeLockEvents w I h).
Qed.

Lemma timerInv_run (es : list event) (w : World) :
  timerInv w = true -> timerInv (run es w) = true.
Proof.
  revert w. induction es as [|e es IH]; intros w I; cbn; auto.
  apply IH, timerInv_step, I.
Qed.

Lemma timerInv_start (c : Setup) : timerInv (start c) = true.
Proof.
  unfold start, constructor, setSlideshowLength, timerInv, advanceTimers.
  cbn. destruct (JS.neq _ _); reflexivity.
Qed.

Lemma timerInv_length (w : World) :
  timerInv w = true -> List.length (advanceTimers w) <= 1.
Proof.
  unfold timerInv. destruct (advanceTimers w) as [|t [|t' l]]; cbn;
    try discriminate; lia.
Qed.

(** C2. In every state the plugin can reach, from the constructor through any
    events (clicks, keys, slide changes, expiring timeouts, closing, wake lock
    answers), at most one advance timeout is pending; [resetSlideshow] leaves
    none, so each call of [goToNextSlideAfterTimeout], which starts with it,
    leaves exactly one. *)
Theorem one_advance_timer (c : Setup) (es : list event) :
  let w := run es (start c) in
  List.length (advanceTimers w) <= 1 /\
  advanceTimers (resetSlideshow w) = [] /\
  List.length (advanceTimers (goToNextSlideAfterTimeout w)) = 1.
Proof.
  cbv zeta.
  pose proof (timerInv_run es (start c) (timerInv_start c)) as I.
  split; [apply timerInv_length, I|].
  split; [apply resetSlideshow_advanceTimers, I|].
  destruct (goToNext_advanceTimers (run es (start c)) I) as (t & -> & _).
  reflexivity.
Qed.

(** ** The progress bar *)

Lemma barInv_bar_off (w : World) :
  bar_running (progressBar (document w)) = false -> barInv w = true.
Proof.
  unfold barInv. intros ->. apply orb_true_r.
Qed.

Lemma barInv_same (w w' : World) :
  slideshowIsRunning (this w') = slideshowIsRunning (this w) ->
  bar_running (progressBar (document w')) = bar_running (progressBar (document w)) ->
  barInv w' = barInv w.
Proof.
  unfold barInv. intros -> ->. reflexivity.
Qed.

Section BarInvariant.

Variable w : World.
Hypothesis I : barInv w = true.

Lemma barInv_changeSlideshowLength (delta : JS.number) :
  barInv (changeSlideshowLength delta w) = true.
Proof.
  unfold changeSlideshowLength.
  destruct (slideshowIsRunning (this w)); cbn [negb]; [|exact I].
  apply barInv_bar_off, goToNext_bar.
Qed.

Lemma barInv_onChange : barInv (onChange w) = true.
Proof.
  unfold onChange.
  destruct (_ && _); [apply barInv_bar_off, goToNext_bar|exact I].
Qed.

Lemma barInv_onClose : barInv (onClose w) = true.
Proof.
  unfold onClose.
  destruct (slideshowIsRunning (this w));
    [apply barInv_bar_off, setSlideshowState_bar|exact I].
Qed.

Lemma barInv_wakeLockEvents (h : sentinel) :
  barInv (requestFulfilled h w) = true /\
  barInv (requestRejected w) = true /\
  barInv (releaseFulfilled w) = true /\
  barInv (onSentinelRelease h w) = true.
Proof.
  unfold requestFulfilled, requestRejected, releaseFulfilled, onSentinelRelease.
  destruct (pendingRequests (window w)), (pendingReleases (window w)),
    (existsb _ _); repeat split; exact I.
Qed.

End BarInvariant.

Lemma barInv_pswp_next (moved : option Content) (w : World) :
  barInv w = true -> barInv (pswp_next moved w) = true.
Proof.
  intros I. destruct moved as [c|]; [|exact I].
  apply (pswp_change_preserves (fun w => barInv w = true) c w
           barInv_onChange); [through_counter|exact I].
Qed.

(** The callback of the 100 ms timeout looks at the flag first: with the
    slideshow stopped it changes nothing. *)
Lemma runCallback_ShowProgressBar_stopped (t : JS.number)
    (moved : option Content) (w : World) :
  slideshowIsRunning (this w) = false ->
  runCallback (ShowProgressBar t) moved w = w.
Proof.
  intros R. cbn. rewrite R. reflexivity.
Qed.

Lemma barInv_runCallback (cb : callback) (moved : option Content) (w : World) :
  barInv w = true -> barInv (runCallback cb moved w) = true.
Proof.
  intros I. destruct cb as [|t|]; cbn.
  - destruct (restartOnSlideChange _);
      [apply barInv_pswp_next, I|apply barInv_bar_off, goToNext_bar].
  - destruct (slideshowIsRunning (this w)) eqn:R; [|exact I].
    unfold barInv, toggleProgressBar.
    destruct (JS.truthy t); cbn; rewrite R; reflexivity.
  - apply barInv_bar_off, goToNext_bar.
Qed.

Lemma barInv_step (w : World) (e : event) :
  barInv w = true -> barInv (step w e) = true.
Proof.
  intros I. destruct e as [| |code|c|c| |id moved|h| | |h]; cbn.
  - exact I.
  - apply barInv_bar_off, setSlideshowState_bar.
  - unfold onKeyDown.
    destruct (String.eqb code "Space");
      [apply barInv_bar_off, setSlideshowState_bar|].
    destruct (existsb _ _); [apply barInv_changeSlideshowLength; exact I|].
    destruct (existsb _ _); [apply barInv_changeSlideshowLength|]; exact I.
  - apply (pswp_change_preserves (fun w => barInv w = true) c w
             barInv_onChange); [through_counter|exact I].
  - exact I.
  - exact (dispatch_preserves (fun w => barInv w = true) onClose
             w barInv_onClose I).
  - unfold fire. destruct (find _ _); [|exact I].
    apply barInv_runCallback. exact I.
  - apply (barInv_wakeLockEvents w I h).
  - apply (barInv_wakeLockEvents w I 0).
  - apply (barInv_wakeLockEvents w I 0).
  - apply (barInv_wakeLockEvents w I h).
Qed.

Lemma barInv_run (es : list event) (w : World) :
  barInv w = true -> barInv (run es w) = true.
Proof.
  revert w. induction es as [|e es IH]; intros w I; cbn; auto.
  apply IH, barInv_step, I.
Qed.

Lemma barInv_start (c : Setup) : barInv (start c) = true.
Proof.
  unfold start, constructor, setSlideshowLength, barInv.
  cbn. destruct (JS.neq _ _); reflexivity.
Qed.

(** An expiring timeout never flips [slideshowIsRunning]. *)
Lemma fire_running (id : positive) (moved : option Content) (w : World) :
  slideshowIsRunning (this (fire id moved w)) = slideshowIsRunning (this w).
Proof.
  unfold fire. destruct (find _ _) as [t|]; [|reflexivity].
  set (w0 := clearTimeout id w).
  change (slideshowIsRunning (this w)) with (slideshowIsRunning (this w0)).
  generalize w0. clear w w0. intros w.
  assert (N : slideshowIsRunning (this (pswp_next moved w))
              = slideshowIsRunning (this w)).
  { destruct moved as [c|]; [|reflexivity].
    apply (pswp_change_preserves
             (fun w' => slideshowIsRunning (this w') = slideshowIsRunning (this w))
             c w); [|through_counter|reflexivity].
    intros w' E. unfold onChange.
    destruct (_ && _); [rewrite goToNext_running|]; exact E. }
  destruct (timer_callback t) as [|d|]; cbn.
  - destruct (restartOnSlideChange _); [|rewrite goToNext_running]; exact N.
  - destruct (slideshowIsRunning (this w)) eqn:R; [|exact R].
    unfold toggleProgressBar. destruct (JS.truthy d); exact R.
  - apply goToNext_running.
Qed.

(** C9. Once the slideshow is stopped the progress bar is not running, in any
    state the plugin can reach, and no timeout that expires afterwards starts
    it: the callback of the 100 ms timeout tests [slideshowIsRunning] before
    it touches the bar, so after a stop it leaves everything as it is. *)
Theorem progress_bar_off_when_stopped (c : Setup) (es : list event) :
  let w := run es (start c) in
  slideshowIsRunning (this w) = false ->
  bar_running (progressBar (document w)) = false /\
  (forall t moved, runCallback (ShowProgressBar t) moved w = w) /\
  (forall id moved,
     bar_running (progressBar (document (step w (TimerFires id moved)))) = false).
Proof.
  cbv zeta. intros R.
  pose proof (barInv_run es (start c) (barInv_start c)) as I.
  split; [|split].
  - unfold barInv in I. rewrite R in I. cbn in I.
    apply negb_true_iff in I. exact I.
  - intros t moved. apply runCallback_ShowProgressBar_stopped, R.
  - intros id moved.
    pose proof (barInv_step _ (TimerFires id moved) I) as J.
    unfold barInv in J. cbn [step] in J. rewrite fire_running, R in J.
    apply negb_true_iff in J. exact J.
Qed.

Lemma progress_bar_off_when_stopped_witness :
  let w := run [LightboxInit; Click; Click] (start (Sample.setup (Sample.image false))) in
  slideshowIsRunning (this w) = false /\
  In {| timer_id := 2%positive; timer_callback := ShowProgressBar 4000%float;
        timer_delay := 100%float |} (timers (window w)) /\
  bar_running (progressBar (document (step w (TimerFires 2%positive None)))) = false.
Proof.
  cbv zeta. split; [reflexivity|]. split; [left; reflexivity|].
  destruct (progress_bar_off_when_stopped (Sample.setup (Sample.image false))
              [LightboxInit; Click; Click] eq_refl) as (_ & _ & B).
  apply B.
Defined.

(** ** Stopping *)

Section Stop.

Variable w : World.
Hypothesis R : slideshowIsRunning (this w) = true.

(** Stopping cancels the advance timeout. *)
Lemma setSlideshowState_stop_advanceTimers :
  timerInv w = true -> advanceTimers (setSlideshowState w) = [].
Proof.
  intros I.
  destruct (setSlideshowState_shape w) as (w3 & -> & _ & W & _).
  destruct (toggleWakeLock_timers w3) as [E _].
  unfold advanceTimers. rewrite E, W, R. cbn [negb].
  apply resetSlideshow_advanceTimers.
  erewrite timerInv_same; [exact I|reflexivity|reflexivity].
Qed.

(** The wake lock calls of a stop are those of [toggleWakeLock] with the
    flag already off. *)
Lemma setSlideshowState_stop_calls :
  wakeLockCalls (window (setSlideshowState w))
  = (wakeLockCalls (window w)
     ++ wakeLockCallsOf (set_this (with_slideshowIsRunning false) w))%list.
Proof.
  destruct (setSlideshowState_shape w) as (w3 & -> & T & W & _).
  rewrite toggleWakeLock_calls, W, R. cbn [negb].
  destruct (resetSlideshow_wakeLock
              (set_this (with_slideshowIsRunning false) w))
    as (F & S & C & K & N).
  rewrite C. f_equal.
  unfold wakeLockCallsOf. rewrite T, W, R. cbn [negb].
  rewrite F, S, K, N, resetSlideshow_running. reflexivity.
Qed.

(** However many 'close' listeners [init] has registered, the first one
    stops the slideshow and the others find it stopped. *)
Lemma dispatch_onClose_running :
  1 <= listeners (pswp w) -> dispatch onClose w = setSlideshowState w.
Proof.
  unfold dispatch. destruct (listeners (pswp w)) as [|n]; [lia|]. intros _.
  induction n as [|n IH]; cbn.
  - unfold onClose. rewrite R. reflexivity.
  - cbn in IH. rewrite IH. unfold onClose.
    rewrite setSlideshowState_running, R. reflexivity.
Qed.

End Stop.

(** C3. From a stopped slideshow two calls of [setSlideshowState] lead back
    to a stopped one, with [slideshowTimerID] null, no advance timeout
    pending and the wake lock flag false; on a stopped state that had no
    handle and no wake lock, the three fields are what they were. *)
Theorem toggle_twice (w : World) :
  slideshowIsRunning (this w) = false ->
  let w2 := setSlideshowState (setSlideshowState w) in
  slideshowIsRunning (this w2) = false /\
  slideshowTimerID (this w2) = None /\
  wakeLockIsRunning (this w2) = false /\
  (timerInv w = true -> advanceTimers w2 = []) /\
  (slideshowTimerID (this w) = None -> wakeLockIsRunning (this w) = false ->
     (slideshowIsRunning (this w2), slideshowTimerID (this w2), wakeLockIsRunning (this w2))
     = (slideshowIsRunning (this w), slideshowTimerID (this w), wakeLockIsRunning (this w))).
Proof.
  intros R0. cbv zeta.
  assert (R1 : slideshowIsRunning (this (setSlideshowState w)) = true)
    by (rewrite setSlideshowState_running, R0; reflexivity).
  assert (A : slideshowIsRunning (this (setSlideshowState (setSlideshowState w))) = false)
    by (rewrite setSlideshowState_running, R1; reflexivity).
  assert (B : slideshowTimerID (this (setSlideshowState (setSlideshowState w))) = None)
    by (apply setSlideshowState_stop_timerID, R1).
  assert (C : wakeLockIsRunning (this (setSlideshowState (setSlideshowState w))) = false)
    by (rewrite setSlideshowState_flag, R1; reflexivity).
  repeat split; trivial.
  - intros I. apply setSlideshowState_stop_advanceTimers; [exact R1|].
    apply timerInv_setSlideshowState, I.
  - intros T F. rewrite A, B, C, R0, T, F. reflexivity.
Qed.

Lemma toggle_twice_witness :
  let w := Sample.opened (Sample.image false) in
  let w2 := setSlideshowState (setSlideshowState w) in
  slideshowIsRunning (this w2) = false /\
  slideshowTimerID (this w2) = None /\
  wakeLockIsRunning (this w2) = false /\
  advanceTimers w2 = [].
Proof.
  cbv zeta.
  destruct (toggle_twice (Sample.opened (Sample.image false)) eq_refl)
    as (A & B & C & D & _).
  split; [exact A|]. split; [exact B|]. split; [exact C|].
  apply D. reflexivity.
Defined.

(** X22. When the gallery closes while the slideshow runs, the slideshow
    stops, [slideshowTimerID] is cleared and no advance timeout stays
    pending; the close calls [release()] at most once, not at all when no
    sentinel is stored, and when the flag is set and a sentinel is stored
    that sentinel is released and nothing else is asked of the wake lock.
    Where the browser has [screen.keepAwake] instead, a set flag is given up
    by one assignment of [false]. *)
Theorem close_while_running (w : World) :
  slideshowIsRunning (this w) = true ->
  1 <= listeners (pswp w) ->
  timerInv w = true ->
  let w' := step w GalleryClose in
  slideshowIsRunning (this w') = false /\
  slideshowTimerID (this w') = None /\
  advanceTimers w' = [] /\
  exists calls,
    wakeLockCalls (window w') = (wakeLockCalls (window w) ++ calls)%list /\
    List.length (filter isRelease calls) <= 1 /\
    (wakeLockSentinel (this w) = None -> filter isRelease calls = []) /\
    (forall h, holdsLock w h -> calls = [Release h]) /\
    (forall b, wakeLockIsRunning (this w) = true ->
       screen_keepAwake (window w) = Some b -> calls = [SetKeepAwake false]).
Proof.
  intros R L I. cbv zeta. cbn [step]. rewrite (dispatch_onClose_running w R L).
  split; [rewrite setSlideshowState_running, R; reflexivity|].
  split; [apply setSlideshowState_stop_timerID, R|].
  split; [apply setSlideshowState_stop_advanceTimers; assumption|].
  eexists. split; [apply setSlideshowState_stop_calls, R|].
  unfold wakeLockCallsOf, holdsLock. cbn.
  destruct (wakeLockIsRunning (this w)), (screen_keepAwake (window w)),
    (navigator_wakeLock (window w)), (wakeLockSentinel (this w)) as [h'|];
    cbn; (split; [lia|]); (split; [try reflexivity; discriminate|]);
    (split; [intros h (F & S & K & N); congruence|]);
    intros b' F K; congruence.
Qed.

Lemma close_while_running_witness :
  let w := run [LightboxInit; LightboxInit; Click; WakeLockGranted 7]
             (start (Sample.setup (Sample.image false))) in
  let w' := step w GalleryClose in
  holdsLock w 7 /\
  slideshowIsRunning (this w') = false /\
  slideshowTimerID (this w') = None /\
  advanceTimers w' = [] /\
  wakeLockCalls (window w') = [Request; Release 7].
Proof.
  cbv zeta.
  set (w := run [LightboxInit; LightboxInit; Click; WakeLockGranted 7]
              (start (Sample.setup (Sample.image false)))).
  assert (H : holdsLock w 7) by (repeat split).
  split; [exact H|].
  destruct (close_while_running w) as (A & B & C & calls & D & _ & _ & E & _).
  - reflexivity.
  - cbn. lia.
  - reflexivity.
  - split; [exact A|]. split; [exact B|]. split; [exact C|].
    rewrite D, (E 7 H). reflexivity.
Defined.

(** C8. A close while the slideshow runs does not release every wake lock
    the page holds. [toggleWakeLock] goes by the flag and the one sentinel
    stored, and both can be out of step with what the browser has granted.

    - Start and stop before the first request is answered, then both requests
      are granted: the second sentinel replaces the first. The next start
      releases the second. At the close the slideshow stops and nothing is
      released: sentinel 1 was granted and [release()] is never called on it,
      whether the 'release' event of sentinel 2 has reached the plugin (the
      close then makes no call) or not (the close then calls [request()]).
    - A sentinel stored while the flag is off (the grant arrives after the
      browser took an earlier lock back): the close finds the two flags
      equal and makes no call. *)
Theorem close_leaves_lock_held :
  let page := start (Sample.setup (Sample.image false)) in
  let twice := [LightboxInit; Click; Click; WakeLockGranted 1; WakeLockGranted 2;
                Click] in
  (let w := run (twice ++ [SentinelReleased 2; ReleaseSettled]) page in
   let w' := step w GalleryClose in
   slideshowIsRunning (this w) = true /\ unreleased w = [1] /\
   slideshowIsRunning (this w') = false /\
   wakeLockCalls (window w') = [Request; Request; Release 2] /\
   unreleased w' = [1]) /\
  (let w := run (twice ++ [ReleaseSettled]) page in
   let w' := step w GalleryClose in
   slideshowIsRunning (this w) = true /\ unreleased w = [1] /\
   slideshowIsRunning (this w') = false /\
   wakeLockCalls (window w') = [Request; Request; Release 2; Request] /\
   unreleased w' = [1]) /\
  (let w := run [LightboxInit; Click; Click; Click; WakeLockGranted 1;
                 SentinelReleased 1; WakeLockGranted 2] page in
   let w' := step w GalleryClose in
   slideshowIsRunning (this w) = true /\
   wakeLockSentinel (this w) = Some 2 /\
   slideshowIsRunning (this w') = false /\
   wakeLockSentinel (this w') = Some 2 /\
   wakeLockCalls (window w') = [Request; Request; Request]).
Proof. vm_compute. repeat split. Qed.

(** ** Handles of the pending timeouts *)

Lemma NoDup_handles_filter (p : timer -> bool) (l : list timer) :
  NoDup (map timer_id l) -> NoDup (map timer_id (filter p l)).
Proof.
  induction l as [|a l IH]; cbn; intros D; [constructor|].
  apply NoDup_cons_iff in D. destruct D as [N D].
  destruct (p a); cbn; [|apply IH, D].
  constructor; [|apply IH, D].
  intros H. apply N. apply in_map_iff in H. destruct H as (t & E & H).
  apply filter_In in H. apply in_map_iff. exists t. tauto.
Qed.

Lemma freshHandles_filter (p : timer -> bool) (l : list timer) (n : positive) :
  freshHandles l n -> freshHandles (filter p l) n.
Proof.
  intros [D B]. split; [apply NoDup_handles_filter, D|].
  apply Forall_forall. intros t H. apply filter_In in H.
  rewrite Forall_forall in B. apply B. tauto.
Qed.

Lemma freshHandles_setTimeout (cb : callback) (d : JS.number)
    (l : list timer) (n : positive) :
  freshHandles l n ->
  freshHandles
    (l ++ [{| timer_id := n; timer_callback := cb; timer_delay := d |}])
    (Pos.succ n).
Proof.
  intros [D B]. rewrite Forall_forall in B. split.
  - rewrite map_app. apply NoDup_app; trivial.
    + cbn. constructor; [intros []|constructor].
    + intros a H [E|[]]. cbn in E. subst a.
      apply in_map_iff in H. destruct H as (t & E & H).
      specialize (B t H). cbn in B. lia.
  - apply Forall_forall. intros t H. apply in_app_or in H.
    destruct H as [H|[<-|[]]]; [specialize (B t H); cbn in B|cbn]; lia.
Qed.

Section TimersFresh.

Variable w : World.
Hypothesis F : timersFresh w.

Lemma timersFresh_same (w' : World) :
  timers (window w') = timers (window w) ->
  nextTimer (window w') = nextTimer (window w) ->
  timersFresh w'.
Proof.
  unfold timersFresh. intros -> ->. exact F.
Qed.

Lemma timersFresh_clearTimeout (id : positive) : timersFresh (clearTimeout id w).
Proof.
  unfold timersFresh, clearTimeout, set_window. cbn.
  apply freshHandles_filter, F.
Qed.

Lemma timersFresh_resetSlideshow : timersFresh (resetSlideshow w).
Proof.
  unfold timersFresh. destruct (resetSlideshow_timers w) as [-> ->].
  destruct (slideshowTimerID (this w)); [apply freshHandles_filter|]; exact F.
Qed.

End TimersFresh.

Lemma timersFresh_goToNext (w : World) :
  timersFresh w -> timersFresh (goToNextSlideAfterTimeout w).
Proof.
  intros F. apply timersFresh_resetSlideshow in F. revert F.
  unfold goToNextSlideAfterTimeout, timersFresh.
  generalize (resetSlideshow w). clear w. intros w F.
  destruct (slideContentHasLoaded w); unfold setTimeout, set_this, set_window; cbn.
  - apply freshHandles_setTimeout, freshHandles_setTimeout, F.
  - apply freshHandles_setTimeout, F.
Qed.

Lemma timersFresh_setSlideshowState (w : World) :
  timersFresh w -> timersFresh (setSlideshowState w).
Proof.
  intros F. destruct (setSlideshowState_shape w) as (w3 & -> & _ & W & _).
  destruct (toggleWakeLock_timers w3) as [T _].
  apply (timersFresh_same w3); [|exact T|apply toggleWakeLock_nextTimer].
  unfold timersFresh. rewrite W.
  destruct (negb (slideshowIsRunning (this w)));
    [apply timersFresh_goToNext|apply timersFresh_resetSlideshow]; exact F.
Qed.

Lemma timersFresh_changeSlideshowLength (delta : JS.number) (w : World) :
  timersFresh w -> timersFresh (changeSlideshowLength delta w).
Proof.
  intros F. unfold changeSlideshowLength.
  destruct (slideshowIsRunning (this w)); cbn [negb]; [|exact F].
  apply timersFresh_goToNext.
  apply (timersFresh_same w F);
    unfold setSlideshowLength, set_this, set_window, set_document; cbn;
    destruct (JS.neq _ _); cbn; destruct (pswp_counter (document w)); reflexivity.
Qed.

Lemma timersFresh_onChange (w : World) :
  timersFresh w -> timersFresh (onChange w).
Proof.
  intros F. unfold onChange.
  destruct (_ && _); [apply timersFresh_goToNext|]; exact F.
Qed.

Lemma timersFresh_onClose (w : World) :
  timersFresh w -> timersFresh (onClose w).
Proof.
  intros F. unfold onClose.
  destruct (slideshowIsRunning (this w)); [apply timersFresh_setSlideshowState|];
    exact F.
Qed.

Lemma timersFresh_runCallback (cb : callback) (moved : option Content) (w : World) :
  timersFresh w -> timersFresh (runCallback cb moved w).
Proof.
  intros F.
  assert (N : timersFresh (pswp_next moved w)).
  { destruct moved as [c|]; [|exact F].
    apply (pswp_change_preserves timersFresh c w timersFresh_onChange);
      [through_counter|exact F]. }
  destruct cb as [|t|]; cbn.
  - destruct (restartOnSlideChange _); [|apply timersFresh_goToNext]; exact N.
  - destruct (slideshowIsRunning (this w)); [|exact F].
    unfold toggleProgressBar. destruct (JS.truthy t); exact F.
  - apply timersFresh_goToNext, F.
Qed.

Lemma timersFresh_step (w : World) (e : event) :
  timersFresh w -> timersFresh (step w e).
Proof.
  intros F. destruct e as [| |code|c|c| |id moved|h| | |h]; cbn.
  - exact F.
  - apply timersFresh_setSlideshowState, F.
  - unfold onKeyDown.
    destruct (String.eqb code "Space"); [apply timersFresh_setSlideshowState, F|].
    destruct (existsb _ _); [apply timersFresh_changeSlideshowLength, F|].
    destruct (existsb _ _); [apply timersFresh_changeSlideshowLength|]; exact F.
  - apply (pswp_change_preserves timersFresh c w timersFresh_onChange);
      [through_counter|exact F].
  - exact F.
  - exact (dispatch_preserves timersFresh onClose w timersFresh_onClose F).
  - unfold fire. destruct (find _ _); [|exact F].
    apply timersFresh_runCallback, timersFresh_clearTimeout, F.
  - unfold requestFulfilled. destruct (pendingRequests _); exact F.
  - unfold requestRejected. destruct (pendingRequests _); exact F.
  - unfold releaseFulfilled. destruct (pendingReleases _); exact F.
  - unfold onSentinelRelease. destruct (existsb _ _); exact F.
Qed.

(** In every state the plugin can reach the pending timeouts have distinct
    handles, so [clearTimeout] and an expiring timeout each remove exactly the
    timeout meant. *)
Lemma timer_handles_unique (c : Setup) (es : list event) :
  timersFresh (run es (start c)).
Proof.
  assert (S : timersFresh (start c)).
  { unfold start, constructor, setSlideshowLength, timersFresh, freshHandles.
    cbn. destruct (JS.neq _ _); cbn; split; constructor. }
  revert S. generalize (start c). induction es as [|e es IH]; intros w F; cbn.
  - exact F.
  - apply IH, timersFresh_step, F.
Qed.

(** ** The delay in every reachable state *)

Lemma inBounds_not_nan (d : JS.number) : inBounds d = true -> JS.isNaN d = false.
Proof.
  unfold inBounds. intros H. apply andb_true_iff in H. destruct H as [L _].
  apply (leb_not_nan _ _ L).
Qed.

Lemma inBounds_clampDelay (d : JS.number) :
  JS.isNaN d = false -> inBounds (clampDelay d) = true.
Proof.
  intros N. destruct (clampDelay_bounds d N) as [L U]. unfold inBounds.
  rewrite L, U. reflexivity.
Qed.

Lemma delay_onKeyDown (code : string) (w : World) :
  inBounds (delay w) = true -> inBounds (delay (onKeyDown code w)) = true.
Proof.
  intros I. pose proof (add_1000_not_nan _ (inBounds_not_nan _ I)) as [P M].
  assert (C : forall delta, JS.isNaN (delay w + delta)%float = false ->
                inBounds (delay (changeSlideshowLength delta w)) = true).
  { intros delta N. destruct (slideshowIsRunning (this w)) eqn:R.
    - apply changeSlideshowLength_bounds; assumption.
    - unfold changeSlideshowLength. rewrite R. exact I. }
  unfold onKeyDown.
  destruct (String.eqb code "Space");
    [unfold delay; rewrite setSlideshowState_options; exact I|].
  destruct (existsb _ _); [apply C, P|].
  destruct (existsb _ _); [apply C, M|exact I].
Qed.

Lemma options_onChange (w : World) : options (this (onChange w)) = options (this w).
Proof.
  unfold onChange. destruct (_ && _); [apply goToNext_options|reflexivity].
Qed.

Lemma options_onClose (w : World) : options (this (onClose w)) = options (this w).
Proof.
  unfold onClose.
  destruct (slideshowIsRunning (this w));
    [apply setSlideshowState_options|reflexivity].
Qed.

Lemma options_dispatch (f : World -> World) (w : World) :
  (forall w', options (this (f w')) = options (this w')) ->
  options (this (dispatch f w)) = options (this w).
Proof.
  intros F.
  apply (dispatch_preserves (fun w' => options (this w') = options (this w)) f w);
    [|reflexivity].
  intros w' E. rewrite F. exact E.
Qed.

Lemma options_fire (id : positive) (moved : option Content) (w : World) :
  options (this (fire id moved w)) = options (this w).
Proof.
  unfold fire. destruct (find _ _) as [t|]; [|reflexivity].
  set (w0 := clearTimeout id w).
  change (options (this w)) with (options (this w0)).
  generalize w0. clear w w0. intros w.
  assert (N : options (this (pswp_next moved w)) = options (this w)).
  { destruct moved as [c|]; [|reflexivity].
    apply (pswp_change_preserves
             (fun w' => options (this w') = options (this w)) c w);
      [|through_counter|reflexivity].
    intros w' E. rewrite options_onChange. exact E. }
  destruct (timer_callback t) as [|d|]; cbn.
  - destruct (restartOnSlideChange _); [|rewrite goToNext_options]; exact N.
  - destruct (slideshowIsRunning (this w)); [|reflexivity].
    unfold toggleProgressBar. destruct (JS.truthy d); reflexivity.
  - apply goToNext_options.
Qed.

Lemma delay_step (w : World) (e : event) :
  inBounds (delay w) = true -> inBounds (delay (step w e)) = true.
Proof.
  intros I. destruct e as [| |code|c|c| |id moved|h| | |h]; cbn [step].
  - exact I.
  - unfold delay. rewrite setSlideshowState_options. exact I.
  - apply delay_onKeyDown, I.
  - apply (pswp_change_preserves (fun w' => inBounds (delay w') = true) c w);
      [|through_counter|exact I].
    intros w' E. unfold delay. rewrite options_onChange. exact E.
  - exact I.
  - unfold delay. rewrite (options_dispatch onClose w options_onClose). exact I.
  - unfold delay. rewrite options_fire. exact I.
  - unfold requestFulfilled. destruct (pendingRequests _); exact I.
  - unfold requestRejected. destruct (pendingRequests _); exact I.
  - unfold releaseFulfilled. destruct (pendingReleases _); exact I.
  - unfold onSentinelRelease. destruct (existsb _ _); exact I.
Qed.

(** X5. With a number configured as default delay, the delay
    lies within [1000, 2147483647] from the constructor on, whatever was
    stored and whatever happens. *)
Lemma delay_within_bounds (c : Setup) (es : list event) :
  JS.isNaN (defaultDelayMs (setup_options c)) = false ->
  inBounds (delay (run es (start c))) = true.
Proof.
  intros N. pose proof (constructor_bounds c N) as S.
  revert S. generalize (start c). induction es as [|e es IH]; intros w I; cbn.
  - exact I.
  - apply IH, delay_step, I.
Qed.

(** * Further properties of the code *)

(** ** Requests outside the bounds *)

Lemma ltb_eqb_false (x y : float) :
  PrimFloat.ltb x y = true -> PrimFloat.eqb y x = false.
Proof.
  rewrite ltb_spec, eqb_spec. unfold SFltb, SFeqb.
  rewrite (SFcompare_antisym (Prim2SF x) (Prim2SF y)).
  destruct (SFcompare (Prim2SF x) (Prim2SF y)) as [[ | | ]|]; simpl; trivial;
    discriminate.
Qed.

Lemma SFltb_SFleb_smaller (m1 m2 : positive) (e1 e2 : Z) (x : spec_float) :
  (e1 < e2)%Z ->
  SFltb (S754_finite false m2 e2) x = true ->
  SFleb (S754_finite false m1 e1) x = true.
Proof.
  intros H. unfold SFltb, SFleb.
  destruct x as [s|s| |s m e]; cbn; try discriminate.
  - destruct s; trivial.
  - destruct s; [discriminate|].
    destruct (Z.compare_spec e2 e) as [E|L|G]; try discriminate; intros _;
      assert (C : (e1 ?= e)%Z = Lt) by (apply Z.compare_lt_iff; lia);
      rewrite C; reflexivity.
Qed.

Lemma ltb_INT32_MAX_leb_1000 (d : float) :
  PrimFloat.ltb INT32_MAX d = true -> PrimFloat.leb 1000%float d = true.
Proof.
  rewrite ltb_spec, leb_spec.
  change (Prim2SF INT32_MAX) with (S754_finite false 9007199250546688 (-22)).
  change (Prim2SF 1000%float) with (S754_finite false 8796093022208000 (-43)).
  apply SFltb_SFleb_smaller. lia.
Qed.

Lemma clampDelay_below (d : JS.number) :
  PrimFloat.ltb d 1000%float = true -> clampDelay d = 1000%float.
Proof.
  intros L. destruct (leb_not_nan _ _ (ltb_leb _ _ L)) as [N _].
  unfold clampDelay, JS.Math_max, JS.isNaN. rewrite N, L. reflexivity.
Qed.

Lemma clampDelay_above (d : JS.number) :
  PrimFloat.ltb INT32_MAX d = true -> clampDelay d = INT32_MAX.
Proof.
  intros L. pose proof (ltb_INT32_MAX_leb_1000 d L) as G.
  destruct (leb_not_nan _ _ G) as [_ N].
  assert (M : JS.Math_max d 1000%float = d).
  { unfold JS.Math_max, JS.isNaN. rewrite N. simpl.
    rewrite (leb_ltb_false _ _ G), (positive_get_sign _ (leb_1000_positive _ G)).
    destruct (PrimFloat.ltb 1000 d); reflexivity. }
  unfold clampDelay. rewrite M. unfold JS.Math_min, JS.isNaN. rewrite N. simpl.
  rewrite (leb_ltb_false _ _ (ltb_leb _ _ L)), L. reflexivity.
Qed.

(** X1. A request below 1000 ms becomes 1000 ms and a request above
    2147483647 ms becomes 2147483647 ms; in both cases the bound is what is
    written to storage. *)
Theorem setSlideshowLength_clamps (d : JS.number) (w : World) :
  (PrimFloat.ltb d 1000%float = true ->
     delay (setSlideshowLength d w) = 1000%float /\
     localStorage (window (setSlideshowLength d w)) = Some 1000%float) /\
  (PrimFloat.ltb 2147483647%float d = true ->
     delay (setSlideshowLength d w) = 2147483647%float /\
     localStorage (window (setSlideshowLength d w)) = Some 2147483647%float).
Proof.
  split; intros L; rewrite delay_setSlideshowLength, setSlideshowLength_localStorage.
  - rewrite (clampDelay_below d L). unfold JS.neq.
    rewrite (ltb_eqb_false _ _ L). split; reflexivity.
  - rewrite (clampDelay_above d L). unfold JS.neq.
    assert (E : PrimFloat.eqb INT32_MAX d = false).
    { revert L. rewrite ltb_spec, eqb_spec. unfold SFltb, SFeqb.
      destruct (SFcompare _ _) as [[ | | ]|]; trivial; discriminate. }
    rewrite E. split; reflexivity.
Qed.

Lemma setSlideshowLength_clamps_witness :
  let w := Sample.opened (Sample.image false) in
  (delay (setSlideshowLength 5%float w) = 1000%float /\
   localStorage (window (setSlideshowLength 5%float w)) = Some 1000%float) /\
  (delay (setSlideshowLength 1e10%float w) = 2147483647%float /\
   localStorage (window (setSlideshowLength 1e10%float w)) = Some 2147483647%float).
Proof.
  cbv zeta. split.
  - apply (setSlideshowLength_clamps 5%float (Sample.opened (Sample.image false))).
    reflexivity.
  - apply (setSlideshowLength_clamps 1e10%float (Sample.opened (Sample.image false))).
    reflexivity.
Defined.

(** X2. A request that is NaN is not clamped: the delay becomes NaN, and NaN
    is written to storage. *)
Theorem setSlideshowLength_NaN (d : JS.number) (w : World) :
  JS.isNaN d = true ->
  JS.isNaN (delay (setSlideshowLength d w)) = true /\
  localStorage (window (setSlideshowLength d w))
  = Some (delay (setSlideshowLength d w)).
Proof.
  intros N. rewrite delay_setSlideshowLength, setSlideshowLength_localStorage.
  assert (C : clampDelay d = PrimFloat.nan).
  { unfold clampDelay, JS.Math_max. rewrite N. reflexivity. }
  rewrite C. split; [reflexivity|].
  unfold JS.neq. rewrite eqb_spec.
  change (Prim2SF PrimFloat.nan) with S754_nan. reflexivity.
Qed.

Lemma setSlideshowLength_NaN_witness :
  let w := setSlideshowLength PrimFloat.nan (Sample.opened (Sample.image false)) in
  JS.isNaN (delay w) = true /\ localStorage (window w) = Some (delay w).
Proof.
  cbv zeta.
  apply (setSlideshowLength_NaN PrimFloat.nan (Sample.opened (Sample.image false))).
  reflexivity.
Defined.

(** X3. [setSlideshowLength] is idempotent: asking again for the delay it
    has just set changes nothing, neither the delay nor what is stored. *)
Theorem setSlideshowLength_idempotent (d : JS.number) (w : World) :
  let w' := setSlideshowLength d w in
  setSlideshowLength (delay w') w' = w'.
Proof.
  cbv zeta. destruct (JS.isNaN d) eqn:N.
  - assert (C : clampDelay d = PrimFloat.nan)
      by (unfold clampDelay, JS.Math_max; rewrite N; reflexivity).
    unfold setSlideshowLength, delay. cbn. rewrite C.
    assert (E : JS.neq PrimFloat.nan d = true).
    { unfold JS.neq. rewrite eqb_spec.
      change (Prim2SF PrimFloat.nan) with S754_nan. reflexivity. }
    rewrite E. cbn. reflexivity.
  - pose proof (inBounds_clampDelay d N) as B.
    pose proof (clampDelay_inBounds _ B) as C.
    pose proof (inBounds_neq _ B) as Q. rewrite C in Q.
    unfold setSlideshowLength, delay. cbn.
    destruct (JS.neq (clampDelay d) d); cbn; rewrite C, Q; reflexivity.
Qed.

(** ** The constructor *)

Lemma inBounds_truthy (d : JS.number) : inBounds d = true -> JS.truthy d = true.
Proof.
  intros B. pose proof (inBounds_not_nan d B) as N. unfold JS.isNaN in N.
  unfold JS.truthy. rewrite N, orb_false_r.
  unfold inBounds in B. apply andb_true_iff in B. destruct B as [L _].
  apply leb_1000_positive in L. unfold PrimFloat.is_zero. rewrite eqb_spec.
  change (Prim2SF zero) with (S754_zero false). unfold SFeqb.
  destruct (Prim2SF d) as [s|s| |s m e]; try discriminate;
    destruct s; try discriminate; reflexivity.
Qed.

Lemma start_delay (c : Setup) :
  let requested :=
    JS.or (match setup_stored c with Some x => x | None => 0%float end)
          (defaultDelayMs (setup_options c)) in
  delay (start c) = clampDelay requested /\
  localStorage (window (start c))
  = if JS.neq (clampDelay requested) requested then Some (clampDelay requested)
    else setup_stored c.
Proof.
  cbv zeta. unfold start, constructor. split.
  - exact (delay_setSlideshowLength _ _).
  - exact (setSlideshowLength_localStorage _ _).
Qed.

(** X4. The constructor prefers a stored delay: one within the bounds becomes
    the delay and storage is left as it is. With nothing stored, or a stored
    value that reads as [0] or NaN, it takes the configured default, clamped,
    and leaves storage as it is when that default is within the bounds. *)
Theorem constructor_delay (c : Setup) :
  (forall s, setup_stored c = Some s -> inBounds s = true ->
     delay (start c) = s /\ localStorage (window (start c)) = Some s) /\
  (setup_stored c = None \/
   (exists s, setup_stored c = Some s /\ JS.truthy s = false) ->
     delay (start c) = clampDelay (defaultDelayMs (setup_options c)) /\
     (inBounds (defaultDelayMs (setup_options c)) = true ->
        localStorage (window (start c)) = setup_stored c)).
Proof.
  destruct (start_delay c) as [D S]. cbv zeta in D, S. split.
  - intros s E B. rewrite E in D, S. unfold JS.or in D, S.
    rewrite (inBounds_truthy s B) in D, S.
    rewrite (clampDelay_inBounds s B) in D.
    rewrite (inBounds_neq s B) in S. auto.
  - intros H.
    assert (F : JS.or (match setup_stored c with Some x => x | None => 0%float end)
                  (defaultDelayMs (setup_options c))
                = defaultDelayMs (setup_options c)).
    { destruct H as [E|(s & E & T)]; rewrite E; unfold JS.or;
        [reflexivity|rewrite T; reflexivity]. }
    rewrite F in D, S. split; [exact D|].
    intros B. rewrite (inBounds_neq _ B) in S. exact S.
Qed.

Lemma constructor_delay_witness :
  let stored s :=
    {| setup_options := defaultOptions; setup_stored := s;
       setup_keepAwake := None; setup_wakeLock := true;
       setup_counter := true; setup_content := Sample.image false |} in
  (delay (start (stored (Some 7000%float))) = 7000%float /\
   localStorage (window (start (stored (Some 7000%float)))) = Some 7000%float) /\
  (delay (start (stored (Some PrimFloat.nan))) = clampDelay 4000%float /\
   localStorage (window (start (stored (Some PrimFloat.nan)))) = Some PrimFloat.nan).
Proof.
  cbv zeta. split.
  - apply (constructor_delay
             {| setup_options := defaultOptions; setup_stored := Some 7000%float;
                setup_keepAwake := None; setup_wakeLock := true;
                setup_counter := true; setup_content := Sample.image false |});
      reflexivity.
  - destruct (constructor_delay
                {| setup_options := defaultOptions;
                   setup_stored := Some PrimFloat.nan;
                   setup_keepAwake := None; setup_wakeLock := true;
                   setup_counter := true; setup_content := Sample.image false |})
      as [_ H].
    destruct H as [D S].
    + right. exists PrimFloat.nan. split; reflexivity.
    + split; [exact D|apply S; reflexivity].
Defined.

Lemma delay_within_bounds_witness :
  inBounds (delay (run [LightboxInit; Click; KeyDown "Minus"; KeyDown "Minus";
                        KeyDown "Minus"; KeyDown "Minus"]
                     (start (Sample.setup (Sample.image false))))) = true.
Proof.
  apply (delay_within_bounds (Sample.setup (Sample.image false))).
  reflexivity.
Defined.

(** ** Nothing is scheduled while the slideshow is stopped *)

Lemma stoppedInv_running (w : World) :
  slideshowIsRunning (this w) = true -> stoppedInv w = true.
Proof. unfold stoppedInv. intros ->. reflexivity. Qed.

Lemma stoppedInv_none (w : World) :
  advanceTimers w = [] -> stoppedInv w = true.
Proof. unfold stoppedInv. intros ->. apply orb_true_r. Qed.

Lemma stoppedInv_stopped (w : World) :
  stoppedInv w = true -> slideshowIsRunning (this w) = false ->
  advanceTimers w = [].
Proof.
  unfold stoppedInv. intros I R. rewrite R in I. cbn in I.
  destruct (advanceTimers w); [reflexivity|discriminate].
Qed.

Lemma scheduleInv_setSlideshowState (w : World) :
  timerInv w = true /\ stoppedInv w = true ->
  timerInv (setSlideshowState w) = true /\ stoppedInv (setSlideshowState w) = true.
Proof.
  intros [T _]. split; [apply timerInv_setSlideshowState, T|].
  destruct (slideshowIsRunning (this w)) eqn:R.
  - apply stoppedInv_none, setSlideshowState_stop_advanceTimers; assumption.
  - apply stoppedInv_running. rewrite setSlideshowState_running, R. reflexivity.
Qed.

Lemma scheduleInv_onChange (w : World) :
  timerInv w = true /\ stoppedInv w = true ->
  timerInv (onChange w) = true /\ stoppedInv (onChange w) = true.
Proof.
  intros [T S]. split; [apply timerInv_onChange, T|].
  unfold onChange. destruct (slideshowIsRunning (this w)) eqn:R; cbn; [|exact S].
  destruct (restartOnSlideChange _); [|exact S].
  apply stoppedInv_running. rewrite goToNext_running. exact R.
Qed.

Lemma scheduleInv_onClose (w : World) :
  timerInv w = true /\ stoppedInv w = true ->
  timerInv (onClose w) = true /\ stoppedInv (onClose w) = true.
Proof.
  intros I. unfold onClose.
  destruct (slideshowIsRunning (this w)); [apply scheduleInv_setSlideshowState|];
    exact I.
Qed.

Lemma scheduleInv_changeSlideshowLength (delta : JS.number) (w : World) :
  timerInv w = true /\ stoppedInv w = true ->
  timerInv (changeSlideshowLength delta w) = true /\
  stoppedInv (changeSlideshowLength delta w) = true.
Proof.
  intros [T S]. split; [apply timerInv_changeSlideshowLength, T|].
  destruct (slideshowIsRunning (this w)) eqn:R.
  - apply stoppedInv_running.
    destruct (changeSlideshowLength_running delta w R) as (w' & -> & _ & _ & R').
    rewrite goToNext_running. exact R'.
  - unfold changeSlideshowLength. rewrite R. exact S.
Qed.

(** A timeout that expires while the slideshow is stopped is a 100 ms one,
    and its callback does nothing. *)
Lemma fire_stopped (id : positive) (moved : option Content) (w : World) :
  stoppedInv w = true -> slideshowIsRunning (this w) = false ->
  fire id moved w = w \/ fire id moved w = clearTimeout id w.
Proof.
  intros S R. unfold fire.
  destruct (find (has_id id) (timers (window w))) as [t|] eqn:F; [|left; reflexivity].
  right. apply find_some in F. destruct F as [F _].
  pose proof (stoppedInv_stopped w S R) as A.
  destruct (timer_callback t) as [|d|] eqn:C.
  - assert (X : In t (advanceTimers w))
      by (apply filter_In; split; [exact F|unfold isAdvance; rewrite C; reflexivity]).
    rewrite A in X. destruct X.
  - cbn. rewrite R. reflexivity.
  - assert (X : In t (advanceTimers w))
      by (apply filter_In; split; [exact F|unfold isAdvance; rewrite C; reflexivity]).
    rewrite A in X. destruct X.
Qed.

Lemma scheduleInv_step (w : World) (e : event) :
  timerInv w = true /\ stoppedInv w = true ->
  timerInv (step w e) = true /\ stoppedInv (step w e) = true.
Proof.
  intros I. pose proof I as [T S].
  split; [apply timerInv_step, T|].
  destruct e as [| |code|c|c| |id moved|h| | |h]; cbn [step].
  - exact S.
  - apply scheduleInv_setSlideshowState, I.
  - unfold onKeyDown.
    destruct (String.eqb code "Space"); [apply scheduleInv_setSlideshowState, I|].
    destruct (existsb _ _); [apply scheduleInv_changeSlideshowLength, I|].
    destruct (existsb _ _); [apply scheduleInv_changeSlideshowLength, I|exact S].
  - apply (pswp_change_preserves
             (fun w => timerInv w = true /\ stoppedInv w = true) c w
             scheduleInv_onChange); [through_counter|exact I].
  - exact S.
  - apply (dispatch_preserves
             (fun w => timerInv w = true /\ stoppedInv w = true) onClose
             w scheduleInv_onClose I).
  - destruct (slideshowIsRunning (this w)) eqn:R.
    + apply stoppedInv_running. rewrite fire_running. exact R.
    + destruct (fire_stopped id moved w S R) as [-> | ->]; [exact S|].
      apply stoppedInv_none.
      pose proof (stoppedInv_stopped w S R) as A.
      unfold advanceTimers, clearTimeout, set_window in *. cbn.
      rewrite filter_comm, A. reflexivity.
  - unfold requestFulfilled. destruct (pendingRequests _); exact S.
  - unfold requestRejected. destruct (pendingRequests _); exact S.
  - unfold releaseFulfilled. destruct (pendingReleases _); exact S.
  - unfold onSentinelRelease. destruct (existsb _ _); exact S.
Qed.

Lemma scheduleInv_run (es : list event) (w : World) :
  timerInv w = true /\ stoppedInv w = true ->
  timerInv (run es w) = true /\ stoppedInv (run es w) = true.
Proof.
  revert w. induction es as [|e es IH]; intros w I; cbn; [exact I|].
  apply IH, scheduleInv_step, I.
Qed.

Lemma scheduleInv_start (c : Setup) :
  timerInv (start c) = true /\ stoppedInv (start c) = true.
Proof.
  split; [apply timerInv_start|].
  unfold start, constructor, setSlideshowLength, stoppedInv, advanceTimers.
  cbn. destruct (JS.neq _ _); reflexivity.
Qed.

(** X6. While the slideshow is stopped no advance timeout is pending, in any
    state the plugin can reach; a timeout that still expires then leaves the
    gallery where it is ([pswp.next()] is not called) and starts no new
    advance timeout. *)
Theorem stopped_schedules_nothing (c : Setup) (es : list event) :
  let w := run es (start c) in
  slideshowIsRunning (this w) = false ->
  advanceTimers w = [] /\
  (forall id moved,
     pswp (step w (TimerFires id moved)) = pswp w /\
     advanceTimers (step w (TimerFires id moved)) = []).
Proof.
  cbv zeta. intros R.
  destruct (scheduleInv_run es (start c) (scheduleInv_start c)) as [T S].
  pose proof (stoppedInv_stopped _ S R) as A.
  split; [exact A|]. intros id moved. cbn [step].
  destruct (fire_stopped id moved _ S R) as [-> | ->]; [auto|].
  split; [reflexivity|].
  unfold advanceTimers, clearTimeout, set_window in *. cbn.
  rewrite filter_comm, A. reflexivity.
Qed.

Lemma stopped_schedules_nothing_witness :
  let w := run [LightboxInit; Click; Click]
             (start (Sample.setup (Sample.image false))) in
  advanceTimers w = [] /\
  pswp (step w (TimerFires 2%positive (Some (Sample.image true)))) = pswp w.
Proof.
  cbv zeta.
  destruct (stopped_schedules_nothing (Sample.setup (Sample.image false))
              [LightboxInit; Click; Click] eq_refl) as [A B].
  split; [exact A|]. apply B.
Defined.

(** ** What [goToNextSlideAfterTimeout] schedules *)

Lemma resetSlideshow_reads (w : World) :
  slideContentHasLoaded (resetSlideshow w) = slideContentHasLoaded w /\
  getSlideTimeout (resetSlideshow w) = getSlideTimeout w /\
  getSlideTransition (resetSlideshow w) = getSlideTransition w.
Proof.
  unfold slideContentHasLoaded, getSlideTimeout, getSlideTransition.
  rewrite resetSlideshow_pswp, resetSlideshow_options. repeat split.
Qed.

(** With the content loaded: the advance timeout and the 100 ms timeout. *)
Lemma goToNext_loaded (w : World) :
  slideContentHasLoaded w = true ->
  let n := nextTimer (window w) in
  let t := getSlideTimeout w in
  timers (window (goToNextSlideAfterTimeout w))
  = (timers (window (resetSlideshow w))
     ++ [{| timer_id := n; timer_callback := NextSlide; timer_delay := t |};
         {| timer_id := Pos.succ n; timer_callback := ShowProgressBar t;
            timer_delay := 100%float |}])%list /\
  slideshowTimerID (this (goToNextSlideAfterTimeout w)) = Some n /\
  nextTimer (window (goToNextSlideAfterTimeout w)) = Pos.succ (Pos.succ n) /\
  document (goToNextSlideAfterTimeout w) = document (resetSlideshow w).
Proof.
  intros L. cbv zeta.
  destruct (resetSlideshow_reads w) as (E1 & E2 & _).
  destruct (resetSlideshow_timers w) as [_ N].
  unfold goToNextSlideAfterTimeout. rewrite E1, L.
  unfold setTimeout, set_this, set_window. cbn.
  rewrite <- app_assoc, E2, N. repeat split.
Qed.

(** With the content still loading: only the 200 ms timeout. *)
Lemma goToNext_loading (w : World) :
  slideContentHasLoaded w = false ->
  let n := nextTimer (window w) in
  timers (window (goToNextSlideAfterTimeout w))
  = (timers (window (resetSlideshow w))
     ++ [{| timer_id := n; timer_callback := Recheck;
            timer_delay := 200%float |}])%list /\
  slideshowTimerID (this (goToNextSlideAfterTimeout w)) = Some n /\
  nextTimer (window (goToNextSlideAfterTimeout w)) = Pos.succ n /\
  document (goToNextSlideAfterTimeout w) = document (resetSlideshow w).
Proof.
  intros L. cbv zeta.
  destruct (resetSlideshow_reads w) as (E1 & _).
  destruct (resetSlideshow_timers w) as [_ N].
  unfold goToNextSlideAfterTimeout. rewrite E1, L.
  unfold setTimeout, set_this, set_window. cbn.
  rewrite N. repeat split.
Qed.

Lemma find_fresh (l l' : list timer) (n id : positive) :
  freshHandles l n -> (n <= id)%positive ->
  find (has_id id) (l ++ l') = find (has_id id) l'.
Proof.
  intros [_ B] H. induction l as [|a l IH]; cbn; [reflexivity|].
  apply Forall_cons_iff in B. destruct B as [A B].
  unfold has_id at 1.
  destruct (Pos.eqb_spec (timer_id a) id) as [E|_]; [lia|].
  apply IH, B.
Qed.

Lemma find_unique (l : list timer) (t : timer) :
  NoDup (map timer_id l) -> In t l -> find (has_id (timer_id t)) l = Some t.
Proof.
  induction l as [|a l IH]; cbn; intros D H; [destruct H|].
  apply NoDup_cons_iff in D. destruct D as [N D]. unfold has_id at 1.
  destruct H as [->|H]; [rewrite Pos.eqb_refl; reflexivity|].
  destruct (Pos.eqb_spec (timer_id a) (timer_id t)) as [E|_]; [|apply IH; assumption].
  exfalso. apply N. rewrite E. apply in_map, H.
Qed.

(** ** Invariants of the timeout queue *)

Section QueueInvariant.

Variable P : World -> Prop.
Hypothesis P_same : forall w w', sameQueue w w' -> P w -> P w'.
Hypothesis P_goToNext : forall w, P w -> P (goToNextSlideAfterTimeout w).
Hypothesis P_reset : forall w, P w -> P (resetSlideshow w).
Hypothesis P_clear : forall w id, P w -> P (clearTimeout id w).

Lemma queue_setSlideshowState (w : World) : P w -> P (setSlideshowState w).
Proof.
  intros H. destruct (setSlideshowState_shape w) as (w3 & -> & T & W & _).
  apply (P_same w3).
  { destruct (toggleWakeLock_timers w3) as [E1 E2].
    repeat split; trivial. apply toggleWakeLock_nextTimer. }
  set (w1 := set_this (with_slideshowIsRunning (negb (slideshowIsRunning (this w)))) w) in *.
  assert (H1 : P w1) by (apply (P_same w); [repeat split|exact H]).
  destruct (negb (slideshowIsRunning (this w))).
  - apply (P_same (goToNextSlideAfterTimeout w1));
      [unfold sameQueue; rewrite W, T; repeat split|apply P_goToNext, H1].
  - apply (P_same (resetSlideshow w1));
      [unfold sameQueue; rewrite W, T; repeat split|apply P_reset, H1].
Qed.

Lemma queue_changeSlideshowLength (delta : JS.number) (w : World) :
  P w -> P (changeSlideshowLength delta w).
Proof.
  intros H. unfold changeSlideshowLength.
  destruct (slideshowIsRunning (this w)); cbn [negb]; [|exact H].
  apply P_goToNext. apply (P_same w); [|exact H].
  unfold sameQueue, setSlideshowLength, set_this, set_window, set_document; cbn.
  destruct (JS.neq _ _); cbn; destruct (pswp_counter (document w)); repeat split.
Qed.

Lemma queue_onChange (w : World) : P w -> P (onChange w).
Proof.
  intros H. unfold onChange. destruct (_ && _); [apply P_goToNext|]; exact H.
Qed.

Lemma queue_onClose (w : World) : P w -> P (onClose w).
Proof.
  intros H. unfold onClose.
  destruct (slideshowIsRunning (this w)); [apply queue_setSlideshowState|];
    exact H.
Qed.

Lemma queue_runCallback (cb : callback) (moved : option Content) (w : World) :
  P w -> P (runCallback cb moved w).
Proof.
  intros H.
  assert (N : P (pswp_next moved w)).
  { destruct moved as [c|]; [|exact H].
    apply (pswp_change_preserves P c w queue_onChange).
    - intros w' H'. apply (P_same w'); [|exact H'].
      unfold sameQueue. destruct (updateCounter_frame w') as (E1 & E2 & _).
      rewrite E1, E2. repeat split.
    - apply (P_same w); [repeat split|exact H]. }
  destruct cb as [|t|]; cbn.
  - destruct (restartOnSlideChange _); [|apply P_goToNext]; exact N.
  - destruct (slideshowIsRunning (this w)); [|exact H].
    apply (P_same w); [|exact H].
    unfold toggleProgressBar. destruct (JS.truthy t); repeat split.
  - apply P_goToNext, H.
Qed.

Lemma queue_step (w : World) (e : event) : P w -> P (step w e).
Proof.
  intros H. destruct e as [| |code|c|c| |id moved|h| | |h]; cbn [step].
  - apply (P_same w); [repeat split|exact H].
  - apply queue_setSlideshowState, H.
  - unfold onKeyDown.
    destruct (String.eqb code "Space"); [apply queue_setSlideshowState, H|].
    destruct (existsb _ _); [apply queue_changeSlideshowLength, H|].
    destruct (existsb _ _); [apply queue_changeSlideshowLength|]; exact H.
  - apply (pswp_change_preserves P c w queue_onChange).
    + intros w' H'. apply (P_same w'); [|exact H'].
      unfold sameQueue. destruct (updateCounter_frame w') as (E1 & E2 & _).
      rewrite E1, E2. repeat split.
    + apply (P_same w); [repeat split|exact H].
  - apply (P_same w); [repeat split|exact H].
  - apply (dispatch_preserves P onClose w queue_onClose H).
  - unfold fire. destruct (find _ _); [|exact H].
    apply queue_runCallback, P_clear, H.
  - apply (P_same w); [|exact H].
    unfold requestFulfilled. destruct (pendingRequests _); repeat split.
  - apply (P_same w); [|exact H].
    unfold requestRejected. destruct (pendingRequests _); repeat split.
  - apply (P_same w); [|exact H].
    unfold releaseFulfilled. destruct (pendingReleases _); repeat split.
  - apply (P_same w); [|exact H].
    unfold onSentinelRelease. destruct (existsb _ _); repeat split.
Qed.

Lemma queue_run (es : list event) (w : World) : P w -> P (run es w).
Proof.
  revert w. induction es as [|e es IH]; intros w H; cbn; [exact H|].
  apply IH, queue_step, H.
Qed.

End QueueInvariant.

Lemma handleInv_goToNext (w : World) :
  timersFresh w -> handleInv (goToNextSlideAfterTimeout w).
Proof.
  intros F. apply timersFresh_resetSlideshow in F.
  destruct F as [_ B]. rewrite Forall_forall in B.
  destruct (resetSlideshow_timers w) as [_ N]. rewrite N in B.
  intros t H S.
  destruct (slideContentHasLoaded w) eqn:L.
  - destruct (goToNext_loaded w L) as (T & I & _). rewrite T in H. rewrite I in S.
    injection S as S. apply in_app_or in H.
    destruct H as [H|[<-|[<-|[]]]]; trivial.
    + specialize (B t H). lia.
    + cbn in S. lia.
  - destruct (goToNext_loading w L) as (T & I & _). rewrite T in H. rewrite I in S.
    injection S as S. apply in_app_or in H.
    destruct H as [H|[<-|[]]]; trivial.
    specialize (B t H). lia.
Qed.

Lemma queueInv_run (c : Setup) (es : list event) :
  timersFresh (run es (start c)) /\ handleInv (run es (start c)).
Proof.
  apply (queue_run (fun w => timersFresh w /\ handleInv w)).
  - intros w w' (T & N & S) [F H]. split.
    + unfold timersFresh. rewrite T, N. exact F.
    + unfold handleInv. rewrite T, S. exact H.
  - intros w [F _]. split; [apply timersFresh_goToNext, F|apply handleInv_goToNext, F].
  - intros w [F _]. split; [apply timersFresh_resetSlideshow, F|].
    intros t _ S. rewrite resetSlideshow_timerID in S. discriminate S.
  - intros w id [F H]. split; [apply timersFresh_clearTimeout, F|].
    intros t I S. apply (H t); [|exact S].
    unfold clearTimeout, set_window in I. cbn in I. apply filter_In in I. tauto.
  - split; [apply (timer_handles_unique c [])|].
    intros t I. exfalso. revert I.
    unfold start, constructor, setSlideshowLength. cbn.
    destruct (JS.neq _ _); intros [].
Qed.

(** [resetSlideshow] cancels no 100 ms timeout. *)
Lemma resetSlideshow_displayTimers (w : World) :
  handleInv w -> displayTimers (resetSlideshow w) = displayTimers w.
Proof.
  intros H. unfold displayTimers. destruct (resetSlideshow_timers w) as [-> _].
  destruct (slideshowTimerID (this w)) as [id|] eqn:S; [|reflexivity].
  rewrite filter_comm. apply forallb_filter_id, forallb_forall.
  intros t I. apply filter_In in I. destruct I as [I D].
  unfold has_id. destruct (Pos.eqb_spec (timer_id t) id) as [E|_]; [|reflexivity].
  subst id. rewrite (H t I S) in D. discriminate D.
Qed.

(** ** One round of the slideshow *)

Lemma goToNext_scheduled (w : World) :
  timers (window (goToNextSlideAfterTimeout w))
  = (timers (window (resetSlideshow w)) ++ scheduledTimer w
     :: (if slideContentHasLoaded w then [scheduledDisplay w] else []))%list /\
  slideshowTimerID (this (goToNextSlideAfterTimeout w))
  = Some (nextTimer (window w)).
Proof.
  unfold scheduledTimer, scheduledDisplay.
  destruct (slideContentHasLoaded w) eqn:L.
  - destruct (goToNext_loaded w L) as (T & I & _). split; assumption.
  - destruct (goToNext_loading w L) as (T & I & _). split; assumption.
Qed.

Lemma isAdvance_scheduledTimer (w : World) : isAdvance (scheduledTimer w) = true.
Proof.
  unfold scheduledTimer. destruct (slideContentHasLoaded w); reflexivity.
Qed.

Lemma goToNext_advanceTimers_scheduled (w : World) :
  timerInv w = true ->
  advanceTimers (goToNextSlideAfterTimeout w) = [scheduledTimer w].
Proof.
  intros I. unfold advanceTimers. destruct (goToNext_scheduled w) as [-> _].
  rewrite filter_app. fold (advanceTimers (resetSlideshow w)).
  rewrite (resetSlideshow_advanceTimers w I). cbn.
  rewrite isAdvance_scheduledTimer.
  destruct (slideContentHasLoaded w); reflexivity.
Qed.

Lemma goToNext_displayTimers (w : World) :
  handleInv w ->
  displayTimers (goToNextSlideAfterTimeout w)
  = (displayTimers w
     ++ (if slideContentHasLoaded w then [scheduledDisplay w] else []))%list.
Proof.
  intros H. unfold displayTimers. destruct (goToNext_scheduled w) as [-> _].
  rewrite filter_app. fold (displayTimers (resetSlideshow w)).
  rewrite (resetSlideshow_displayTimers w H). cbn.
  rewrite isAdvance_scheduledTimer. cbn.
  destruct (slideContentHasLoaded w); reflexivity.
Qed.

(** The 100 ms timeout just started is the one that expires under its
    handle. *)
Lemma fire_scheduledDisplay (moved : option Content) (w : World) :
  timersFresh w -> slideContentHasLoaded w = true ->
  let w1 := goToNextSlideAfterTimeout w in
  let id := Pos.succ (nextTimer (window w)) in
  fire id moved w1
  = runCallback (ShowProgressBar (getSlideTimeout w)) moved (clearTimeout id w1).
Proof.
  intros F L. cbv zeta. unfold fire.
  destruct (goToNext_scheduled w) as [-> _]. rewrite L.
  apply timersFresh_resetSlideshow in F. unfold timersFresh in F.
  destruct (resetSlideshow_timers w) as [_ N]. rewrite N in F.
  rewrite (find_fresh _ _ _ _ F) by lia.
  unfold scheduledTimer. rewrite L. cbn. unfold has_id. cbn.
  destruct (Pos.eqb_spec (nextTimer (window w)) (Pos.succ (nextTimer (window w))))
    as [E|_]; [lia|].
  rewrite Pos.eqb_refl. reflexivity.
Qed.

(** The advance timeout just started is the one that expires under its
    handle. *)
Lemma fire_scheduledTimer (moved : option Content) (w : World) :
  timersFresh w ->
  let w1 := goToNextSlideAfterTimeout w in
  let id := nextTimer (window w) in
  fire id moved w1
  = runCallback (timer_callback (scheduledTimer w)) moved (clearTimeout id w1).
Proof.
  intros F. cbv zeta. unfold fire.
  destruct (goToNext_scheduled w) as [-> _].
  apply timersFresh_resetSlideshow in F. unfold timersFresh in F.
  destruct (resetSlideshow_timers w) as [_ N]. rewrite N in F.
  rewrite (find_fresh _ _ _ _ F) by lia.
  cbn. unfold has_id at 1.
  assert (E : timer_id (scheduledTimer w) = nextTimer (window w))
    by (unfold scheduledTimer; destruct (slideContentHasLoaded w); reflexivity).
  rewrite E, Pos.eqb_refl. reflexivity.
Qed.

Lemma reachable_invariants (c : Setup) (es : list event) :
  let w := run es (start c) in
  timerInv w = true /\ stoppedInv w = true /\ timersFresh w /\ handleInv w.
Proof.
  cbv zeta.
  destruct (scheduleInv_run es (start c) (scheduleInv_start c)) as [T S].
  destruct (queueInv_run c es) as [F H]. auto.
Qed.

Lemma find_second (l : list timer) (a b : timer) (n : positive) :
  freshHandles l n -> timer_id a = n -> timer_id b = Pos.succ n ->
  find (has_id (Pos.succ n)) (l ++ [a; b]) = Some b.
Proof.
  intros F A B. rewrite (find_fresh _ _ _ _ F) by lia. cbn. unfold has_id.
  rewrite A, B, Pos.eqb_refl.
  destruct (Pos.eqb_spec n (Pos.succ n)) as [E|_]; [lia|reflexivity].
Qed.

(** Starting the slideshow runs the scheduler on the state with the flag
    set. *)
Lemma setSlideshowState_start_timers (w : World) :
  slideshowIsRunning (this w) = false ->
  timers (window (setSlideshowState w))
  = (timers (window (resetSlideshow w)) ++ scheduledTimer w
     :: (if slideContentHasLoaded w then [scheduledDisplay w] else []))%list.
Proof.
  intros R. destruct (setSlideshowState_shape w) as (w3 & -> & _ & W & _).
  destruct (toggleWakeLock_timers w3) as [-> _]. rewrite W, R. cbn [negb].
  destruct (goToNext_scheduled (set_this (with_slideshowIsRunning true) w))
    as [-> _].
  destruct (resetSlideshow_timers (set_this (with_slideshowIsRunning true) w))
    as [-> _].
  destruct (resetSlideshow_timers w) as [-> _]. reflexivity.
Qed.

(** Only [toggleProgressBar] with a timeout writes the duration of the bar. *)
Lemma resetSlideshow_duration (w : World) :
  transitionDuration (progressBar (document (resetSlideshow w)))
  = transitionDuration (progressBar (document w)).
Proof. break_schedule. Qed.

Lemma goToNext_duration (w : World) :
  transitionDuration (progressBar (document (goToNextSlideAfterTimeout w)))
  = transitionDuration (progressBar (document w)).
Proof. break_schedule. Qed.

Lemma setSlideshowState_duration (w : World) :
  transitionDuration (progressBar (document (setSlideshowState w)))
  = transitionDuration (progressBar (document w)).
Proof.
  unfold setSlideshowState. cbv zeta. rewrite toggleWakeLock_document.
  unfold set_document at 1 2. cbn.
  destruct (negb (slideshowIsRunning (this w)));
    [rewrite goToNext_duration|rewrite resetSlideshow_duration]; reflexivity.
Qed.

(** X7. Starting the slideshow on content that has loaded starts one advance
    timeout, of [getSlideTimeout()] milliseconds, and when the 100 ms timeout
    started with it expires the progress bar runs with the transition of the
    content. Its duration is that timeout where the style takes it, a finite
    time above zero; for the others (the remaining time of a video without
    end is [Infinity], that of one played past its duration is negative) the
    bar runs with the duration it had before. For a timeout of [0] or NaN the
    bar stays off. *)
Theorem start_shows_progress (c : Setup) (es : list event) :
  let w := run es (start c) in
  slideshowIsRunning (this w) = false ->
  slideContentHasLoaded w = true ->
  let n := nextTimer (window w) in
  let t := getSlideTimeout w in
  let w1 := step w Click in
  advanceTimers w1
  = [{| timer_id := n; timer_callback := NextSlide; timer_delay := t |}] /\
  forall moved,
    let w2 := step w1 (TimerFires (Pos.succ n) moved) in
    (JS.truthy t = true ->
       bar_running (progressBar (document w2)) = true /\
       transitionTimingFunction (progressBar (document w2))
       = Some (getSlideTransition w) /\
       transitionDuration (progressBar (document w2))
       = if isCSSDuration t then Some t
         else transitionDuration (progressBar (document w))) /\
    (JS.truthy t = false -> bar_running (progressBar (document w2)) = false).
Proof.
  cbv zeta. set (w := run es (start c)). intros R L. cbn [step].
  destruct (reachable_invariants c es) as (T & _ & F & _). fold w in T, F.
  pose proof (setSlideshowState_start_timers w R) as E.
  unfold scheduledTimer, scheduledDisplay in E. rewrite L in E.
  split.
  - unfold advanceTimers. rewrite E, filter_app.
    fold (advanceTimers (resetSlideshow w)).
    rewrite (resetSlideshow_advanceTimers w T). reflexivity.
  - intros moved. unfold fire. rewrite E.
    apply timersFresh_resetSlideshow in F. unfold timersFresh in F.
    destruct (resetSlideshow_timers w) as [_ N]. rewrite N in F.
    rewrite (find_second _
               {| timer_id := nextTimer (window w); timer_callback := NextSlide;
                  timer_delay := getSlideTimeout w |}
               {| timer_id := Pos.succ (nextTimer (window w));
                  timer_callback := ShowProgressBar (getSlideTimeout w);
                  timer_delay := 100%float |} _ F eq_refl eq_refl).
    cbn [timer_callback runCallback].
    change (slideshowIsRunning (this (clearTimeout ?i ?x)))
      with (slideshowIsRunning (this x)).
    rewrite setSlideshowState_running, R. cbn [negb].
    assert (G : getSlideTransition
                  (clearTimeout (Pos.succ (nextTimer (window w))) (setSlideshowState w))
                = getSlideTransition w).
    { unfold getSlideTransition, clearTimeout, set_window. cbn.
      rewrite setSlideshowState_pswp, setSlideshowState_options. reflexivity. }
    unfold toggleProgressBar. rewrite G.
    destruct (JS.truthy (getSlideTimeout w)); cbn.
    + split; [intros _|discriminate].
      split; [reflexivity|]. split; [reflexivity|].
      unfold assignDuration. rewrite setSlideshowState_duration. reflexivity.
    + split; [discriminate|reflexivity].
Qed.

Lemma start_shows_progress_witness :
  let w := Sample.opened (Sample.image false) in
  let w2 := step (step w Click) (TimerFires 2%positive None) in
  advanceTimers (step w Click)
  = [{| timer_id := 1%positive; timer_callback := NextSlide;
        timer_delay := 4000%float |}] /\
  bar_running (progressBar (document w2)) = true /\
  transitionTimingFunction (progressBar (document w2)) = Some "ease" /\
  transitionDuration (progressBar (document w2)) = Some 4000%float.
Proof.
  cbv zeta.
  destruct (start_shows_progress (Sample.setup (Sample.image false))
              [LightboxInit] eq_refl eq_refl) as [A B].
  split; [exact A|]. apply (B None). reflexivity.
Defined.

Lemma scheduledTimer_clearTimeout (id : positive) (w : World) :
  scheduledTimer (clearTimeout id w) = scheduledTimer w.
Proof. reflexivity. Qed.

(** A pending timeout is the one that expires under its handle. *)
Lemma fire_pending (c : Setup) (es : list event) (t : timer)
    (moved : option Content) :
  let w := run es (start c) in
  In t (timers (window w)) ->
  fire (timer_id t) moved w
  = runCallback (timer_callback t) moved (clearTimeout (timer_id t) w).
Proof.
  cbv zeta. intros I.
  destruct (reachable_invariants c es) as (_ & _ & [D _] & _).
  unfold fire. rewrite (find_unique _ t D I). reflexivity.
Qed.

(** A pending advance timeout means the slideshow is running. *)
Lemma pending_advance_running (c : Setup) (es : list event) (t : timer) :
  let w := run es (start c) in
  In t (timers (window w)) -> isAdvance t = true ->
  slideshowIsRunning (this w) = true /\
  advanceTimers (clearTimeout (timer_id t) w) = [].
Proof.
  cbv zeta. intros I A.
  destruct (reachable_invariants c es) as (T & S & _ & _).
  assert (X : In t (advanceTimers (run es (start c))))
    by (apply filter_In; split; assumption).
  split.
  - destruct (slideshowIsRunning (this (run es (start c)))) eqn:R; trivial.
    rewrite (stoppedInv_stopped _ S R) in X. destruct X.
  - unfold timerInv in T. unfold advanceTimers, clearTimeout, set_window. cbn.
    rewrite filter_comm. fold (advanceTimers (run es (start c))).
    destruct (advanceTimers (run es (start c))) as [|t' [|t'' l]];
      try discriminate; [reflexivity|].
    destruct X as [->|[]]. cbn. unfold has_id. rewrite Pos.eqb_refl. reflexivity.
Qed.

(** X8. Started on content that is still loading, the slideshow only starts
    the 200 ms timeout: no 100 ms timeout is added and the bar stays off. When
    a 200 ms timeout expires the scheduler runs again on the content of that
    moment, and leaves one advance timeout: another 200 ms one if the content
    is still loading, the timeout of [getSlideTimeout()] once it has
    loaded. *)
Theorem loading_is_polled (c : Setup) (es : list event) :
  let w := run es (start c) in
  (slideshowIsRunning (this w) = false -> slideContentHasLoaded w = false ->
     advanceTimers (step w Click)
     = [{| timer_id := nextTimer (window w); timer_callback := Recheck;
           timer_delay := 200%float |}] /\
     displayTimers (step w Click) = displayTimers w /\
     bar_running (progressBar (document (step w Click))) = false) /\
  (forall t moved,
     In t (timers (window w)) -> timer_callback t = Recheck ->
     advanceTimers (step w (TimerFires (timer_id t) moved))
     = [if slideContentHasLoaded w
        then {| timer_id := nextTimer (window w); timer_callback := NextSlide;
                timer_delay := getSlideTimeout w |}
        else {| timer_id := nextTimer (window w); timer_callback := Recheck;
                timer_delay := 200%float |}]).
Proof.
  cbv zeta. set (w := run es (start c)).
  destruct (reachable_invariants c es) as (T & S & F & H). fold w in T, S, F, H.
  split.
  - intros R L. cbn [step].
    pose proof (setSlideshowState_start_timers w R) as E.
    unfold scheduledTimer in E. rewrite L in E.
    split; [|split].
    + unfold advanceTimers. rewrite E, filter_app.
      fold (advanceTimers (resetSlideshow w)).
      rewrite (resetSlideshow_advanceTimers w T). reflexivity.
    + unfold displayTimers. rewrite E, filter_app.
      fold (displayTimers (resetSlideshow w)).
      rewrite (resetSlideshow_displayTimers w H). cbn. apply app_nil_r.
    + apply setSlideshowState_bar.
  - intros t moved I C. cbn [step]. unfold w.
    rewrite (fire_pending c es t moved I), C. cbn [runCallback]. fold w.
    rewrite goToNext_advanceTimers_scheduled by (apply timerInv_clearTimeout, T).
    reflexivity.
Qed.

Lemma loading_is_polled_witness :
  let w := Sample.opened (Sample.image true) in
  let w1 := step (step w Click) (ContentUpdate (Sample.image false)) in
  advanceTimers (step w Click)
  = [{| timer_id := 1%positive; timer_callback := Recheck;
        timer_delay := 200%float |}] /\
  advanceTimers (step w1 (TimerFires 1%positive None))
  = [{| timer_id := 2%positive; timer_callback := NextSlide;
        timer_delay := 4000%float |}].
Proof.
  cbv zeta. split.
  - destruct (loading_is_polled (Sample.setup (Sample.image true)) [LightboxInit])
      as [A _].
    apply A; reflexivity.
  - destruct (loading_is_polled (Sample.setup (Sample.image true))
                [LightboxInit; Click; ContentUpdate (Sample.image false)])
      as [_ B].
    apply (B {| timer_id := 1%positive; timer_callback := Recheck;
                timer_delay := 200%float |} None); [left|]; reflexivity.
Defined.

(** ** After the advance timeout *)

Lemma dispatch_onChange_off (w : World) :
  restartOnSlideChange (options (this w)) = false -> dispatch onChange w = w.
Proof.
  intros O. unfold dispatch. induction (listeners (pswp w)) as [|k IH];
    [reflexivity|].
  change (onChange (Nat.iter k onChange w) = w).
  rewrite IH. unfold onChange. rewrite O, andb_false_r. reflexivity.
Qed.

Lemma dispatch_onChange_on (w : World) :
  slideshowIsRunning (this w) = true ->
  restartOnSlideChange (options (this w)) = true ->
  timerInv w = true -> 1 <= listeners (pswp w) ->
  exists w', dispatch onChange w = goToNextSlideAfterTimeout w' /\
             timerInv w' = true /\ slideshowIsRunning (this w') = true /\
             restartOnSlideChange (options (this w')) = true /\
             pswp w' = pswp w /\ options (this w') = options (this w).
Proof.
  intros R O T L. unfold dispatch.
  destruct (listeners (pswp w)) as [|k]; [lia|].
  change (exists w', onChange (Nat.iter k onChange w) = goToNextSlideAfterTimeout w' /\
             timerInv w' = true /\ slideshowIsRunning (this w') = true /\
             restartOnSlideChange (options (this w')) = true /\
             pswp w' = pswp w /\ options (this w') = options (this w)).
  set (P := fun w' => slideshowIsRunning (this w') = true /\
                      options (this w') = options (this w) /\
                      timerInv w' = true /\ pswp w' = pswp w).
  assert (K : P (Nat.iter k onChange w)).
  { apply (iter_preserves P onChange); [|repeat split; assumption].
    intros w' (R' & O' & T' & E'). unfold onChange. rewrite R', O', O. cbn.
    repeat split.
    - rewrite goToNext_running. exact R'.
    - rewrite goToNext_options. exact O'.
    - apply timerInv_goToNext, T'.
    - rewrite goToNext_pswp. exact E'. }
  destruct K as (R' & O' & T' & E').
  exists (Nat.iter k onChange w). unfold onChange at 1. rewrite R', O', O. cbn.
  repeat split; trivial.
Qed.

(** X9. Without [restartOnSlideChange] the slideshow keeps itself going: when
    the advance timeout expires the gallery is told to move and the scheduler
    runs again, so the slideshow is still running, on the slide the gallery
    moved to, with exactly one advance timeout pending. *)
Theorem advance_loop_continues (c : Setup) (es : list event) (t : timer)
    (moved : option Content) :
  let w := run es (start c) in
  In t (timers (window w)) -> timer_callback t = NextSlide ->
  restartOnSlideChange (options (this w)) = false ->
  let w2 := step w (TimerFires (timer_id t) moved) in
  slideshowIsRunning (this w2) = true /\
  currSlide (pswp w2)
  = match moved with Some c' => c' | None => currSlide (pswp w) end /\
  List.length (advanceTimers w2) = 1.
Proof.
  cbv zeta. set (w := run es (start c)). intros I C O. cbn [step]. unfold w.
  rewrite (fire_pending c es t moved I), C. fold w. cbn [runCallback].
  destruct (reachable_invariants c es) as (T & _). fold w in T.
  assert (A : isAdvance t = true) by (unfold isAdvance; rewrite C; reflexivity).
  destruct (pending_advance_running c es t I A) as [R _]. fold w in R.
  set (w0 := clearTimeout (timer_id t) w).
  assert (T0 : timerInv w0 = true) by (apply timerInv_clearTimeout, T).
  assert (N : this (pswp_next moved w0) = this w0 /\
              timerInv (pswp_next moved w0) = true /\
              currSlide (pswp (pswp_next moved w0))
              = match moved with
                | Some c' => c'
                | None => currSlide (pswp w)
                end).
  { split; [|split; [apply timerInv_pswp_next, T0|]];
      (destruct moved as [c'|]; [|reflexivity]); cbn [pswp_next];
      unfold pswp_change;
      rewrite (dispatch_onChange_off (set_pswp (with_currSlide c') w0) O);
      destruct (updateCounter_frame (set_pswp (with_currSlide c') w0))
        as (E1 & _ & E3 & _); [rewrite E1|rewrite E3]; reflexivity. }
  destruct N as (N1 & N2 & N3).
  rewrite N1.
  replace (restartOnSlideChange (options (this w0))) with false
    by (symmetry; exact O).
  rewrite goToNext_running, goToNext_pswp,
    goToNext_advanceTimers_scheduled by exact N2.
  rewrite N1, N3. repeat split; exact R.
Qed.

Lemma advance_loop_continues_witness :
  let w := Sample.playing (Sample.image false) in
  let w2 := step w (TimerFires 1%positive (Some (Sample.image true))) in
  slideshowIsRunning (this w2) = true /\
  currSlide (pswp w2) = Sample.image true /\
  List.length (advanceTimers w2) = 1.
Proof.
  cbv zeta.
  apply (advance_loop_continues (Sample.setup (Sample.image false))
           [LightboxInit; Click]
           {| timer_id := 1%positive; timer_callback := NextSlide;
              timer_delay := 4000%float |}
           (Some (Sample.image true))); [left|..]; reflexivity.
Defined.

(** X10. With [restartOnSlideChange] the callback of the advance timeout
    schedules nothing itself. When [pswp.next()] moves the gallery, the
    'change' listeners leave exactly one advance timeout pending; when it
    dispatches no 'change', none is pending afterwards although
    [slideshowIsRunning] is still true. *)
Theorem restart_relies_on_change (c : Setup) (es : list event) (t : timer) :
  let w := run es (start c) in
  In t (timers (window w)) -> timer_callback t = NextSlide ->
  restartOnSlideChange (options (this w)) = true ->
  (let w2 := step w (TimerFires (timer_id t) None) in
   slideshowIsRunning (this w2) = true /\ advanceTimers w2 = []) /\
  (forall c', 1 <= listeners (pswp w) ->
     let w2 := step w (TimerFires (timer_id t) (Some c')) in
     slideshowIsRunning (this w2) = true /\
     currSlide (pswp w2) = c' /\
     List.length (advanceTimers w2) = 1).
Proof.
  cbv zeta. set (w := run es (start c)). intros I C O. cbn [step].
  destruct (reachable_invariants c es) as (T & _). fold w in T.
  assert (A : isAdvance t = true) by (unfold isAdvance; rewrite C; reflexivity).
  destruct (pending_advance_running c es t I A) as [R E]. fold w in R, E.
  split.
  - unfold w. rewrite (fire_pending c es t None I), C. fold w.
    cbn [runCallback pswp_next].
    replace (restartOnSlideChange (options (this (clearTimeout (timer_id t) w))))
      with true by (symmetry; exact O).
    split; [exact R|exact E].
  - intros c' L0. unfold w. rewrite (fire_pending c es t (Some c') I), C. fold w.
    cbn [runCallback pswp_next]. unfold pswp_change.
    destruct (dispatch_onChange_on
                (set_pswp (with_currSlide c') (clearTimeout (timer_id t) w)))
      as (w' & -> & T' & R' & O' & P' & _); trivial.
    { apply (timerInv_clearTimeout w T). }
    destruct (updateCounter_frame (goToNextSlideAfterTimeout w'))
      as (E1 & _ & E3 & _).
    rewrite E1, goToNext_options, O'.
    rewrite E1, E3, advanceTimers_updateCounter.
    rewrite goToNext_running, goToNext_pswp, P',
      goToNext_advanceTimers_scheduled by exact T'.
    repeat split; exact R'.
Qed.

Lemma restart_relies_on_change_witness :
  let w := run [LightboxInit; Click]
             (start {| setup_options :=
                         {| defaultDelayMs := 4000%float;
                            playPauseButtonOrder := 6;
                            progressBarPosition := "top";
                            progressBarTransition := "ease";
                            restartOnSlideChange := true;
                            autoHideProgressBar := true |};
                       setup_stored := None; setup_keepAwake := None;
                       setup_wakeLock := true; setup_counter := true;
                       setup_content := Sample.image false |}) in
  (slideshowIsRunning (this (step w (TimerFires 1%positive None))) = true /\
   advanceTimers (step w (TimerFires 1%positive None)) = []) /\
  List.length
    (advanceTimers (step w (TimerFires 1%positive (Some (Sample.image false)))))
  = 1.
Proof.
  cbv zeta.
  destruct (restart_relies_on_change
              {| setup_options :=
                   {| defaultDelayMs := 4000%float;
                      playPauseButtonOrder := 6;
                      progressBarPosition := "top";
                      progressBarTransition := "ease";
                      restartOnSlideChange := true;
                      autoHideProgressBar := true |};
                 setup_stored := None; setup_keepAwake := None;
                 setup_wakeLock := true; setup_counter := true;
                 setup_content := Sample.image false |}
              [LightboxInit; Click]
              {| timer_id := 1%positive; timer_callback := NextSlide;
                 timer_delay := 4000%float |}) as [A B];
    [left; reflexivity|reflexivity|reflexivity|].
  split; [exact A|].
  apply (B (Sample.image false)). cbn. lia.
Defined.

(** ** The 100 ms timeouts *)

Lemma changeSlideshowLength_scheduler (delta : JS.number) (w : World) :
  slideshowIsRunning (this w) = true ->
  exists w',
    changeSlideshowLength delta w = goToNextSlideAfterTimeout w' /\
    sameQueue w w' /\ pswp w' = pswp w.
Proof.
  intros H. unfold changeSlideshowLength. rewrite H. cbn [negb].
  eexists. split; [reflexivity|].
  unfold sameQueue, setSlideshowLength, set_this, set_window, set_document. cbn.
  destruct (JS.neq _ _); cbn; destruct (pswp_counter (document w)); cbn;
    repeat split.
Qed.

Lemma getSlideTimeout_goToNext (w : World) :
  getSlideTimeout (goToNextSlideAfterTimeout w) = getSlideTimeout w.
Proof.
  unfold getSlideTimeout. rewrite goToNext_pswp, goToNext_options. reflexivity.
Qed.

(** X11. The 100 ms timeouts are never cancelled. Stopping the slideshow
    leaves every one of them pending, and each change of the delay, on
    content that has loaded, adds one more, carrying the new timeout, behind
    those of the earlier rounds. *)
Theorem display_timeouts_pile_up (c : Setup) (es : list event) :
  let w := run es (start c) in
  slideshowIsRunning (this w) = true ->
  displayTimers (step w Click) = displayTimers w /\
  forall delta,
    let w' := changeSlideshowLength delta w in
    displayTimers w'
    = (displayTimers w
       ++ (if slideContentHasLoaded w
           then [{| timer_id := Pos.succ (nextTimer (window w));
                    timer_callback := ShowProgressBar (getSlideTimeout w');
                    timer_delay := 100%float |}]
           else []))%list.
Proof.
  cbv zeta. set (w := run es (start c)). intros R.
  destruct (reachable_invariants c es) as (_ & _ & _ & H). fold w in H.
  split.
  - cbn [step]. destruct (setSlideshowState_shape w) as (w3 & -> & _ & W & _).
    unfold displayTimers. destruct (toggleWakeLock_timers w3) as [-> _].
    rewrite W, R. cbn [negb].
    destruct (resetSlideshow_timers (set_this (with_slideshowIsRunning false) w))
      as [-> _].
    pose proof (resetSlideshow_displayTimers w H) as D. unfold displayTimers in D.
    destruct (resetSlideshow_timers w) as [E _]. rewrite E in D. exact D.
  - intros delta.
    destruct (changeSlideshowLength_scheduler delta w R) as (w' & -> & (T & N & S) & P).
    assert (H' : handleInv w') by (unfold handleInv; rewrite T, S; exact H).
    rewrite (goToNext_displayTimers w' H'), getSlideTimeout_goToNext.
    unfold displayTimers, slideContentHasLoaded, scheduledDisplay.
    rewrite T, N, P. reflexivity.
Qed.

Lemma display_timeouts_pile_up_witness :
  let w := Sample.playing (Sample.image false) in
  List.length (displayTimers w) = 1 /\
  List.length (displayTimers (step w Click)) = 1 /\
  List.length (displayTimers (changeSlideshowLength 1000%float w)) = 2.
Proof.
  cbv zeta.
  destruct (display_timeouts_pile_up (Sample.setup (Sample.image false))
              [LightboxInit; Click] eq_refl) as [A B].
  split; [reflexivity|]. split.
  - exact (eq_trans (f_equal (@List.length timer) A) eq_refl).
  - exact (eq_trans (f_equal (@List.length timer) (B 1000%float)) eq_refl).
Defined.

(** ** The icons *)

Lemma icons_goToNext (w : World) :
  icons (goToNextSlideAfterTimeout w) = icons w.
Proof. unfold icons. break_schedule. Qed.

Lemma icons_resetSlideshow (w : World) : icons (resetSlideshow w) = icons w.
Proof. unfold icons. break_schedule. Qed.

Lemma icons_toggleWakeLock (w : World) : icons (toggleWakeLock w) = icons w.
Proof.
  unfold icons. rewrite toggleWakeLock_running, toggleWakeLock_document.
  reflexivity.
Qed.

Lemma icons_setSlideshowState (w : World) :
  icons (setSlideshowState w)
  = if slideshowIsRunning (this w) then (false, "none", "inline")
    else (true, "inline", "none").
Proof.
  unfold setSlideshowState. cbv zeta. rewrite icons_toggleWakeLock.
  unfold icons, set_document. cbn.
  destruct (slideshowIsRunning (this w)) eqn:R; cbn.
  - rewrite resetSlideshow_running. cbn. rewrite R. reflexivity.
  - rewrite goToNext_running. cbn. rewrite R. reflexivity.
Qed.

Lemma iconInv_icons (w w' : World) : icons w' = icons w -> iconInv w' = iconInv w.
Proof.
  unfold icons, iconInv. intros E. injection E as -> -> ->. reflexivity.
Qed.

Lemma iconInv_setSlideshowState (w : World) : iconInv (setSlideshowState w) = true.
Proof.
  pose proof (icons_setSlideshowState w) as E. unfold icons in E.
  unfold iconInv. destruct (slideshowIsRunning (this w));
    injection E as -> -> ->; reflexivity.
Qed.

Lemma icons_changeSlideshowLength (delta : JS.number) (w : World) :
  icons (changeSlideshowLength delta w) = icons w.
Proof.
  unfold changeSlideshowLength.
  destruct (slideshowIsRunning (this w)) eqn:R; cbn [negb]; [|reflexivity].
  rewrite icons_goToNext.
  unfold icons, setSlideshowLength, set_this, set_window, set_document. cbn.
  destruct (JS.neq _ _); cbn;
    destruct (pswp_counter (document w)) eqn:C; cbn; rewrite ?C; reflexivity.
Qed.

Lemma icons_onChange (w : World) : icons (onChange w) = icons w.
Proof.
  unfold onChange. destruct (_ && _); [apply icons_goToNext|reflexivity].
Qed.

Lemma icons_fire (id : positive) (moved : option Content) (w : World) :
  icons (fire id moved w) = icons w.
Proof.
  unfold fire. destruct (find _ _) as [t|]; [|reflexivity].
  set (w0 := clearTimeout id w).
  change (icons w) with (icons w0). generalize w0. clear w w0. intros w.
  assert (N : icons (pswp_next moved w) = icons w).
  { destruct moved as [c|]; [|reflexivity].
    apply (pswp_change_preserves (fun w' => icons w' = icons w) c w);
      [|through_counter|reflexivity].
    intros w' E. rewrite icons_onChange. exact E. }
  destruct (timer_callback t) as [|d|]; cbn.
  - destruct (restartOnSlideChange _); [|rewrite icons_goToNext]; exact N.
  - destruct (slideshowIsRunning (this w)); [|reflexivity].
    unfold toggleProgressBar. destruct (JS.truthy d); reflexivity.
  - apply icons_goToNext.
Qed.

Lemma iconInv_step (w : World) (e : event) :
  iconInv w = true -> iconInv (step w e) = true.
Proof.
  intros I. destruct e as [| |code|c|c| |id moved|h| | |h]; cbn [step].
  - exact I.
  - apply iconInv_setSlideshowState.
  - unfold onKeyDown.
    destruct (String.eqb code "Space"); [apply iconInv_setSlideshowState|].
    destruct (existsb _ _);
      [rewrite (iconInv_icons _ _ (icons_changeSlideshowLength _ w)); exact I|].
    destruct (existsb _ _);
      [rewrite (iconInv_icons _ _ (icons_changeSlideshowLength _ w))|]; exact I.
  - apply (pswp_change_preserves (fun w => iconInv w = true) c w);
      [|through_counter|exact I].
    intros w' I'. rewrite (iconInv_icons _ _ (icons_onChange w')). exact I'.
  - exact I.
  - apply (dispatch_preserves (fun w => iconInv w = true) onClose w); [|exact I].
    intros w' I'. unfold onClose.
    destruct (slideshowIsRunning (this w'));
      [apply iconInv_setSlideshowState|exact I'].
  - rewrite (iconInv_icons _ _ (icons_fire id moved w)). exact I.
  - unfold requestFulfilled. destruct (pendingRequests _); exact I.
  - unfold requestRejected. destruct (pendingRequests _); exact I.
  - unfold releaseFulfilled. destruct (pendingReleases _); exact I.
  - unfold onSentinelRelease. destruct (existsb _ _); exact I.
Qed.

(** X12. In every state the plugin can reach, the button shows the icon of
    the current state: while the slideshow runs the stop icon is displayed
    inline and the play icon is hidden, while it is stopped the stop icon is
    hidden and the play icon is not. *)
Theorem icon_matches_state (c : Setup) (es : list event) :
  let w := run es (start c) in
  (slideshowIsRunning (this w) = true ->
     icn_stop_display (document w) = "inline" /\
     icn_play_display (document w) = "none") /\
  (slideshowIsRunning (this w) = false ->
     icn_stop_display (document w) = "none" /\
     icn_play_display (document w) <> "none").
Proof.
  cbv zeta.
  assert (I : iconInv (run es (start c)) = true).
  { assert (S : iconInv (start c) = true).
    { unfold start, constructor, setSlideshowLength, iconInv. cbn.
      destruct (JS.neq _ _); reflexivity. }
    revert S. generalize (start c).
    induction es as [|e es IH]; intros w S; cbn; [exact S|].
    apply IH, iconInv_step, S. }
  unfold iconInv in I. split; intros R; rewrite R in I;
    apply andb_true_iff in I; destruct I as [A B].
  - apply String.eqb_eq in A, B. auto.
  - apply String.eqb_eq in A. split; [exact A|].
    apply orb_true_iff in B. destruct B as [B|B]; apply String.eqb_eq in B;
      rewrite B; discriminate.
Qed.

Lemma icon_matches_state_witness :
  let w := Sample.playing (Sample.image false) in
  icn_stop_display (document w) = "inline" /\
  icn_play_display (document w) = "none".
Proof.
  cbv zeta.
  apply (icon_matches_state (Sample.setup (Sample.image false))
           [LightboxInit; Click]).
  reflexivity.
Defined.

(** ** Invariants of the wake lock *)

Lemma wakeLockState_goToNext (w : World) :
  wakeLockState (goToNextSlideAfterTimeout w) = wakeLockState w.
Proof. unfold wakeLockState. break_schedule. Qed.

Lemma wakeLockState_resetSlideshow (w : World) :
  wakeLockState (resetSlideshow w) = wakeLockState w.
Proof. unfold wakeLockState. break_schedule. Qed.

Lemma wakeLockState_changeSlideshowLength (delta : JS.number) (w : World) :
  wakeLockState (changeSlideshowLength delta w) = wakeLockState w.
Proof.
  unfold changeSlideshowLength.
  destruct (slideshowIsRunning (this w)) eqn:R; cbn [negb]; [|reflexivity].
  rewrite wakeLockState_goToNext.
  unfold wakeLockState, setSlideshowLength, set_this, set_window, set_document.
  cbn. destruct (JS.neq _ _); cbn; destruct (pswp_counter (document w)); reflexivity.
Qed.

Lemma wakeLockState_onChange (w : World) :
  wakeLockState (onChange w) = wakeLockState w.
Proof.
  unfold onChange. destruct (_ && _); [apply wakeLockState_goToNext|reflexivity].
Qed.

Lemma wakeLockState_fire (id : positive) (moved : option Content) (w : World) :
  wakeLockState (fire id moved w) = wakeLockState w.
Proof.
  unfold fire. destruct (find _ _) as [t|]; [|reflexivity].
  set (w0 := clearTimeout id w).
  change (wakeLockState w) with (wakeLockState w0).
  generalize w0. clear w w0. intros w.
  assert (N : wakeLockState (pswp_next moved w) = wakeLockState w).
  { destruct moved as [c|]; [|reflexivity].
    apply (pswp_change_preserves (fun w' => wakeLockState w' = wakeLockState w)
             c w); [|through_counter|reflexivity].
    intros w' E. rewrite wakeLockState_onChange. exact E. }
  destruct (timer_callback t) as [|d|]; cbn.
  - destruct (restartOnSlideChange _); [|rewrite wakeLockState_goToNext]; exact N.
  - destruct (slideshowIsRunning (this w)); [|reflexivity].
    unfold toggleProgressBar. destruct (JS.truthy d); reflexivity.
  - apply wakeLockState_goToNext.
Qed.

(** [toggleWakeLock] reads nothing but this part of the state. *)
Lemma wakeLockState_toggleWakeLock (a b : World) :
  wakeLockState a = wakeLockState b ->
  wakeLockState (toggleWakeLock a) = wakeLockState (toggleWakeLock b).
Proof.
  unfold wakeLockState. intros E.
  injection E as E1 E2 E3 E4 E5 E6 E7 E8 E9.
  unfold toggleWakeLock. rewrite E1, E2, E3, E4, E5.
  destruct (Bool.eqb _ _); cbn;
    [rewrite E1, E2, E3, E4, E5, E6, E7, E8, E9; reflexivity|].
  destruct (screen_keepAwake (window b)) eqn:K; cbn;
    [rewrite ?E1, ?E2, ?E3, ?E5, ?E6, ?E7, ?E8, ?E9; reflexivity|].
  destruct (navigator_wakeLock (window b)) eqn:V; cbn;
    [|rewrite ?E1, ?E2, ?E3, ?E4, ?E5, ?E6, ?E7, ?E8, ?E9, ?K, ?V; reflexivity].
  destruct (wakeLockSentinel (this b)) eqn:S; cbn;
    rewrite ?E1, ?E2, ?E3, ?E5, ?E6, ?E7, ?E8, ?E9, ?S, ?V; reflexivity.
Qed.

Lemma wakeLockState_setSlideshowState (w : World) :
  wakeLockState (setSlideshowState w)
  = wakeLockState
      (toggleWakeLock
         (set_this (with_slideshowIsRunning (negb (slideshowIsRunning (this w)))) w)).
Proof.
  unfold setSlideshowState. cbv zeta. apply wakeLockState_toggleWakeLock.
  set (w1 := set_this (fun p => with_slideshowIsRunning (negb (slideshowIsRunning p)) p) w).
  change (wakeLockState (set_this (with_slideshowIsRunning
            (negb (slideshowIsRunning (this w)))) w))
    with (wakeLockState w1).
  transitivity (wakeLockState
                  (if slideshowIsRunning (this w1)
                   then goToNextSlideAfterTimeout w1 else resetSlideshow w1)).
  - reflexivity.
  - destruct (slideshowIsRunning (this w1));
      [apply wakeLockState_goToNext|apply wakeLockState_resetSlideshow].
Qed.

Section WakeLockInvariant.

Variable P : World -> Prop.
Hypothesis P_same : forall w w', wakeLockState w' = wakeLockState w -> P w -> P w'.
Hypothesis P_toggle : forall w,
  P w ->
  P (toggleWakeLock
       (set_this (with_slideshowIsRunning (negb (slideshowIsRunning (this w)))) w)).
Hypothesis P_granted : forall w h, P w -> P (requestFulfilled h w).
Hypothesis P_rejected : forall w, P w -> P (requestRejected w).
Hypothesis P_released : forall w, P w -> P (releaseFulfilled w).
Hypothesis P_revoked : forall w h, P w -> P (onSentinelRelease h w).

Lemma wakeLock_setSlideshowState (w : World) : P w -> P (setSlideshowState w).
Proof.
  intros H. eapply P_same; [apply wakeLockState_setSlideshowState|].
  apply P_toggle, H.
Qed.

Lemma wakeLock_onClose (w : World) : P w -> P (onClose w).
Proof.
  intros H. unfold onClose.
  destruct (slideshowIsRunning (this w)); [apply wakeLock_setSlideshowState|];
    exact H.
Qed.

Lemma wakeLock_step (w : World) (e : event) : P w -> P (step w e).
Proof.
  intros H. destruct e as [| |code|c|c| |id moved|h| | |h]; cbn [step].
  - apply (P_same w); [reflexivity|exact H].
  - apply wakeLock_setSlideshowState, H.
  - unfold onKeyDown.
    destruct (String.eqb code "Space"); [apply wakeLock_setSlideshowState, H|].
    destruct (existsb _ _);
      [apply (P_same w); [apply wakeLockState_changeSlideshowLength|exact H]|].
    destruct (existsb _ _);
      [apply (P_same w); [apply wakeLockState_changeSlideshowLength|]|]; exact H.
  - apply (pswp_change_preserves P c w).
    + intros w' H'. apply (P_same w'); [apply wakeLockState_onChange|exact H'].
    + intros w' H'. apply (P_same w'); [|exact H'].
      unfold wakeLockState. destruct (updateCounter_frame w') as (E1 & E2 & _).
      rewrite E1, E2. reflexivity.
    + apply (P_same w); [reflexivity|exact H].
  - apply (P_same w); [reflexivity|exact H].
  - apply (dispatch_preserves P onClose w wakeLock_onClose H).
  - apply (P_same w); [apply wakeLockState_fire|exact H].
  - apply P_granted, H.
  - apply P_rejected, H.
  - apply P_released, H.
  - apply P_revoked, H.
Qed.

Lemma wakeLock_run (es : list event) (w : World) : P w -> P (run es w).
Proof.
  revert w. induction es as [|e es IH]; intros w H; cbn; [exact H|].
  apply IH, wakeLock_step, H.
Qed.

End WakeLockInvariant.

Lemma keepAwakeInv_same (w w' : World) :
  wakeLockState w' = wakeLockState w -> keepAwakeInv w -> keepAwakeInv w'.
Proof.
  unfold wakeLockState, keepAwakeInv. intros E.
  injection E as -> -> -> -> _ -> -> _ ->. trivial.
Qed.

Lemma noWakeLockInv_same (w w' : World) :
  wakeLockState w' = wakeLockState w -> noWakeLockInv w -> noWakeLockInv w'.
Proof.
  unfold wakeLockState, noWakeLockInv. intros E.
  injection E as -> -> -> -> -> -> -> _ ->. trivial.
Qed.

(** X13. In a browser that has [screen.keepAwake], initially [false], the
    property equals [slideshowIsRunning] in every state the plugin can reach,
    and the plugin never calls [navigator.wakeLock.request] or
    [sentinel.release]. *)
Theorem keepAwake_follows_slideshow (c : Setup) (es : list event) :
  setup_keepAwake c = Some false ->
  let w := run es (start c) in
  screen_keepAwake (window w) = Some (slideshowIsRunning (this w)) /\
  wakeLockSentinel (this w) = None /\
  Forall (fun call => exists b, call = SetKeepAwake b) (wakeLockCalls (window w)).
Proof.
  intros K. cbv zeta.
  assert (I : keepAwakeInv (run es (start c))).
  { apply (wakeLock_run keepAwakeInv).
    - exact keepAwakeInv_same.
    - intros w (A & B & C & D & E & F). unfold keepAwakeInv, toggleWakeLock.
      cbn. rewrite B. destruct (slideshowIsRunning (this w)); cbn;
        rewrite A; cbn; repeat split; trivial;
        apply Forall_app; split; trivial; repeat constructor; eexists; reflexivity.
    - intros w h (A & B & C & D & E & F). unfold requestFulfilled. rewrite D.
      repeat split; assumption.
    - intros w (A & B & C & D & E & F). unfold requestRejected. rewrite D.
      repeat split; assumption.
    - intros w (A & B & C & D & E & F). unfold releaseFulfilled.
      destruct (pendingReleases (window w)); repeat split; assumption.
    - intros w h (A & B & C & D & E & F). unfold onSentinelRelease. rewrite E.
      repeat split; assumption.
    - unfold start, constructor, setSlideshowLength, keepAwakeInv. cbn.
      destruct (JS.neq _ _); cbn; rewrite K; repeat split; constructor. }
  destruct I as (A & _ & C & _ & _ & F). auto.
Qed.

Lemma keepAwake_follows_slideshow_witness :
  let w := run [LightboxInit; Click; Click; Click]
             (start {| setup_options := defaultOptions; setup_stored := None;
                       setup_keepAwake := Some false; setup_wakeLock := true;
                       setup_counter := true;
                       setup_content := Sample.image false |}) in
  screen_keepAwake (window w) = Some (slideshowIsRunning (this w)).
Proof.
  cbv zeta.
  apply (keepAwake_follows_slideshow
           {| setup_options := defaultOptions; setup_stored := None;
              setup_keepAwake := Some false; setup_wakeLock := true;
              setup_counter := true; setup_content := Sample.image false |}
           [LightboxInit; Click; Click; Click]).
  reflexivity.
Defined.

(** X14. In a browser with neither [screen.keepAwake] nor
    [navigator.wakeLock] the plugin never asks anything of a wake lock, and
    [wakeLockIsRunning] simply equals [slideshowIsRunning]. *)
Theorem no_wake_lock_no_calls (c : Setup) (es : list event) :
  setup_keepAwake c = None -> setup_wakeLock c = false ->
  let w := run es (start c) in
  wakeLockCalls (window w) = [] /\
  wakeLockSentinel (this w) = None /\
  wakeLockIsRunning (this w) = slideshowIsRunning (this w).
Proof.
  intros K V. cbv zeta.
  assert (I : noWakeLockInv (run es (start c))).
  { apply (wakeLock_run noWakeLockInv).
    - exact noWakeLockInv_same.
    - intros w (A & B & C & D & E & F & G). unfold noWakeLockInv, toggleWakeLock.
      cbn. rewrite C. destruct (slideshowIsRunning (this w)); cbn;
        rewrite A, B; cbn; repeat split; trivial.
    - intros w h (A & B & C & D & E & F & G). unfold requestFulfilled. rewrite E.
      repeat split; assumption.
    - intros w (A & B & C & D & E & F & G). unfold requestRejected. rewrite E.
      repeat split; assumption.
    - intros w (A & B & C & D & E & F & G). unfold releaseFulfilled.
      destruct (pendingReleases (window w)); repeat split; assumption.
    - intros w h (A & B & C & D & E & F & G). unfold onSentinelRelease. rewrite F.
      repeat split; assumption.
    - unfold start, constructor, setSlideshowLength, noWakeLockInv. cbn.
      destruct (JS.neq _ _); cbn; rewrite K, V; repeat split. }
  destruct I as (_ & _ & C & D & _ & _ & G). auto.
Qed.

Lemma no_wake_lock_no_calls_witness :
  let w := run [LightboxInit; Click; Click; Click; GalleryClose]
             (start (Sample.setupNoWakeLock (Sample.image false))) in
  wakeLockCalls (window w) = [] /\ wakeLockSentinel (this w) = None.
Proof.
  cbv zeta.
  destruct (no_wake_lock_no_calls (Sample.setupNoWakeLock (Sample.image false))
              [LightboxInit; Click; Click; Click; GalleryClose] eq_refl eq_refl)
    as (A & B & _).
  split; assumption.
Defined.

(** X15. On every platform [wakeLockIsRunning] is true only while the
    slideshow runs: in no state the plugin can reach is the wake lock flagged
    active with the slideshow stopped. *)
Theorem wake_lock_flag_implies_running (c : Setup) (es : list event) :
  let w := run es (start c) in
  wakeLockIsRunning (this w) = true -> slideshowIsRunning (this w) = true.
Proof.
  cbv zeta.
  apply (wakeLock_run
           (fun w => wakeLockIsRunning (this w) = true ->
                     slideshowIsRunning (this w) = true)).
  - unfold wakeLockState. intros w w' E. injection E as -> -> _ _ _ _ _ _ _.
    trivial.
  - intros w _. rewrite toggleWakeLock_flag, toggleWakeLock_running. trivial.
  - intros w h H. unfold requestFulfilled.
    destruct (pendingRequests (window w)); exact H.
  - intros w H. unfold requestRejected.
    destruct (pendingRequests (window w)); exact H.
  - intros w H. unfold releaseFulfilled.
    destruct (pendingReleases (window w)); exact H.
  - intros w h H. unfold onSentinelRelease.
    destruct (existsb _ _); [discriminate|exact H].
  - unfold start, constructor. cbn. discriminate.
Qed.

Lemma wake_lock_flag_implies_running_witness :
  slideshowIsRunning
    (this (run [LightboxInit; Click; WakeLockGranted 3]
             (start (Sample.setup (Sample.image false))))) = true.
Proof.
  apply (wake_lock_flag_implies_running (Sample.setup (Sample.image false))
           [LightboxInit; Click; WakeLockGranted 3]).
  reflexivity.
Defined.

(** ** The wake lock through a start and a stop *)

Lemma wakeLockState_fields (w : World) (r f : bool) (s : option sentinel)
    (k : option bool) (v : bool) (cs : list wakeLockCall) (pr pl : nat)
    (ls : list sentinel) :
  wakeLockState w = (r, f, s, (k, v, cs, pr, pl, ls)) ->
  slideshowIsRunning (this w) = r /\ wakeLockIsRunning (this w) = f /\
  wakeLockSentinel (this w) = s /\ screen_keepAwake (window w) = k /\
  navigator_wakeLock (window w) = v /\ wakeLockCalls (window w) = cs /\
  pendingRequests (window w) = pr /\ pendingReleases (window w) = pl /\
  releaseListeners (window w) = ls.
Proof.
  unfold wakeLockState. intros E.
  injection E as E1 E2 E3 E4 E5 E6 E7 E8 E9. repeat split; assumption.
Qed.

Section WakeLockSteps.

Variables (w : World) (r f : bool) (s : option sentinel) (k : option bool)
  (v : bool) (cs : list wakeLockCall) (pr pl : nat) (ls : list sentinel).
Hypothesis W : wakeLockState w = (r, f, s, (k, v, cs, pr, pl, ls)).

(** A click with the flag already where the slideshow goes: no call. *)
Lemma click_flag_agrees :
  f = negb r ->
  wakeLockState (step w Click) = (negb r, f, s, (k, v, cs, pr, pl, ls)).
Proof.
  intros ->. destruct (wakeLockState_fields _ _ _ _ _ _ _ _ _ _ W)
    as (A1 & A2 & A3 & A4 & A5 & A6 & A7 & A8 & A9).
  cbn [step]. rewrite wakeLockState_setSlideshowState.
  unfold wakeLockState, flipAndToggle, toggleWakeLock, set_this. cbn.
  rewrite A1, A2, eqb_reflx. cbn.
  rewrite ?A1, ?A2, A3, A4, A5, A6, A7, A8, A9. reflexivity.
Qed.

(** A click with the Screen Wake Lock API and no sentinel stored: a
    request. *)
Lemma click_requests :
  f = r -> k = None -> v = true -> s = None ->
  wakeLockState (step w Click)
  = (negb r, negb r, None,
     (None, true, (cs ++ [Request])%list, S pr, pl, ls)).
Proof.
  intros -> -> -> ->. destruct (wakeLockState_fields _ _ _ _ _ _ _ _ _ _ W)
    as (A1 & A2 & A3 & A4 & A5 & A6 & A7 & A8 & A9).
  cbn [step]. rewrite wakeLockState_setSlideshowState.
  unfold wakeLockState, flipAndToggle, toggleWakeLock, set_this, set_window.
  cbn. rewrite A1, A2, A4, A5, A3. destruct r; cbn;
    rewrite ?A3, ?A5, ?A6, ?A7, ?A8, ?A9; reflexivity.
Qed.

(** A click with the Screen Wake Lock API and a sentinel stored: a
    release. *)
Lemma click_releases (h : sentinel) :
  f = r -> k = None -> v = true -> s = Some h ->
  wakeLockState (step w Click)
  = (negb r, negb r, Some h,
     (None, true, (cs ++ [Release h])%list, pr, S pl, ls)).
Proof.
  intros -> -> -> ->. destruct (wakeLockState_fields _ _ _ _ _ _ _ _ _ _ W)
    as (A1 & A2 & A3 & A4 & A5 & A6 & A7 & A8 & A9).
  cbn [step]. rewrite wakeLockState_setSlideshowState.
  unfold wakeLockState, flipAndToggle, toggleWakeLock, set_this, set_window.
  cbn. rewrite A1, A2, A4, A5, A3. destruct r; cbn;
    rewrite ?A3, ?A5, ?A6, ?A7, ?A8, ?A9; reflexivity.
Qed.

Lemma granted_fields (h : sentinel) (n : nat) :
  pr = S n ->
  wakeLockState (step w (WakeLockGranted h))
  = (r, f, Some h, (k, v, cs, n, pl, h :: ls)).
Proof.
  intros ->. destruct (wakeLockState_fields _ _ _ _ _ _ _ _ _ _ W)
    as (A1 & A2 & A3 & A4 & A5 & A6 & A7 & A8 & A9).
  cbn [step]. unfold wakeLockState, requestFulfilled, set_this, set_window.
  rewrite A7. cbn. rewrite A1, A2, A4, A5, A6, A8, A9. reflexivity.
Qed.

Lemma release_settled_fields (n : nat) :
  pl = S n ->
  wakeLockState (step w ReleaseSettled)
  = (r, f, None, (k, v, cs, pr, n, ls)).
Proof.
  intros ->. destruct (wakeLockState_fields _ _ _ _ _ _ _ _ _ _ W)
    as (A1 & A2 & A3 & A4 & A5 & A6 & A7 & A8 & A9).
  cbn [step]. unfold wakeLockState, releaseFulfilled, set_this, set_window.
  rewrite A8. cbn. rewrite A1, A2, A4, A5, A6, A7, A9. reflexivity.
Qed.

Lemma sentinel_released_fields (h : sentinel) :
  In h ls ->
  wakeLockState (step w (SentinelReleased h))
  = (r, false, None, (k, v, cs, pr, pl, ls)).
Proof.
  intros I. destruct (wakeLockState_fields _ _ _ _ _ _ _ _ _ _ W)
    as (A1 & A2 & A3 & A4 & A5 & A6 & A7 & A8 & A9).
  assert (X : existsb (Nat.eqb h) (releaseListeners (window w)) = true).
  { apply existsb_exists. exists h. rewrite A9. split; [exact I|apply Nat.eqb_refl]. }
  cbn [step]. unfold wakeLockState, onSentinelRelease, set_this.
  rewrite X. cbn. rewrite A1, A4, A5, A6, A7, A8, A9. reflexivity.
Qed.

End WakeLockSteps.

Lemma wakeLockState_self (w : World) :
  wakeLockState w
  = (slideshowIsRunning (this w), wakeLockIsRunning (this w),
     wakeLockSentinel (this w),
     (screen_keepAwake (window w), navigator_wakeLock (window w),
      wakeLockCalls (window w), pendingRequests (window w),
      pendingReleases (window w), releaseListeners (window w))).
Proof. reflexivity. Qed.

(** X16. A start, the grant of the request, a stop and the settling of the
    release bring the wake lock back to where it was: one [request()] and one
    [release()] of the granted sentinel were called, in that order, no
    sentinel is stored, the flag is false and no promise is left pending. In
    between, after the grant, the plugin holds the lock. *)
Theorem wake_lock_cycle (w : World) (h : sentinel) :
  slideshowIsRunning (this w) = false ->
  wakeLockIsRunning (this w) = false ->
  wakeLockSentinel (this w) = None ->
  screen_keepAwake (window w) = None ->
  navigator_wakeLock (window w) = true ->
  holdsLock (run [Click; WakeLockGranted h] w) h /\
  let w' := run [Click; WakeLockGranted h; Click; ReleaseSettled] w in
  wakeLockCalls (window w') = (wakeLockCalls (window w) ++ [Request; Release h])%list /\
  slideshowIsRunning (this w') = false /\
  wakeLockIsRunning (this w') = false /\
  wakeLockSentinel (this w') = None /\
  pendingRequests (window w') = pendingRequests (window w) /\
  pendingReleases (window w') = pendingReleases (window w).
Proof.
  intros R F S K V. cbn [run fold_left]. cbv zeta.
  pose proof (wakeLockState_self w) as E0. rewrite R, F, S, K, V in E0.
  pose proof (click_requests _ _ _ _ _ _ _ _ _ _ E0
                eq_refl eq_refl eq_refl eq_refl) as E1.
  set (w1 := step w Click) in *.
  pose proof (granted_fields _ _ _ _ _ _ _ _ _ _ E1 h _ eq_refl) as E2.
  set (w2 := step w1 (WakeLockGranted h)) in *.
  pose proof (click_releases _ _ _ _ _ _ _ _ _ _ E2 h
                eq_refl eq_refl eq_refl eq_refl) as E3.
  set (w3 := step w2 Click) in *.
  pose proof (release_settled_fields _ _ _ _ _ _ _ _ _ _ E3 _ eq_refl) as E4.
  set (w4 := step w3 ReleaseSettled) in *.
  destruct (wakeLockState_fields _ _ _ _ _ _ _ _ _ _ E2)
    as (_ & B2 & B3 & B4 & B5 & _).
  destruct (wakeLockState_fields _ _ _ _ _ _ _ _ _ _ E4)
    as (A1 & A2 & A3 & _ & _ & A6 & A7 & A8 & _).
  split.
  - unfold holdsLock.
    split; [exact B2|]. split; [exact B3|]. split; [exact B4|exact B5].
  - rewrite <- app_assoc in A6.
    split; [exact A6|]. split; [exact A1|]. split; [exact A2|].
    split; [exact A3|]. split; [exact A7|exact A8].
Qed.

Lemma wake_lock_cycle_witness :
  let w := Sample.opened (Sample.image false) in
  let w' := run [Click; WakeLockGranted 5; Click; ReleaseSettled] w in
  wakeLockCalls (window w') = [Request; Release 5] /\
  wakeLockSentinel (this w') = None /\
  wakeLockIsRunning (this w') = false.
Proof.
  cbv zeta.
  destruct (wake_lock_cycle (Sample.opened (Sample.image false)) 5
              eq_refl eq_refl eq_refl eq_refl eq_refl)
    as (_ & A & _ & B & C & _).
  split; [exact A|]. split; [exact C|exact B].
Defined.

(** X17. When the browser takes the wake lock back while the slideshow runs,
    the 'release' listener clears the flag and the sentinel, and the stop
    that follows asks nothing of the wake lock: no second release. *)
Theorem revoked_lock_not_released (w : World) (h : sentinel) :
  slideshowIsRunning (this w) = true ->
  In h (releaseListeners (window w)) ->
  let w' := run [SentinelReleased h; Click] w in
  slideshowIsRunning (this w') = false /\
  wakeLockIsRunning (this w') = false /\
  wakeLockSentinel (this w') = None /\
  wakeLockCalls (window w') = wakeLockCalls (window w) /\
  pendingReleases (window w') = pendingReleases (window w).
Proof.
  intros R I. cbn [run fold_left]. cbv zeta.
  pose proof (wakeLockState_self w) as E0. rewrite R in E0.
  pose proof (sentinel_released_fields _ _ _ _ _ _ _ _ _ _ E0 h I) as E1.
  set (w1 := step w (SentinelReleased h)) in *.
  pose proof (click_flag_agrees _ _ _ _ _ _ _ _ _ _ E1 eq_refl) as E2.
  set (w2 := step w1 Click) in *.
  destruct (wakeLockState_fields _ _ _ _ _ _ _ _ _ _ E2)
    as (A1 & A2 & A3 & _ & _ & A6 & _ & A8 & _).
  split; [exact A1|]. split; [exact A2|]. split; [exact A3|].
  split; [exact A6|exact A8].
Qed.

Lemma revoked_lock_not_released_witness :
  let w := run [LightboxInit; Click; WakeLockGranted 7]
             (start (Sample.setup (Sample.image false))) in
  let w' := run [SentinelReleased 7; Click] w in
  wakeLockCalls (window w') = [Request] /\ wakeLockSentinel (this w') = None.
Proof.
  cbv zeta.
  destruct (revoked_lock_not_released
              (run [LightboxInit; Click; WakeLockGranted 7]
                 (start (Sample.setup (Sample.image false)))) 7)
    as (_ & _ & A & B & _); [reflexivity|left; reflexivity|].
  split; [exact B|exact A].
Defined.

(** X18. [toggleWakeLock] chooses between [release()] and [request()] by
    whether a sentinel is stored. Stopping while the flag is set and no
    sentinel is stored (the request is not answered yet, or was rejected)
    sends another [request()]; a grant that arrives afterwards is stored
    although the slideshow is stopped, and the next start calls [release()]
    on it instead of requesting a lock. *)
Theorem stop_without_sentinel_requests (w : World) (h : sentinel) :
  slideshowIsRunning (this w) = true ->
  wakeLockIsRunning (this w) = true ->
  wakeLockSentinel (this w) = None ->
  screen_keepAwake (window w) = None ->
  navigator_wakeLock (window w) = true ->
  (let w1 := step w Click in
   slideshowIsRunning (this w1) = false /\
   wakeLockIsRunning (this w1) = false /\
   wakeLockCalls (window w1) = (wakeLockCalls (window w) ++ [Request])%list) /\
  (let w2 := run [Click; WakeLockGranted h] w in
   slideshowIsRunning (this w2) = false /\
   wakeLockSentinel (this w2) = Some h) /\
  (let w3 := run [Click; WakeLockGranted h; Click] w in
   slideshowIsRunning (this w3) = true /\
   wakeLockCalls (window w3)
   = (wakeLockCalls (window w) ++ [Request; Release h])%list).
Proof.
  intros R F S K V. cbn [run fold_left]. cbv zeta.
  pose proof (wakeLockState_self w) as E0. rewrite R, F, S, K, V in E0.
  pose proof (click_requests _ _ _ _ _ _ _ _ _ _ E0
                eq_refl eq_refl eq_refl eq_refl) as E1.
  set (w1 := step w Click) in *.
  pose proof (granted_fields _ _ _ _ _ _ _ _ _ _ E1 h _ eq_refl) as E2.
  set (w2 := step w1 (WakeLockGranted h)) in *.
  pose proof (click_releases _ _ _ _ _ _ _ _ _ _ E2 h
                eq_refl eq_refl eq_refl eq_refl) as E3.
  set (w3 := step w2 Click) in *.
  destruct (wakeLockState_fields _ _ _ _ _ _ _ _ _ _ E1)
    as (A1 & A2 & _ & _ & _ & A6 & _).
  destruct (wakeLockState_fields _ _ _ _ _ _ _ _ _ _ E2)
    as (B1 & _ & B3 & _).
  destruct (wakeLockState_fields _ _ _ _ _ _ _ _ _ _ E3)
    as (C1 & _ & _ & _ & _ & C6 & _).
  rewrite <- app_assoc in C6.
  split; [split; [exact A1|split; [exact A2|exact A6]]|].
  split; [split; [exact B1|exact B3]|].
  split; [exact C1|exact C6].
Qed.

Lemma stop_without_sentinel_requests_witness :
  let w := Sample.playing (Sample.image false) in
  wakeLockCalls (window (step w Click)) = [Request; Request] /\
  wakeLockSentinel (this (run [Click; WakeLockGranted 9] w)) = Some 9 /\
  wakeLockCalls (window (run [Click; WakeLockGranted 9; Click] w))
  = [Request; Request; Release 9].
Proof.
  cbv zeta.
  destruct (stop_without_sentinel_requests (Sample.playing (Sample.image false)) 9
              eq_refl eq_refl eq_refl eq_refl eq_refl)
    as ((_ & _ & A) & (_ & B) & (_ & C)).
  split; [exact A|]. split; [exact B|exact C].
Defined.

(** ** Moving to another slide *)

Lemma dispatch_onChange_idle (w : World) :
  slideshowIsRunning (this w) && restartOnSlideChange (options (this w)) = false ->
  dispatch onChange w = w.
Proof.
  intros O. unfold dispatch. induction (listeners (pswp w)) as [|k IH];
    [reflexivity|].
  change (onChange (Nat.iter k onChange w) = w).
  rewrite IH. unfold onChange. rewrite O. reflexivity.
Qed.

(** X19. A change of slide restarts the countdown only while the slideshow
    runs with [restartOnSlideChange]: otherwise the plugin's fields, the
    window with its pending timeouts and the progress bar stay as they are,
    so the new slide is shown for what was left of the old one's time. With
    the option, one advance timeout is pending afterwards, set up for the new
    slide: the timeout of [getSlideTimeout()] if its content has loaded, the
    200 ms one if not. *)
Theorem slide_change_restart (c : Setup) (es : list event) (c' : Content) :
  let w := run es (start c) in
  let w' := step w (SlideChange c') in
  let shown := set_pswp (with_currSlide c') w in
  (slideshowIsRunning (this w) && restartOnSlideChange (options (this w)) = false ->
     this w' = this w /\ window w' = window w /\
     pswp w' = with_currSlide c' (pswp w) /\
     progressBar (document w') = progressBar (document w)) /\
  (slideshowIsRunning (this w) = true ->
   restartOnSlideChange (options (this w)) = true ->
   1 <= listeners (pswp w) ->
     exists t,
       advanceTimers w' = [t] /\
       timer_callback t = (if slideContentHasLoaded shown then NextSlide else Recheck) /\
       timer_delay t = (if slideContentHasLoaded shown then getSlideTimeout shown
                        else 200%float)).
Proof.
  cbv zeta. set (w := run es (start c)). cbn [step]. unfold pswp_change. split.
  - intros O.
    rewrite (dispatch_onChange_idle (set_pswp (with_currSlide c') w) O).
    destruct (updateCounter_frame (set_pswp (with_currSlide c') w))
      as (E1 & E2 & E3 & E4 & _).
    rewrite E1, E2, E3, E4. repeat split.
  - intros R O L.
    destruct (reachable_invariants c es) as (T & _). fold w in T.
    destruct (dispatch_onChange_on (set_pswp (with_currSlide c') w) R O T L)
      as (w' & -> & T' & _ & _ & P' & O').
    rewrite advanceTimers_updateCounter.
    exists (scheduledTimer w').
    split; [apply goToNext_advanceTimers_scheduled, T'|].
    unfold scheduledTimer, slideContentHasLoaded, getSlideTimeout.
    rewrite P', O'.
    match goal with
    | |- context [if ?b then _ else _] => destruct b
    end; split; reflexivity.
Qed.

Lemma slide_change_restart_witness :
  let w := Sample.playing (Sample.image false) in
  let w' := step w (SlideChange (Sample.video false 10 3 false 4 1)) in
  this w' = this w /\ window w' = window w /\
  currSlide (pswp w') = Sample.video false 10 3 false 4 1.
Proof.
  cbv zeta.
  destruct (slide_change_restart (Sample.setup (Sample.image false))
              [LightboxInit; Click] (Sample.video false 10 3 false 4 1))
    as [A _].
  destruct (A eq_refl) as (E1 & E2 & E3 & _).
  split; [exact E1|]. split; [exact E2|]. exact (f_equal currSlide E3).
Defined.

(** ** The delay indicator *)

Lemma goToNext_counter (w : World) :
  pswp_counter (document (goToNextSlideAfterTimeout w)) = pswp_counter (document w).
Proof. break_schedule. Qed.

(** X20. After a change of the delay while the slideshow runs, the counter
    element, when the page has one, shows the delay now in force (the clamped
    one, not the one asked for) in seconds; when the page has none, the
    change goes through all the same. *)
Theorem delay_indicator (delta : JS.number) (w : World) :
  slideshowIsRunning (this w) = true ->
  let w' := changeSlideshowLength delta w in
  delay w' = clampDelay (delay w + delta)%float /\
  pswp_counter (document w')
  = match pswp_counter (document w) with
    | Some _ => Some (Seconds (delay w' / 1000)%float)
    | None => None
    end.
Proof.
  intros R. cbv zeta. split; [apply changeSlideshowLength_delay, R|].
  rewrite (changeSlideshowLength_delay delta w R).
  unfold changeSlideshowLength. rewrite R. cbn [negb]. rewrite goToNext_counter.
  unfold delay, setSlideshowLength, set_this, set_window, set_document. cbn.
  destruct (JS.neq _ _); cbn;
    destruct (pswp_counter (document w)) eqn:C; cbn; rewrite ?C; reflexivity.
Qed.

Lemma delay_indicator_witness :
  let w := run [LightboxInit; Click; KeyDown "Minus"; KeyDown "Minus";
                KeyDown "Minus"]
             (start (Sample.setup (Sample.image false))) in
  delay (changeSlideshowLength (-1000)%float w) = 1000%float /\
  pswp_counter (document (changeSlideshowLength (-1000)%float w))
  = Some (Seconds 1%float).
Proof.
  cbv zeta.
  destruct (delay_indicator (-1000)%float
              (run [LightboxInit; Click; KeyDown "Minus"; KeyDown "Minus";
                    KeyDown "Minus"]
                 (start (Sample.setup (Sample.image false)))) eq_refl)
    as [A B].
  split.
  - refine (eq_trans A _). vm_compute. reflexivity.
  - rewrite B. vm_compute. reflexivity.
Defined.
